(** * mcp-hello-py: the KMA nowcast server ([src/server.py])

    A shallow embedding of the decision logic of [server.py]: the region
    normaliser, the value casts, the wind-direction and precipitation
    decoders, the response normaliser and the [get_now_weather] orchestrator
    with its one-hour fallback, followed by the properties of the
    specification stated and proved over that embedding.

    Python values are modelled as they are at run time: a [str] is a
    sequence of Unicode code points, an [int] is an unbounded integer, a
    [float] is an IEEE-754 binary64 number ([spec_float] with precision 53),
    a [dict] is an insertion-ordered association list. *)

From Stdlib Require Import String Ascii.
From Stdlib Require Import ZArith List Bool Lia SpecFloat.
Import ListNotations.
Open Scope Z_scope.

(* ================================================================= *)
(** ** Python strings *)

(** A code point; a Python [str] is a list of them. *)
Definition codepoint := Z.
Definition pystr := list codepoint.

Definition byte_of_ascii (a : ascii) : Z := Z.of_N (N_of_ascii a).

(** The source file is UTF-8: a literal of the source is decoded from its
    bytes into code points.  Only well-formed text is ever decoded. *)
Fixpoint utf8_decode (bs : list Z) : pystr :=
  match bs with
  | [] => []
  | b0 :: t0 =>
    if b0 <? 128 then b0 :: utf8_decode t0
    else if b0 <? 224 then
      match t0 with
      | b1 :: t1 => ((b0 mod 32) * 64 + b1 mod 64) :: utf8_decode t1
      | _ => []
      end
    else if b0 <? 240 then
      match t0 with
      | b1 :: b2 :: t2 =>
        ((b0 mod 16) * 4096 + (b1 mod 64) * 64 + b2 mod 64) :: utf8_decode t2
      | _ => []
      end
    else
      match t0 with
      | b1 :: b2 :: b3 :: t3 =>
        ((b0 mod 8) * 262144 + (b1 mod 64) * 4096 + (b2 mod 64) * 64 + b3 mod 64)
          :: utf8_decode t3
      | _ => []
      end
  end.

(** [py "..."] is the Python string written as that literal. *)
Definition py (s : string) : pystr :=
  utf8_decode (map byte_of_ascii (list_ascii_of_string s)).

Definition str_eqb (a b : pystr) : bool :=
  if list_eq_dec Z.eq_dec a b then true else false.

(** [Py_UNICODE_ISSPACE]: the characters [str.strip()] removes. *)
Definition isspace (c : codepoint) : bool :=
  ((9 <=? c) && (c <=? 13)) || ((28 <=? c) && (c <=? 32))
  || (c =? 133) || (c =? 160) || (c =? 5760)
  || ((8192 <=? c) && (c <=? 8202))
  || (c =? 8232) || (c =? 8233) || (c =? 8239) || (c =? 8287) || (c =? 12288).

Fixpoint lstrip (s : pystr) : pystr :=
  match s with
  | c :: t => if isspace c then lstrip t else s
  | [] => []
  end.

Definition rstrip (s : pystr) : pystr := rev (lstrip (rev s)).

(** [s.strip()] *)
Definition strip (s : pystr) : pystr := rstrip (lstrip s).

(** [s.endswith(suffix)] *)
Definition endswith (s suffix : pystr) : bool :=
  (length suffix <=? length s)%nat
  && str_eqb (skipn (length s - length suffix) s) suffix.

(** [s[:-n]] for a length [n]: the slice [s[:-0]] is [s[:0]], the empty
    string, and a cut longer than the string leaves nothing. *)
Definition drop_last (n : nat) (s : pystr) : pystr :=
  match n with
  | O => []
  | _ => firstn (length s - n) s
  end.

(** Decimal digits of a non-negative integer, most significant first. *)
Fixpoint digits_acc (fuel : nat) (n : Z) (acc : pystr) : pystr :=
  match fuel with
  | O => acc
  | S fuel' =>
    let acc' := (48 + n mod 10) :: acc in
    if n <? 10 then acc' else digits_acc fuel' (n / 10) acc'
  end.

Definition digits (n : Z) : pystr :=
  digits_acc (S (Z.to_nat (Z.log2 n))) n [].

(** [str(z)] for an [int]. *)
Definition str_of_int (z : Z) : pystr :=
  if z <? 0 then 45 :: digits (- z) else digits z.

(** [f"{z:0wd}"]: sign-aware zero padding to width [w]. *)
Definition format_0d (w : nat) (z : Z) : pystr :=
  let sign := if z <? 0 then [45] else [] in
  let ds := digits (Z.abs z) in
  sign ++ repeat 48 (w - length sign - length ds) ++ ds.

(** Code-point order, the order of Python's [str] comparison. *)
Fixpoint str_ltb (a b : pystr) : bool :=
  match a, b with
  | [], [] => false
  | [], _ :: _ => true
  | _ :: _, [] => false
  | x :: a', y :: b' => (x <? y) || ((x =? y) && str_ltb a' b')
  end.

Fixpoint insert_sorted (x : pystr) (l : list pystr) : list pystr :=
  match l with
  | [] => [x]
  | y :: l' => if str_ltb y x then y :: insert_sorted x l' else x :: l
  end.

(** [sorted(...)] on strings. *)
Definition sorted (l : list pystr) : list pystr :=
  fold_right insert_sorted [] l.

(* ================================================================= *)
(** ** Dictionaries *)

(** A [dict] keyed by strings, in insertion order. *)
Definition dict (V : Type) := list (pystr * V).

Fixpoint dict_get {V} (d : dict V) (k : pystr) : option V :=
  match d with
  | [] => None
  | (k', v) :: d' => if str_eqb k' k then Some v else dict_get d' k
  end.

(** [k in d] *)
Definition dict_mem {V} (d : dict V) (k : pystr) : bool :=
  match dict_get d k with Some _ => true | None => false end.

(** [d[k] = v]: an existing key keeps its place, a new key goes last. *)
Fixpoint dict_set {V} (d : dict V) (k : pystr) (v : V) : dict V :=
  match d with
  | [] => [(k, v)]
  | (k', v') :: d' =>
    if str_eqb k' k then (k', v) :: d' else (k', v') :: dict_set d' k v
  end.

Definition dict_keys {V} (d : dict V) : list pystr := map fst d.

(* ================================================================= *)
(** ** Exceptions *)

(** The exception classes the handlers of [get_now_weather] tell apart;
    every other exception is an [OtherException]. *)
Inductive exn_class := HTTPStatusError | RequestError | OtherException.

(** An exception with its message, [str(e)]. *)
Record exn := Exn { exn_kind : exn_class; exn_msg : pystr }.

Inductive res (A : Type) : Type :=
| Ok (a : A)
| Raise (e : exn).
Arguments Ok {A} a.
Arguments Raise {A} e.

Definition bind {A B} (m : res A) (f : A -> res B) : res B :=
  match m with
  | Ok a => f a
  | Raise e => Raise e
  end.

Notation "x <- m ;; k" := (bind m (fun x => k))
  (at level 61, m at next level, right associativity).

(* ================================================================= *)
(** ** Floats *)

(** A Python [float]: IEEE-754 binary64. *)
Definition float := spec_float.
Definition prec : Z := 53.
Definition emax : Z := 1024.

(** The float nearest to an integer. *)
Definition float_of_int (z : Z) : float := binary_normalize prec emax z 0 false.

(** The float nearest to [m * 10^e10], with the sign [neg]: the value of
    a decimal literal, correctly rounded (ties to even). *)
Definition float_of_decimal (neg : bool) (m e10 : Z) : float :=
  if m =? 0 then S754_zero neg
  else if 0 <=? e10 then
    binary_normalize prec emax (cond_Zopp neg (m * 10 ^ e10)) 0 neg
  else
    let '(q, e, l) := SFdiv_core_binary prec emax m 0 (10 ^ (- e10)) 0 in
    binary_round_aux prec emax neg q e l.

Definition fadd : float -> float -> float := SFadd prec emax.
Definition fsub : float -> float -> float := SFsub prec emax.
Definition fdiv : float -> float -> float := SFdiv prec emax.

Definition fzero : float := S754_zero false.

(** C's [x != 0.0], the truth value of a double (NaN is true). *)
Definition float_nonzero (x : float) : bool :=
  match x with S754_zero _ => false | _ => true end.

Definition float_sign (x : float) : bool :=
  match x with
  | S754_zero s | S754_infinity s | S754_finite s _ _ => s
  | S754_nan => false
  end.

(** C's [fmod]: exact, with the sign of the dividend. *)
Definition fmod (x y : float) : float :=
  match x, y with
  | S754_nan, _ | _, S754_nan => S754_nan
  | S754_infinity _, _ => S754_nan
  | _, S754_zero _ => S754_nan
  | S754_zero _, _ => x
  | S754_finite _ _ _, S754_infinity _ => x
  | S754_finite sx mx ex, S754_finite _ my ey =>
    let e := Z.min ex ey in
    let X := Z.pos mx * 2 ^ (ex - e) in
    let Y := Z.pos my * 2 ^ (ey - e) in
    binary_normalize prec emax (cond_Zopp sx (X mod Y)) e sx
  end.

(** C's [floor]. *)
Definition ffloor (x : float) : float :=
  match x with
  | S754_finite s m e =>
    if 0 <=? e then x
    else binary_normalize prec emax (cond_Zopp s (Z.pos m) / 2 ^ (- e)) 0 s
  | _ => x
  end.

(** [float.__mod__] ([float_rem]) for a non-zero divisor. *)
Definition float_mod (vx wx : float) : float :=
  let md := fmod vx wx in
  if float_nonzero md then
    if negb (Bool.eqb (SFltb wx fzero) (SFltb md fzero)) then fadd md wx else md
  else S754_zero (float_sign wx).

(** [float.__floordiv__] ([_float_div_mod]) for a non-zero divisor. *)
Definition float_floordiv (vx wx : float) : float :=
  let md := fmod vx wx in
  let dv := fdiv (fsub vx md) wx in
  let dv :=
    if float_nonzero md && negb (Bool.eqb (SFltb wx fzero) (SFltb md fzero))
    then fsub dv (float_of_int 1) else dv in
  if float_nonzero dv then
    let fl := ffloor dv in
    if SFltb (float_of_decimal false 5 (-1)) (fsub dv fl)
    then fadd fl (float_of_int 1) else fl
  else S754_zero (float_sign (fdiv vx wx)).

(** [int(x)] for a float: truncation towards zero; infinities and NaN
    raise. *)
Definition int_of_float (x : float) : res Z :=
  match x with
  | S754_zero _ => Ok 0
  | S754_finite s m e => Ok (cond_Zopp s (Z.shiftl (Z.pos m) e))
  | S754_infinity _ =>
    Raise (Exn OtherException (py "cannot convert float infinity to integer"))
  | S754_nan =>
    Raise (Exn OtherException (py "cannot convert float NaN to integer"))
  end.

(* ================================================================= *)
(** ** Values *)

Unset Elimination Schemes.
(** What [r.json()] can hold: the Python image of a JSON document. *)
Inductive pyval :=
| VNone
| VBool (b : bool)
| VInt (z : Z)
| VFloat (f : float)
| VStr (s : pystr)
| VList (l : list pyval)
| VDict (d : list (pystr * pyval)).
Set Elimination Schemes.

(** [type(v).__name__] *)
Definition type_name (v : pyval) : pystr :=
  match v with
  | VNone => py "NoneType"
  | VBool _ => py "bool"
  | VInt _ => py "int"
  | VFloat _ => py "float"
  | VStr _ => py "str"
  | VList _ => py "list"
  | VDict _ => py "dict"
  end.

(** [v.get(k, default)]: only a [dict] has the method. *)
Definition py_get (v : pyval) (k : pystr) (default : pyval) : res pyval :=
  match v with
  | VDict d => Ok (match dict_get d k with Some x => x | None => default end)
  | _ =>
    Raise (Exn OtherException
             (py "'" ++ type_name v ++ py "' object has no attribute 'get'"))
  end.

(** [isinstance(v, int)]: [bool] is a subclass of [int]. *)
Definition as_int (v : pyval) : option Z :=
  match v with
  | VInt z => Some z
  | VBool b => Some (if b then 1 else 0)
  | _ => None
  end.

(* ================================================================= *)
(** ** Input normaliser *)

(** The suffix tuple of [normalize_city], in the order of the source. *)
Definition city_suffixes : list pystr :=
  [py "특별자치시"; py "특별시"; py "광역시"; py "시"].

(** One turn of the [for suffix in ...] loop. *)
Definition strip_suffix (s suffix : pystr) : pystr :=
  if endswith s suffix then drop_last (length suffix) s else s.

Definition normalize_city (city : pystr) : pystr :=
  match city with
  | [] => []
  | _ =>
    let s := strip city in
    let s := fold_left strip_suffix city_suffixes s in
    strip s
  end.

(* ================================================================= *)
(** ** Reference tables *)

(** [CITY_TO_GRID] *)
Definition CITY_TO_GRID : dict (Z * Z) :=
  [ (py "서울", (60, 127)); (py "부산", (98, 76)); (py "대구", (89, 90));
    (py "인천", (55, 124)); (py "광주", (58, 74)); (py "대전", (67, 100));
    (py "울산", (102, 84)); (py "세종", (66, 103)) ].

(** [PTY_MAP_ULTRA], keyed by the integer code. *)
Definition PTY_MAP_ULTRA : list (Z * pystr) :=
  [ (0, py "없음"); (1, py "비"); (2, py "비/눈"); (3, py "눈");
    (4, py "소나기"); (5, py "빗방울"); (6, py "빗방울/눈날림");
    (7, py "눈날림") ].

Fixpoint pty_lookup (t : list (Z * pystr)) (k : Z) : option pystr :=
  match t with
  | [] => None
  | (k', v) :: t' => if k' =? k then Some v else pty_lookup t' k
  end.

(** The declared numeric kind of a category: [int] or [float]. *)
Inductive cast_kind := CastInt | CastFloat.

Record category_meta := {
  meta_ko : pystr;
  meta_unit : pystr;
  meta_group : pystr;
  meta_cast : cast_kind
}.

(** [CATEGORY_META] *)
Definition CATEGORY_META : dict category_meta :=
  [ (py "T1H", Build_category_meta (py "기온") (py "℃") (py "기온") CastFloat);
    (py "REH", Build_category_meta (py "습도") (py "%") (py "습도") CastInt);
    (py "RN1", Build_category_meta (py "1시간 강수량") (py "mm") (py "강수") CastFloat);
    (py "PTY", Build_category_meta (py "강수형태") (py "코드") (py "강수") CastInt);
    (py "VEC", Build_category_meta (py "풍향") (py "deg") (py "바람") CastInt);
    (py "WSD", Build_category_meta (py "풍속") (py "m/s") (py "바람") CastFloat);
    (py "UUU", Build_category_meta (py "동서바람성분") (py "m/s") (py "바람") CastFloat);
    (py "VVV", Build_category_meta (py "남북바람성분") (py "m/s") (py "바람") CastFloat) ].

(** [WIND_DIR_16_KO] *)
Definition WIND_DIR_16_KO : list pystr :=
  [ py "북"; py "북북동"; py "북동"; py "동북동"; py "동"; py "동남동";
    py "남동"; py "남남동"; py "남"; py "남남서"; py "남서"; py "서남서";
    py "서"; py "서북서"; py "북서"; py "북북서" ].

(* ================================================================= *)
(** ** Wind direction *)

(** A degree value as Python holds it. *)
Inductive number := Int (z : Z) | Float (f : float).

(** The literals [11.25] and [22.5] of the source. *)
Definition f11_25 : float := float_of_decimal false 1125 (-2).
Definition f22_5 : float := float_of_decimal false 225 (-1).

(** [int(((deg % 360) + 11.25) // 22.5) % 16] *)
Definition wind_index (deg : number) : res Z :=
  let wrapped :=
    match deg with
    | Int z => float_of_int (z mod 360)
    | Float f => float_mod f (float_of_int 360)
    end in
  q <- int_of_float (float_floordiv (fadd wrapped f11_25) f22_5) ;;
  Ok (q mod 16).

Definition wind_deg_to_16dir_ko (deg : option number) : res (option pystr) :=
  match deg with
  | None => Ok None
  | Some d =>
    idx <- wind_index d ;;
    Ok (Some (nth (Z.to_nat idx) WIND_DIR_16_KO []))
  end.

(* ================================================================= *)
(** ** Parsing a float *)

Definition is_digit (c : codepoint) : bool := (48 <=? c) && (c <=? 57).

(** [Py_ISSPACE], the C-locale blanks [float()] itself skips. *)
Definition is_c_space (c : codepoint) : bool :=
  ((9 <=? c) && (c <=? 13)) || (c =? 32).

Fixpoint span_digits (s : pystr) : pystr * pystr :=
  match s with
  | c :: t =>
    if is_digit c then let (ds, r) := span_digits t in (c :: ds, r)
    else ([], s)
  | [] => ([], [])
  end.

Definition digits_value (ds : pystr) : Z :=
  fold_left (fun acc c => acc * 10 + (c - 48)) ds 0.

Definition lower (c : codepoint) : codepoint :=
  if (65 <=? c) && (c <=? 90) then c + 32 else c.

Definition parse_sign (s : pystr) : bool * pystr :=
  match s with
  | c :: t => if c =? 45 then (true, t) else if c =? 43 then (false, t) else (false, s)
  | [] => (false, [])
  end.

(** What follows the mantissa: nothing, or [e], an optional sign and at
    least one digit, up to the end of the text. *)
Definition parse_exponent (s : pystr) : option Z :=
  match s with
  | [] => Some 0
  | c :: t =>
    if (c =? 101) || (c =? 69) then
      let (neg, t') := parse_sign t in
      let (ds, r) := span_digits t' in
      match ds, r with
      | _ :: _, [] => Some (cond_Zopp neg (digits_value ds))
      | _, _ => None
      end
    else None
  end.

(** [PyOS_string_to_double] on a whole text: [inf], [infinity] and [nan] in
    any case, or a decimal number; [None] when the text is no number. *)
Definition strtod (s : pystr) : option float :=
  let (neg, body) := parse_sign s in
  let low := map lower body in
  if str_eqb low (py "inf") || str_eqb low (py "infinity") then Some (S754_infinity neg)
  else if str_eqb low (py "nan") then Some S754_nan
  else
    let (ip, r1) := span_digits body in
    let (fp, r2) :=
      match r1 with
      | c :: t => if c =? 46 then span_digits t else ([], r1)
      | [] => ([], [])
      end in
    match ip ++ fp with
    | [] => None
    | ds =>
      match parse_exponent r2 with
      | Some e => Some (float_of_decimal neg (digits_value ds) (e - Z.of_nat (length fp)))
      | None => None
      end
    end.

Fixpoint lstrip_c (s : pystr) : pystr :=
  match s with
  | c :: t => if is_c_space c then lstrip_c t else s
  | [] => []
  end.

(** [float_from_string_inner] *)
Definition float_from_string_inner (s : pystr) : option float :=
  strtod (rev (lstrip_c (rev (lstrip_c s)))).

(** [_Py_string_to_number_with_underscores]: an underscore may only stand
    between two digits; [prev] is the character before [s]. *)
Fixpoint remove_underscores (prev : codepoint) (s : pystr) : option pystr :=
  match s with
  | [] => if prev =? 95 then None else Some []
  | c :: t =>
    if c =? 95 then
      if is_digit prev then remove_underscores c t else None
    else if (prev =? 95) && negb (is_digit c) then None
    else option_map (cons c) (remove_underscores c t)
  end.

Definition string_to_number_with_underscores (s : pystr) : option float :=
  if existsb (Z.eqb 95) s then
    match remove_underscores 0 s with
    | Some s' => float_from_string_inner s'
    | None => None
    end
  else float_from_string_inner s.

(* ================================================================= *)
(** ** Time window planner *)

(** A [datetime] in the zone [KST]; the zone has a fixed offset and plays
    no part in the arithmetic below, which Python does on the wall clock. *)
Record datetime := {
  dt_year : Z;
  dt_month : Z;
  dt_day : Z;
  dt_hour : Z;
  dt_minute : Z;
  dt_second : Z;
  dt_microsecond : Z
}.

Definition is_leap (y : Z) : bool :=
  (y mod 4 =? 0) && (negb (y mod 100 =? 0) || (y mod 400 =? 0)).

Definition days_in_month (y m : Z) : Z :=
  if m =? 2 then (if is_leap y then 29 else 28)
  else if (m =? 4) || (m =? 6) || (m =? 9) || (m =? 11) then 30
  else 31.

(** The fields a [datetime] object can hold. *)
Definition valid_datetime (d : datetime) : bool :=
  (1 <=? dt_year d) && (dt_year d <=? 9999)
  && (1 <=? dt_month d) && (dt_month d <=? 12)
  && (1 <=? dt_day d) && (dt_day d <=? days_in_month (dt_year d) (dt_month d))
  && (0 <=? dt_hour d) && (dt_hour d <? 24)
  && (0 <=? dt_minute d) && (dt_minute d <? 60)
  && (0 <=? dt_second d) && (dt_second d <? 60)
  && (0 <=? dt_microsecond d) && (dt_microsecond d <? 1000000).

(** Days before the first of January of year [y], and before the first of
    month [m], as [datetime] counts them. *)
Definition days_before_year (y : Z) : Z :=
  let p := y - 1 in p * 365 + p / 4 - p / 100 + p / 400.

Definition days_before_month (y m : Z) : Z :=
  nth (Z.to_nat m) [0; 0; 31; 59; 90; 120; 151; 181; 212; 243; 273; 304; 334] 0
  + (if (2 <? m) && is_leap y then 1 else 0).

(** [d.toordinal()]: the first of January of year 1 is day 1. *)
Definition toordinal (d : datetime) : Z :=
  days_before_year (dt_year d) + days_before_month (dt_year d) (dt_month d)
  + dt_day d.

(** Microseconds since the midnight that starts day 1. *)
Definition to_microseconds (d : datetime) : Z :=
  ((((toordinal d - 1) * 24 + dt_hour d) * 60 + dt_minute d) * 60
   + dt_second d) * 1000000 + dt_microsecond d.

(** [now.replace(minute=0, second=0, microsecond=0)] *)
Definition replace_to_hour (d : datetime) : datetime :=
  {| dt_year := dt_year d; dt_month := dt_month d; dt_day := dt_day d;
     dt_hour := dt_hour d; dt_minute := 0; dt_second := 0;
     dt_microsecond := 0 |}.

(** [d - timedelta(hours=1)]: the hour before, on the day before when the
    hour is 0; there is no [datetime] before year 1. *)
Definition minus_one_hour (d : datetime) : res datetime :=
  let at_23 y m dd :=
    {| dt_year := y; dt_month := m; dt_day := dd; dt_hour := 23;
       dt_minute := dt_minute d; dt_second := dt_second d;
       dt_microsecond := dt_microsecond d |} in
  if 1 <=? dt_hour d then
    Ok {| dt_year := dt_year d; dt_month := dt_month d; dt_day := dt_day d;
          dt_hour := dt_hour d - 1; dt_minute := dt_minute d;
          dt_second := dt_second d; dt_microsecond := dt_microsecond d |}
  else if 1 <? dt_day d then Ok (at_23 (dt_year d) (dt_month d) (dt_day d - 1))
  else if 1 <? dt_month d then
    Ok (at_23 (dt_year d) (dt_month d - 1)
              (days_in_month (dt_year d) (dt_month d - 1)))
  else if 1 <? dt_year d then Ok (at_23 (dt_year d - 1) 12 31)
  else Raise (Exn OtherException (py "date value out of range")).

(** [d.strftime("%Y%m%d")]: the year on four digits, the month and the
    day on two, as the library documents the directives (the C library of
    some platforms leaves a year below 1000 unpadded; dates are told apart
    either way). *)
Definition as_base_date (d : datetime) : pystr :=
  format_0d 4 (dt_year d) ++ format_0d 2 (dt_month d) ++ format_0d 2 (dt_day d).

(** [f"{d.hour:02d}00"] *)
Definition as_base_time_hour (d : datetime) : pystr :=
  format_0d 2 (dt_hour d) ++ py "00".

(** The list [candidates]: the top of the current hour, then the hour
    before it. *)
Definition candidate_windows (now : datetime) : res (list datetime) :=
  let hour_floor := replace_to_hour now in
  earlier <- minus_one_hour hour_floor ;;
  Ok [hour_floor; earlier].

(** The candidates whose date is [base_date]: the comprehension that
    fills ["candidate_times"], and the windows the loop does not skip. *)
Definition eligible (base_date : pystr) (candidates : list datetime) : list datetime :=
  filter (fun c => str_eqb (as_base_date c) base_date) candidates.

(** A digit table and a [repr] for concrete runs: the table knows no digit
    outside ASCII and the [repr] is never looked at. *)
Definition ascii_decimal : codepoint -> option Z := fun _ => None.
Definition repr_unused : pyval -> pystr := fun _ => [].

Section Runtime.

(** Two tables of the interpreter that are not reproduced here: the
    decimal value of a non-ASCII digit ([Py_UNICODE_TODECIMAL], from the
    Unicode database) and [repr] of a float, list or dict. *)
Variable unicode_decimal : codepoint -> option Z.
Variable py_repr : pyval -> pystr.

(** The loop of [_PyUnicode_TransformDecimalAndSpaceToASCII]: the text
    stops at the first character that is neither ASCII, a blank nor a
    digit. *)
Fixpoint transform_loop (s : pystr) : pystr :=
  match s with
  | [] => []
  | c :: t =>
    if c <? 127 then c :: transform_loop t
    else if isspace c then 32 :: transform_loop t
    else match unicode_decimal c with
         | Some d => (48 + d) :: transform_loop t
         | None => [63]
         end
  end.

(** [_PyUnicode_TransformDecimalAndSpaceToASCII]: an ASCII string is
    returned as it is. *)
Definition transform_decimal_and_space (s : pystr) : pystr :=
  if forallb (fun c => c <? 128) s then s else transform_loop s.

(** [float(s)] for a [str]: [None] stands for [ValueError]. *)
Definition py_float (s : pystr) : option float :=
  string_to_number_with_underscores (transform_decimal_and_space s).

(** [str(v)], on the values for which [str] returns: it raises
    [ValueError] on an [int] of more than 4300 digits, also inside a list
    or a dictionary (see [str_defined] below). *)
Definition py_str (v : pyval) : pystr :=
  match v with
  | VNone => py "None"
  | VBool true => py "True"
  | VBool false => py "False"
  | VInt z => str_of_int z
  | VStr s => s
  | _ => py_repr v
  end.

(** [safe_cast]: the two declared kinds are [int] and [float]; whatever
    the conversion raises, the original value is returned. *)
Definition safe_cast (meta_cast : cast_kind) (raw : pyval) : pyval :=
  match raw with
  | VNone => VNone
  | _ =>
    let s := strip (py_str raw) in
    match s with
    | [] => VNone
    | _ =>
      match meta_cast with
      | CastInt =>
        match py_float s with
        | Some f => match int_of_float f with Ok z => VInt z | Raise _ => raw end
        | None => raw
        end
      | CastFloat =>
        match py_float s with
        | Some f => VFloat f
        | None => raw
        end
      end
    end
  end.

(* --------------------------------------------------------------- *)
(** *** Response normaliser *)

(** One normalised entry: the keys ["코드"], ["값"], ["단위"] and, when
    set, ["설명"] and ["16방위"]. *)
Record entry := {
  e_code : pystr;
  e_value : pyval;
  e_unit : option pystr;
  e_desc : option pystr;
  e_dir16 : option pystr
}.

Definition groups := dict (dict entry).

(** The five empty groups [normalize_observations] starts from. *)
Definition empty_groups : groups :=
  [ (py "기온", []); (py "습도", []); (py "강수", []); (py "바람", []);
    (py "기타", []) ].

(** The description attached to a ["PTY"] entry. *)
Definition pty_description (val raw_val : pyval) : pystr :=
  let pty_int :=
    match as_int val with Some _ => val | None => safe_cast CastInt raw_val end in
  match as_int pty_int with
  | Some z =>
    match pty_lookup PTY_MAP_ULTRA z with
    | Some d => d
    | None => py "알 수 없음(" ++ py_str pty_int ++ py ")"
    end
  | None => py "알 수 없음"
  end.

(** The compass label attached to a ["VEC"] entry, when there is one. *)
Definition vec_direction (val raw_val : pyval) : res (option pystr) :=
  let vec_int :=
    match as_int val with Some _ => val | None => safe_cast CastInt raw_val end in
  match as_int vec_int with
  | Some z => wind_deg_to_16dir_ko (Some (Int z))
  | None => Ok None
  end.

(** The first part of the loop body: the code, the label, the group and
    the entry of one raw item. *)
Definition build_entry (it : pyval) : res (pystr * pystr * pystr * entry) :=
  category <- py_get it (py "category") (VStr []) ;;
  let code := strip (py_str category) in
  raw_val <- py_get it (py "obsrValue") VNone ;;
  let '(name_ko, unit, group, val) :=
    match dict_get CATEGORY_META code with
    | Some meta =>
      (meta_ko meta, Some (meta_unit meta), meta_group meta,
       safe_cast (meta_cast meta) raw_val)
    | None =>
      (match code with [] => py "UNKNOWN" | _ => code end, None, py "기타", raw_val)
    end in
  let desc :=
    if str_eqb code (py "PTY") then Some (pty_description val raw_val) else None in
  dir16 <- (if str_eqb code (py "VEC") then vec_direction val raw_val else Ok None) ;;
  Ok (code, name_ko, group, Build_entry code val unit desc dir16).

(** The second part: the entry is stored under its label, or under the
    label followed by the code in parentheses when the label is taken. *)
Definition store_entry (grouped : groups) (code name_ko group : pystr)
           (e : entry) : res groups :=
  let group := if dict_mem grouped group then group else py "기타" in
  match dict_get grouped group with
  | Some g =>
    let key := name_ko in
    let key := if dict_mem g key then key ++ py "(" ++ code ++ py ")" else key in
    Ok (dict_set grouped group (dict_set g key e))
  | None => Raise (Exn OtherException group)
  end.

Definition normalize_item (grouped : groups) (it : pyval) : res groups :=
  b <- build_entry it ;;
  let '(code, name_ko, group, e) := b in
  store_entry grouped code name_ko group e.

Fixpoint normalize_loop (items : list pyval) (grouped : groups) : res groups :=
  match items with
  | [] => Ok grouped
  | it :: rest => g <- normalize_item grouped it ;; normalize_loop rest g
  end.

Definition normalize_observations (items : list pyval) : res groups :=
  normalize_loop items empty_groups.

(** [extract_items]: whatever goes wrong, the list is empty. *)
Definition extract_items (api_json : pyval) : list pyval :=
  match (response <- py_get api_json (py "response") (VDict []) ;;
         body <- py_get response (py "body") (VDict []) ;;
         items <- py_get body (py "items") (VDict []) ;;
         py_get items (py "item") (VList []))
  with
  | Ok (VList l) => l
  | Ok (VDict d) => [VDict d]
  | Ok _ => []
  | Raise _ => []
  end.

(* --------------------------------------------------------------- *)
(** *** Upstream client *)

(** [os.getenv] *)
Definition environ := pystr -> option pystr.

(** [_need_env] *)
Definition need_env (env : environ) (name : pystr) : res pystr :=
  let v := strip (match env name with Some s => s | None => [] end) in
  match v with
  | [] => Raise (Exn OtherException (name ++ py " 환경변수가 비어 있습니다."))
  | _ => Ok v
  end.

(** The query parameters of one request. *)
Record request := {
  rq_serviceKey : pystr;
  rq_numOfRows : pystr;
  rq_pageNo : pystr;
  rq_dataType : pystr;
  rq_base_date : pystr;
  rq_base_time : pystr;
  rq_nx : pystr;
  rq_ny : pystr
}.

(** The [params] dictionary of [fetch_ultra_srt_ncst]. *)
Definition query_params (service_key base_date base_time : pystr) (nx ny : Z)
  : request :=
  {| rq_serviceKey := service_key; rq_numOfRows := py "1000";
     rq_pageNo := py "1"; rq_dataType := py "JSON";
     rq_base_date := base_date; rq_base_time := base_time;
     rq_nx := str_of_int nx; rq_ny := str_of_int ny |}.

(** The service: what the [n]-th call of an invocation, with the given
    parameters, ends in after [raise_for_status()] and [r.json()]. *)
Definition upstream := nat -> request -> res pyval.

(** [fetch_ultra_srt_ncst]; the requests issued so far are threaded
    through as [log]. *)
Definition fetch_ultra_srt_ncst (up : upstream) (log : list request)
           (service_key base_date base_time : pystr) (nx ny : Z)
  : res pyval * list request :=
  let params := query_params service_key base_date base_time nx ny in
  (up (length log) params, log ++ [params]).

(* --------------------------------------------------------------- *)
(** *** Orchestrator *)

(** One record of the attempt trail. *)
Record attempt := {
  at_base_date : pystr;
  at_base_time : pystr;
  at_resultCode : pystr;
  at_resultMsg : pystr;
  at_count : Z
}.

(** The dictionaries [get_now_weather] returns, by shape. *)
Inductive result :=
| ConfigFailure (error : pystr)
| UnsupportedCity (error input normalized : pystr) (supported_cities : list pystr)
| Success (region : pystr) (grid : Z * Z) (base_date base_time : pystr)
          (observations : groups) (attempts : list attempt)
| Failure (error region : pystr) (grid : Z * Z) (base_date : pystr)
          (candidate_times : list pystr) (attempts : list attempt).

(** The header fields read at the top of the [try] block. *)
Definition read_header (api_json : pyval) : res (pystr * pystr) :=
  response <- py_get api_json (py "response") (VDict []) ;;
  header <- py_get response (py "header") (VDict []) ;;
  rc <- py_get header (py "resultCode") (VStr []) ;;
  let result_code := strip (py_str rc) in
  rm <- py_get header (py "resultMsg") (VStr []) ;;
  Ok (result_code, strip (py_str rm)).

Definition empty_data_message (result_code : pystr) (count : Z) : pystr :=
  py "정상 응답이지만 데이터가 비어있습니다(resultCode=" ++ result_code
  ++ py ", count=" ++ str_of_int count ++ py ")".

(** How a [try] block that did not raise ends: with [return], or by
    setting [last_error]. *)
Inductive outcome := Return (r : result) | Next (last_error : pystr).

(** The [try] block for one window, after the fetch.  The attempt trail
    is a list object that is appended to: it keeps the record also when
    the block raises afterwards. *)
Definition try_window (city_norm : pystr) (nx ny : Z) (base_date base_time : pystr)
           (attempts : list attempt) (fetched : res pyval)
  : list attempt * res outcome :=
  match (api_json <- fetched ;; h <- read_header api_json ;; Ok (api_json, h)) with
  | Raise e => (attempts, Raise e)
  | Ok (api_json, (result_code, result_msg)) =>
    let items := extract_items api_json in
    let attempts :=
      attempts ++ [ {| at_base_date := base_date; at_base_time := base_time;
                       at_resultCode := result_code; at_resultMsg := result_msg;
                       at_count := Z.of_nat (length items) |} ] in
    if str_eqb result_code (py "00") && negb (length items =? 0)%nat then
      match normalize_observations items with
      | Ok obs =>
        (attempts,
         Ok (Return (Success city_norm (nx, ny) base_date base_time obs attempts)))
      | Raise e => (attempts, Raise e)
      end
    else
      (attempts,
       Ok (Next (empty_data_message result_code (Z.of_nat (length items)))))
  end.

(** The three [except] clauses. *)
Definition handle (e : exn) : pystr :=
  match exn_kind e with
  | HTTPStatusError => py "HTTPStatusError: " ++ exn_msg e
  | RequestError => py "RequestError: " ++ exn_msg e
  | OtherException => py "Exception: " ++ exn_msg e
  end.

(** The [for cand_dt in candidates] loop: it ends with the result it
    returns, or falls through with the trail and the last error. *)
Fixpoint for_candidates (up : upstream) (service_key city_norm : pystr)
         (nx ny : Z) (base_date : pystr) (candidates : list datetime)
         (attempts : list attempt) (last_error : option pystr)
         (log : list request)
  : (result + list attempt * option pystr) * list request :=
  match candidates with
  | [] => (inr (attempts, last_error), log)
  | cand_dt :: rest =>
    if negb (str_eqb (as_base_date cand_dt) base_date) then
      for_candidates up service_key city_norm nx ny base_date rest
                     attempts last_error log
    else
      let base_time := as_base_time_hour cand_dt in
      let (fetched, log) :=
        fetch_ultra_srt_ncst up log service_key base_date base_time nx ny in
      match try_window city_norm nx ny base_date base_time attempts fetched with
      | (_, Ok (Return r)) => (inl r, log)
      | (attempts, Ok (Next msg)) =>
        for_candidates up service_key city_norm nx ny base_date rest
                       attempts (Some msg) log
      | (attempts, Raise e) =>
        for_candidates up service_key city_norm nx ny base_date rest
                       attempts (Some (handle e)) log
      end
  end.

(** [get_now_weather]: [env] is the process environment, [now] the
    reading of [now_kst()], [up] the service as reached through the HTTP
    client, which is taken as built and closed without an exception.  The
    result comes with the requests that were issued, in order. *)
Definition get_now_weather (env : environ) (now : datetime) (up : upstream)
           (city : pystr) : res result * list request :=
  match need_env env (py "KMA_SERVICE_KEY") with
  | Raise e => (Ok (ConfigFailure (exn_msg e)), [])
  | Ok service_key =>
    let city_norm := normalize_city city in
    match dict_get CITY_TO_GRID city_norm with
    | None =>
      (Ok (UnsupportedCity (py "지원하지 않는 지역입니다.") city city_norm
                           (sorted (dict_keys CITY_TO_GRID))), [])
    | Some (nx, ny) =>
      let base_date := as_base_date now in
      match candidate_windows now with
      | Raise e => (Raise e, [])
      | Ok candidates =>
        match for_candidates up service_key city_norm nx ny base_date
                             candidates [] None [] with
        | (inl r, log) => (Ok r, log)
        | (inr (attempts, last_error), log) =>
          let error :=
            match last_error with
            | Some (c :: m) => c :: m
            | _ => py "알 수 없는 오류"
            end in
          (Ok (Failure error city_norm (nx, ny) base_date
                       (map as_base_time_hour (eligible base_date candidates))
                       attempts), log)
        end
      end
    end
  end.



(* --------------------------------------------------------------- *)
(** *** Auxiliary definitions for the statements *)

(** The string does not start with a blank. *)
Definition no_lead (s : pystr) : Prop :=
  match s with
  | c :: _ => isspace c = false
  | [] => True
  end.

(** Following the words of the specification: the suffixes are tried in
    the listed order, longest first, and the first one the name ends with
    is removed; nothing is removed after it. *)
Fixpoint strip_first_match (suffixes : list pystr) (s : pystr) : pystr :=
  match suffixes with
  | [] => s
  | q :: rest =>
    if endswith s q then drop_last (length q) s else strip_first_match rest s
  end.

Definition normalize_city_spec (city : pystr) : pystr :=
  strip (strip_first_match city_suffixes (strip city)).

(** Following the words of the specification: the degree value wrapped
    into 0-360, shifted by half a sector (11.25) and divided into sectors
    of 22.5 degrees, in exact arithmetic on quarter degrees. *)
Definition sector_index (d : Z) : Z := ((4 * (d mod 360) + 45) / 90) mod 16.

(** [d.get(k, default)] on a dictionary. *)
Definition get_or (d : list (pystr * pyval)) (k : pystr) (default : pyval) : pyval :=
  match dict_get d k with Some x => x | None => default end.

(** The category code and the raw value [build_entry] reads from an item. *)
Definition item_code (d : list (pystr * pyval)) : pystr :=
  strip (py_str (get_or d (py "category") (VStr []))).

Definition item_raw (d : list (pystr * pyval)) : pyval :=
  get_or d (py "obsrValue") VNone.

(** The compass label of a ["VEC"] entry; computing it never raises. *)
Definition vec_label (val raw : pyval) : option pystr :=
  match vec_direction val raw with Ok o => o | Raise _ => None end.

(** The description of a precipitation code. *)
Definition pty_text (v : Z) : pystr :=
  match pty_lookup PTY_MAP_ULTRA v with
  | Some t => t
  | None => py "알 수 없음(" ++ str_of_int v ++ py ")"
  end.

Definition same_date (a b : datetime) : bool :=
  (dt_year a =? dt_year b) && (dt_month a =? dt_month b) && (dt_day a =? dt_day b).

Definition is_dict (v : pyval) : bool :=
  match v with VDict _ => true | _ => false end.

(** The window of a candidate, as the request for it. *)
Definition window_request (service_key base_date : pystr) (nx ny : Z)
           (c : datetime) : request :=
  query_params service_key base_date (as_base_time_hour c) nx ny.

(** A fetch that came back and whose header could be read: the result
    code, the message and the items. *)
Definition parsed (fetched : res pyval) : option (pystr * pystr * list pyval) :=
  match fetched with
  | Ok api_json =>
    match read_header api_json with
    | Ok (code, msg) => Some (code, msg, extract_items api_json)
    | Raise _ => None
    end
  | Raise _ => None
  end.

(** The test [result_code == "00" and items]. *)
Definition success_with_items (code : pystr) (items : list pyval) : bool :=
  str_eqb code (py "00") && negb (length items =? 0)%nat.

(** The window is accepted: the test holds and the items normalise. *)
Definition accepted (fetched : res pyval) : bool :=
  match parsed fetched with
  | Some (code, _, items) => success_with_items code items && forallb is_dict items
  | None => false
  end.


(** The record appended for a parsed response. *)
Definition attempt_record (base_date base_time code msg : pystr)
           (items : list pyval) : attempt :=
  {| at_base_date := base_date; at_base_time := base_time;
     at_resultCode := code; at_resultMsg := msg;
     at_count := Z.of_nat (length items) |}.

(** The window a request asks for. *)
Definition request_window (r : request) : pystr * pystr :=
  (rq_base_date r, rq_base_time r).

(* --------------------------------------------------------------- *)
(** *** Inputs for concrete runs *)

(** An environment with the credential, and one without. *)
Definition env_with_key : environ :=
  fun name => if str_eqb name (py "KMA_SERVICE_KEY") then Some (py "test-key") else None.
Definition env_without_key : environ := fun _ => None.

(** 13:40:12.000005 and 00:15:00 on 3 November 2026, and 12:00 of that day. *)
Definition now_1340 : datetime :=
  {| dt_year := 2026; dt_month := 11; dt_day := 3; dt_hour := 13;
     dt_minute := 40; dt_second := 12; dt_microsecond := 5 |}.
Definition now_0015 : datetime :=
  {| dt_year := 2026; dt_month := 11; dt_day := 3; dt_hour := 0;
     dt_minute := 15; dt_second := 0; dt_microsecond := 0 |}.
Definition hour_1200 : datetime :=
  {| dt_year := 2026; dt_month := 11; dt_day := 3; dt_hour := 12;
     dt_minute := 0; dt_second := 0; dt_microsecond := 0 |}.

(** A raw observation and a response envelope, as the service sends them. *)
Definition observation (category value : pystr) : pyval :=
  VDict [(py "category", VStr category); (py "obsrValue", VStr value)].

Definition response (code : pystr) (items : list pyval) : pyval :=
  VDict
    [(py "response",
      VDict [(py "header",
              VDict [(py "resultCode", VStr code);
                     (py "resultMsg", VStr (py "NORMAL_SERVICE"))]);
             (py "body", VDict [(py "items", VDict [(py "item", VList items)])])])].

(** The first call is answered with one item, any later one with two. *)
Definition up_one_then_two : upstream :=
  fun n _ =>
    match n with
    | O => Ok (response (py "00") [observation (py "T1H") (py "1.5")])
    | _ => Ok (response (py "00") [observation (py "T1H") (py "2");
                                   observation (py "REH") (py "40")])
    end.

(** Every call is answered with code ["03"] and no item. *)
Definition up_no_data : upstream := fun _ _ => Ok (response (py "03") []).

(** The first call is answered with the item list [[1]], any later one with
    two observations. *)
Definition up_bad_item_then_two : upstream :=
  fun n _ =>
    match n with
    | O => Ok (response (py "00") [VInt 1])
    | _ => Ok (response (py "00") [observation (py "T1H") (py "2");
                                   observation (py "REH") (py "40")])
    end.

(* --------------------------------------------------------------- *)
(** *** The city listing *)

(** What [list_supported_cities] returns: the keys ["supported_cities"]
    and ["examples"]. *)
Record city_listing := {
  supported_cities : list pystr;
  examples : list pystr
}.

Definition list_supported_cities : city_listing :=
  {| supported_cities := sorted (dict_keys CITY_TO_GRID);
     examples := [py "서울"; py "서울특별시"; py "서울시"; py "부산";
                  py "부산광역시"; py "세종시"] |}.

(** The list is in strictly increasing code-point order. *)
Fixpoint strictly_increasing (l : list pystr) : bool :=
  match l with
  | a :: ((b :: _) as t) => str_ltb a b && strictly_increasing t
  | _ => true
  end.

(** The value [_need_env] looks at: [os.getenv(name) or ""]. *)
Definition env_value (env : environ) (name : pystr) : pystr :=
  match env name with Some s => s | None => [] end.

(* --------------------------------------------------------------- *)
(** *** Labels, groups and counts of the normalised output *)

(** The label and the group [build_entry] gives a category code. *)
Definition label_of (code : pystr) : pystr :=
  match dict_get CATEGORY_META code with
  | Some meta => meta_ko meta
  | None => match code with [] => py "UNKNOWN" | _ => code end
  end.

Definition group_of (code : pystr) : pystr :=
  match dict_get CATEGORY_META code with
  | Some meta => meta_group meta
  | None => py "기타"
  end.

(** The label followed by the code in parentheses. *)
Definition suffixed (label code : pystr) : pystr :=
  label ++ py "(" ++ code ++ py ")".

(** The keys of the output of [normalize_observations]. *)
Definition group_names : list pystr :=
  [py "기온"; py "습도"; py "강수"; py "바람"; py "기타"].

(** The number of entries in all groups. *)
Definition entry_count (g : groups) : nat :=
  fold_right (fun p n => (length (snd p) + n)%nat) 0%nat g.

(* --------------------------------------------------------------- *)
(** *** The requests of one invocation and their answers *)

(** What a response leaves in [last_error] when its window does not end
    the loop: the message of the handler that caught the exception, or the
    message of the empty data; [None] when the window ends the loop. *)
Definition window_error (fetched : res pyval) : option pystr :=
  match fetched with
  | Raise e => Some (handle e)
  | Ok api_json =>
    match read_header api_json with
    | Raise e => Some (handle e)
    | Ok (code, _) =>
      let items := extract_items api_json in
      if success_with_items code items then
        match normalize_observations items with
        | Ok _ => None
        | Raise e => Some (handle e)
        end
      else Some (empty_data_message code (Z.of_nat (length items)))
    end
  end.

(** The requests [log], the first of which is the [n]-th request of the
    invocation, each with its answer. *)
Fixpoint answers (up : upstream) (n : nat) (log : list request)
  : list (request * res pyval) :=
  match log with
  | [] => []
  | r :: rest => (r, up n r) :: answers up (S n) rest
  end.

(** The record an answer leaves in the trail: none when the fetch or the
    reading of the header raised. *)
Definition record_of (r : request) (fetched : res pyval) : list attempt :=
  match parsed fetched with
  | Some (code, msg, items) =>
    [attempt_record (rq_base_date r) (rq_base_time r) code msg items]
  | None => []
  end.

Definition trail (l : list (request * res pyval)) : list attempt :=
  flat_map (fun p => record_of (fst p) (snd p)) l.

(** The trail a result carries. *)
Definition attempts_of (r : result) : list attempt :=
  match r with
  | Success _ _ _ _ _ attempts => attempts
  | Failure _ _ _ _ _ attempts => attempts
  | _ => []
  end.

Definition is_failure (r : res result) : bool :=
  match r with Ok (Failure _ _ _ _ _ _) => true | _ => false end.

(* --------------------------------------------------------------- *)
(** *** The cast of integer texts *)

(** The decimal texts of [n] and of [- n], cast as integers, give [n] and
    [- n] back. *)
Definition casts_back (n : Z) : bool :=
  match safe_cast CastInt (VStr (str_of_int n)),
        safe_cast CastInt (VStr (str_of_int (- n))) with
  | VInt m, VInt m' => (m =? n) && (m' =? - n)
  | _, _ => false
  end.

(** A service that cannot be reached: every call raises [RequestError]. *)
Definition up_unreachable : upstream :=
  fun _ _ => Raise (Exn RequestError (py "timed out")).

(* --------------------------------------------------------------- *)
(** *** Float degree values on the quarter-degree grid *)





(* --------------------------------------------------------------- *)
(** *** Values whose text is modelled *)



(* ================================================================= *)
(** * Properties *)

(* ================================================================= *)
(** ** Strings and dictionaries *)

Lemma str_eqb_eq (a b : pystr) : str_eqb a b = true <-> a = b.
Proof.
  unfold str_eqb. destruct (list_eq_dec Z.eq_dec a b); split; congruence.
Qed.

Lemma str_eqb_refl (a : pystr) : str_eqb a a = true.
Proof. now apply str_eqb_eq. Qed.

Lemma str_eqb_neq (a b : pystr) : str_eqb a b = false <-> a <> b.
Proof.
  unfold str_eqb. destruct (list_eq_dec Z.eq_dec a b); split; congruence.
Qed.

Lemma endswith_app (core suffix : pystr) : endswith (core ++ suffix) suffix = true.
Proof.
  unfold endswith. rewrite length_app.
  replace (length core + length suffix - length suffix)%nat with (length core) by lia.
  rewrite skipn_app, skipn_all, Nat.sub_diag. simpl.
  rewrite str_eqb_refl, andb_true_r. apply Nat.leb_le. lia.
Qed.

Lemma endswith_inv (s suffix : pystr) :
  endswith s suffix = true -> exists core, s = core ++ suffix.
Proof.
  unfold endswith. intros H. apply andb_true_iff in H as [_ H].
  apply str_eqb_eq in H.
  exists (firstn (length s - length suffix) s).
  rewrite <- H at 2. symmetry. apply firstn_skipn.
Qed.

(** What [strip] returns starts and ends with no blank, so stripping
    twice is stripping once. *)
Lemma lstrip_no_lead (s : pystr) : no_lead (lstrip s).
Proof.
  induction s as [|c t IH]; simpl; [exact I|].
  destruct (isspace c) eqn:E; [exact IH | exact E].
Qed.

Lemma lstrip_id (s : pystr) : no_lead s -> lstrip s = s.
Proof. destruct s as [|c t]; simpl; [reflexivity|]. now intros ->. Qed.

Lemma lstrip_suffix (s : pystr) : exists ws, s = ws ++ lstrip s.
Proof.
  induction s as [|c t [ws IH]]; simpl.
  - now exists [].
  - destruct (isspace c).
    + exists (c :: ws). simpl. now f_equal.
    + now exists [].
Qed.

Lemma strip_no_lead (s : pystr) : no_lead (strip s) /\ no_lead (rev (strip s)).
Proof.
  unfold strip, rstrip. rewrite rev_involutive. split; [|apply lstrip_no_lead].
  pose proof (lstrip_no_lead s) as Ht.
  destruct (lstrip_suffix (rev (lstrip s))) as [ws Hws].
  set (u := lstrip (rev (lstrip s))) in *.
  assert (E : lstrip s = rev u ++ rev ws).
  { rewrite <- rev_app_distr, <- Hws. now rewrite rev_involutive. }
  destruct (rev u) as [|c r] eqn:Er; [exact I|].
  rewrite E in Ht. exact Ht.
Qed.

Lemma strip_idem (s : pystr) : strip (strip s) = strip s.
Proof.
  destruct (strip_no_lead s) as [H1 H2].
  unfold strip at 1, rstrip at 1.
  rewrite (lstrip_id _ H1), (lstrip_id _ H2). apply rev_involutive.
Qed.

Lemma drop_last_app (core suffix : pystr) :
  suffix <> [] -> drop_last (length suffix) (core ++ suffix) = core.
Proof.
  intros Hne. unfold drop_last.
  destruct (length suffix) eqn:E.
  - destruct suffix; [congruence | discriminate].
  - rewrite <- E, length_app.
    replace (length core + length suffix - length suffix)%nat with (length core) by lia.
    rewrite firstn_app, firstn_all, Nat.sub_diag. simpl. apply app_nil_r.
Qed.

Lemma strip_suffix_app (core suffix : pystr) :
  suffix <> [] -> strip_suffix (core ++ suffix) suffix = core.
Proof.
  intros Hne. unfold strip_suffix. rewrite endswith_app. now apply drop_last_app.
Qed.

Lemma strip_suffix_none (s : pystr) (suffixes : list pystr) :
  (forall q, In q suffixes -> endswith s q = false) ->
  fold_left strip_suffix suffixes s = s.
Proof.
  induction suffixes as [|q l IH]; intros H; simpl; [reflexivity|].
  unfold strip_suffix at 2. rewrite (H q (or_introl eq_refl)).
  apply IH. intros q' Hq'. apply H. now right.
Qed.

Lemma city_suffixes_nonempty (q : pystr) : In q city_suffixes -> q <> [].
Proof.
  unfold city_suffixes. simpl.
  intros [H|[H|[H|[H|[]]]]]; subst q; vm_compute; discriminate.
Qed.

(* ================================================================= *)
(** ** Decimal text *)

(** The fuel of [digits] is enough: reading the digits back gives the
    number. *)
Lemma digits_acc_value (fuel : nat) (n : Z) (acc : pystr) :
  0 <= n < 2 ^ Z.of_nat fuel ->
  fold_left (fun a c => a * 10 + (c - 48)) (digits_acc fuel n acc) 0
  = fold_left (fun a c => a * 10 + (c - 48)) acc n.
Proof.
  revert n acc. induction fuel as [|fuel IH]; intros n acc Hn.
  - simpl in *. now replace n with 0 by lia.
  - rewrite Nat2Z.inj_succ, Z.pow_succ_r in Hn by lia.
    cbn [digits_acc]. destruct (Z.ltb_spec n 10) as [Hlt|Hge].
    + cbn [fold_left]. f_equal.
      rewrite (Z.mod_small n 10) by lia. lia.
    + rewrite IH.
      * cbn [fold_left]. f_equal. Z.div_mod_to_equations. lia.
      * Z.div_mod_to_equations. lia.
Qed.

Lemma digits_value_digits (n : Z) : 0 <= n -> digits_value (digits n) = n.
Proof.
  intros Hn. unfold digits_value, digits. rewrite digits_acc_value; [reflexivity|].
  destruct (Z.eq_dec n 0) as [->|Hne]; [simpl; lia|].
  pose proof (Z.log2_spec n ltac:(lia)) as [_ Hup].
  pose proof (Z.log2_nonneg n).
  rewrite Nat2Z.inj_succ, Z2Nat.id by lia. split; [exact Hn | exact Hup].
Qed.

(* ================================================================= *)
(** ** Input normaliser *)

(** The loop has no [break]: after a suffix has been removed the shorter
    ones listed after it are still tried on what is left. *)
Lemma normalize_city_split (city core q : pystr) (pre post : list pystr) :
  city_suffixes = pre ++ q :: post ->
  (forall p, In p pre -> endswith (strip city) p = false) ->
  strip city = core ++ q ->
  normalize_city city = strip (fold_left strip_suffix post core).
Proof.
  intros Hsplit Hpre Hcore.
  assert (Hq : q <> []).
  { apply city_suffixes_nonempty. rewrite Hsplit. apply in_or_app. right. now left. }
  unfold normalize_city. destruct city as [|c city'].
  - exfalso. vm_compute in Hcore. destruct core; destruct q; congruence.
  - cbv zeta. rewrite Hsplit, fold_left_app. simpl fold_left.
    rewrite (strip_suffix_none _ _ Hpre), Hcore, strip_suffix_app by assumption.
    reflexivity.
Qed.

(** C7 as stated fails: on ["부산시광역시"] the longest matching suffix is
    ["광역시"], which leaves ["부산시"]; [normalize_city] goes on to remove
    ["시"] as well and returns ["부산"]. *)
Lemma C7_counterexample :
  normalize_city (py "부산시광역시") = py "부산"
  /\ normalize_city_spec (py "부산시광역시") = py "부산시"
  /\ normalize_city (py "부산시광역시") <> normalize_city_spec (py "부산시광역시").
Proof. vm_compute. repeat split. discriminate. Qed.

(** C7 (amended): [normalize_city] is a total function on strings.  It
    trims the input and makes one pass over the suffix list, longest
    first.  Input that ends with no listed suffix is returned trimmed.
    Otherwise the first (longest) listed suffix that matches is removed,
    and the pass goes on with the suffixes listed after it, so a shorter
    suffix is removed too when what is left ends with it; when it does
    not, the result is the trimmed name without its longest suffix.
    ["서울특별시"], ["서울시"] and ["서울"] give ["서울"], ["세종특별자치시"]
    gives ["세종"], and a name outside the supported set comes back
    normalised, not rejected. *)
Theorem C7_normalize_city :
  (forall city,
      (forall q, In q city_suffixes -> endswith (strip city) q = false) ->
      normalize_city city = strip city)
  /\ (forall city core q pre post,
         city_suffixes = pre ++ q :: post ->
         (forall p, In p pre -> endswith (strip city) p = false) ->
         strip city = core ++ q ->
         normalize_city city = strip (fold_left strip_suffix post core)
         /\ ((forall r, In r post -> endswith core r = false) ->
             normalize_city city = strip core
             /\ normalize_city city = normalize_city_spec city))
  /\ normalize_city (py "서울특별시") = py "서울"
  /\ normalize_city (py "서울시") = py "서울"
  /\ normalize_city (py "서울") = py "서울"
  /\ normalize_city (py "세종특별자치시") = py "세종"
  /\ normalize_city [] = []
  /\ normalize_city (py "  ") = []
  /\ normalize_city (py "도쿄시") = py "도쿄"
  /\ dict_mem CITY_TO_GRID (py "도쿄") = false.
Proof.
  split; [|split].
  - intros city H. unfold normalize_city. destruct city as [|c city']; [reflexivity|].
    cbv zeta. rewrite (strip_suffix_none _ _ H). apply strip_idem.
  - intros city core q pre post Hsplit Hpre Hcore. split.
    + now apply normalize_city_split with (q := q) (pre := pre).
    + intros Hpost.
      assert (E : normalize_city city = strip core).
      { rewrite (normalize_city_split city core q pre post Hsplit Hpre Hcore).
        now rewrite (strip_suffix_none _ _ Hpost). }
      split; [exact E|]. rewrite E. unfold normalize_city_spec.
      f_equal. rewrite Hsplit, Hcore.
      assert (Hq : q <> []).
      { apply city_suffixes_nonempty. rewrite Hsplit.
        apply in_or_app. right. now left. }
      rewrite Hcore in Hpre. clear - Hpre Hq.
      induction pre as [|p pre IH]; simpl.
      * rewrite endswith_app. symmetry. now apply drop_last_app.
      * rewrite (Hpre p (or_introl eq_refl)). apply IH.
        intros p' Hp'. apply Hpre. now right.
  - vm_compute. repeat split.
Qed.

(** C7 at ["서울특별시"]: ["특별자치시"] does not match, ["특별시"] does and
    leaves ["서울"], which ends with neither ["광역시"] nor ["시"]. *)
Lemma C7_witness : normalize_city (py "서울특별시") = py "서울".
Proof.
  change (py "서울") with (strip (py "서울")).
  refine (proj1 (proj2 (proj1 (proj2 C7_normalize_city)
            (py "서울특별시") (py "서울") (py "특별시")
            [py "특별자치시"] [py "광역시"; py "시"] eq_refl _ eq_refl) _)).
  - intros p [<-|[]]. reflexivity.
  - intros r [<-|[<-|[]]]; reflexivity.
Defined.

(* ================================================================= *)
(** ** Wind direction *)

Lemma forallb_below (P : Z -> bool) (n : Z) :
  forallb P (map Z.of_nat (seq 0 (Z.to_nat n))) = true ->
  forall z, 0 <= z < n -> P z = true.
Proof.
  intros H z Hz. rewrite forallb_forall in H. apply H.
  apply in_map_iff. exists (Z.to_nat z). split; [lia|].
  apply in_seq. lia.
Qed.

(** On an [int] the float arithmetic of [wind_index] is exact. *)
Lemma wind_index_int (d : Z) : wind_index (Int d) = Ok (sector_index d).
Proof.
  assert (Hr : 0 <= d mod 360 < 360) by (apply Z.mod_pos_bound; lia).
  pose (P := fun r : Z =>
    match int_of_float (float_floordiv (fadd (float_of_int r) f11_25) f22_5) with
    | Ok q => q mod 16 =? ((4 * r + 45) / 90) mod 16
    | Raise _ => false
    end).
  assert (HP : P (d mod 360) = true).
  { apply (forallb_below P 360); [vm_compute; reflexivity | exact Hr]. }
  unfold wind_index, sector_index, bind. unfold P in HP.
  destruct (int_of_float _) as [q|e]; [|discriminate].
  apply Z.eqb_eq in HP. now rewrite HP.
Qed.

Lemma sector_index_range (d : Z) : 0 <= sector_index d < 16.
Proof. unfold sector_index. apply Z.mod_pos_bound. lia. Qed.

Lemma wind_label_int (d : Z) :
  wind_deg_to_16dir_ko (Some (Int d))
  = Ok (Some (nth (Z.to_nat (sector_index d)) WIND_DIR_16_KO [])).
Proof. unfold wind_deg_to_16dir_ko. now rewrite wind_index_int. Qed.




(* ================================================================= *)
(** ** Casting *)

(** A missing or blank value is cast to [None], whatever the kind. *)
Lemma safe_cast_blank (kind : cast_kind) (raw : pyval) :
  raw = VNone \/ strip (py_str raw) = [] -> safe_cast kind raw = VNone.
Proof.
  intros [->|H]; [reflexivity|].
  unfold safe_cast. rewrite H. now destruct raw.
Qed.

Lemma safe_cast_str (kind : cast_kind) (s : pystr) :
  strip s <> [] ->
  safe_cast kind (VStr s)
  = match py_float (strip s) with
    | Some f =>
      match kind with
      | CastFloat => VFloat f
      | CastInt => match int_of_float f with Ok z => VInt z | Raise _ => VStr s end
      end
    | None => VStr s
    end.
Proof.
  intros H. unfold safe_cast. simpl py_str.
  destruct (strip s) as [|c t]; [congruence|].
  destruct kind; destruct (py_float (c :: t)); reflexivity.
Qed.

(** C6 (amended): cast as the integer kind, ["3.0"] gives the integer 3:
    the text is parsed as a float and the float is truncated.  For every
    string that is not empty or blank and that [float()] does not accept
    (such as ["abc"]), under either kind, [safe_cast] returns the string
    it was given. *)
Theorem C6_safe_cast :
  safe_cast CastInt (VStr (py "3.0")) = VInt 3
  /\ (forall kind, safe_cast kind (VStr (py "abc")) = VStr (py "abc"))
  /\ (forall kind s,
         strip s <> [] -> py_float (strip s) = None ->
         safe_cast kind (VStr s) = VStr s)
  /\ (forall s f z,
         strip s <> [] -> py_float (strip s) = Some f -> int_of_float f = Ok z ->
         safe_cast CastInt (VStr s) = VInt z /\ safe_cast CastFloat (VStr s) = VFloat f).
Proof.
  split; [vm_compute; reflexivity|].
  split; [intros []; vm_compute; reflexivity|].
  split.
  - intros kind s Hne Hf. rewrite safe_cast_str by assumption. now rewrite Hf.
  - intros s f z Hne Hf Hz. rewrite !safe_cast_str by assumption.
    now rewrite Hf, Hz.
Qed.

(* ================================================================= *)
(** ** Entries *)

Lemma vec_direction_ok (val raw : pyval) : exists o, vec_direction val raw = Ok o.
Proof.
  unfold vec_direction. destruct (as_int _) as [z|]; [|now exists None].
  rewrite wind_label_int. eauto.
Qed.

(** The entry of an item of a known category. *)
Lemma build_entry_known (d : list (pystr * pyval)) (meta : category_meta) :
  dict_get CATEGORY_META (item_code d) = Some meta ->
    build_entry (VDict d)
    = Ok (item_code d, meta_ko meta, meta_group meta,
          {| e_code := item_code d;
             e_value := safe_cast (meta_cast meta) (item_raw d);
             e_unit := Some (meta_unit meta);
             e_desc := if str_eqb (item_code d) (py "PTY")
                       then Some (pty_description
                                    (safe_cast (meta_cast meta) (item_raw d))
                                    (item_raw d))
                       else None;
             e_dir16 := if str_eqb (item_code d) (py "VEC")
                        then vec_label (safe_cast (meta_cast meta) (item_raw d))
                                       (item_raw d)
                        else None |}).
Proof.
  intros Hmeta. unfold build_entry. simpl py_get. unfold bind at 1 2.
  fold (get_or d (py "category") (VStr [])). fold (item_code d).
  fold (get_or d (py "obsrValue") VNone). fold (item_raw d).
  rewrite Hmeta.
  destruct (str_eqb (item_code d) (py "VEC")); [|reflexivity].
  unfold vec_label.
  destruct (vec_direction_ok (safe_cast (meta_cast meta) (item_raw d)) (item_raw d))
    as [o Ho].
  rewrite Ho. reflexivity.
Qed.

(** An item that is a dictionary always has an entry. *)
Lemma build_entry_dict (d : list (pystr * pyval)) :
  exists code name_ko group e, build_entry (VDict d) = Ok (code, name_ko, group, e).
Proof.
  destruct (dict_get CATEGORY_META (item_code d)) as [meta|] eqn:E.
  - rewrite (build_entry_known d meta E). eauto.
  - unfold build_entry. simpl py_get. unfold bind at 1 2.
    fold (get_or d (py "category") (VStr [])). fold (item_code d).
    fold (get_or d (py "obsrValue") VNone). fold (item_raw d).
    rewrite E.
    destruct (str_eqb (item_code d) (py "VEC")).
    + destruct (vec_direction_ok (item_raw d) (item_raw d)) as [o Ho].
      rewrite Ho. simpl. eauto.
    + simpl. eauto.
Qed.

(** C10: for either declared kind [safe_cast] returns [None] when the raw
    value is [None] or when its text is empty or blank; the value field of
    the entry of an item of a known category whose observation value is
    missing, null or blank is then [None], not a string. *)
Theorem C10_missing_value_is_none :
  (forall kind raw,
      raw = VNone \/ strip (py_str raw) = [] -> safe_cast kind raw = VNone)
  /\ (forall kind, safe_cast kind (VStr []) = VNone
                   /\ safe_cast kind (VStr (py "   ")) = VNone
                   /\ safe_cast kind (VStr []) <> VStr [])
  /\ (forall d meta,
         dict_get CATEGORY_META (item_code d) = Some meta ->
         dict_get d (py "obsrValue") = None
         \/ item_raw d = VNone \/ strip (py_str (item_raw d)) = [] ->
         exists e,
           build_entry (VDict d) = Ok (item_code d, meta_ko meta, meta_group meta, e)
           /\ e_value e = VNone).
Proof.
  split; [exact safe_cast_blank|].
  split; [intros []; vm_compute; repeat split; discriminate|].
  intros d meta Hmeta Hraw.
  rewrite (build_entry_known d meta Hmeta). eexists. split; [reflexivity|]. simpl.
  apply safe_cast_blank.
  destruct Hraw as [H|[H|H]]; [left|left|right]; try assumption.
  unfold item_raw, get_or. now rewrite H.
Qed.

(** C8: the entry of a ["PTY"] item whose value casts to the integer [v]
    carries the table entry of [v] as its description when [v] is a known
    code (["없음"] for 0) and ["알 수 없음(v)"] when it is not
    (["알 수 없음(9)"] for 9). *)
Theorem C8_pty_description :
  forall d v,
    item_code d = py "PTY" ->
    safe_cast CastInt (item_raw d) = VInt v ->
    (exists e,
        build_entry (VDict d) = Ok (py "PTY", py "강수형태", py "강수", e)
        /\ e_value e = VInt v
        /\ e_desc e = Some (pty_text v)
        /\ normalize_observations [VDict d]
           = Ok [ (py "기온", []); (py "습도", []);
                  (py "강수", [(py "강수형태", e)]);
                  (py "바람", []); (py "기타", []) ])
    /\ (forall t, pty_lookup PTY_MAP_ULTRA v = Some t -> pty_text v = t)
    /\ (pty_lookup PTY_MAP_ULTRA v = None ->
        pty_text v = py "알 수 없음(" ++ str_of_int v ++ py ")")
    /\ pty_text 0 = py "없음"
    /\ pty_text 9 = py "알 수 없음(9)".
Proof.
  intros d v Hcode Hcast. split.
  - assert (Hmeta : dict_get CATEGORY_META (item_code d)
                    = Some (Build_category_meta (py "강수형태") (py "코드") (py "강수") CastInt)).
    { rewrite Hcode. reflexivity. }
    pose proof (build_entry_known d _ Hmeta) as Ho.
    rewrite Hcode in Ho. simpl in Ho.
    eexists. split; [|split; [|split]].
    + rewrite Ho. reflexivity.
    + simpl. exact Hcast.
    + simpl. rewrite Hcast.
      unfold pty_description, pty_text. simpl as_int. cbv iota.
      destruct (pty_lookup PTY_MAP_ULTRA v); reflexivity.
    + unfold normalize_observations, normalize_loop, normalize_item.
      rewrite Ho. reflexivity.
  - split; [|split; [|split]].
    + intros t Ht. unfold pty_text. now rewrite Ht.
    + intros Hn. unfold pty_text. now rewrite Hn.
    + reflexivity.
    + reflexivity.
Qed.

(* ================================================================= *)
(** ** Dates *)

Lemma format_0d_2 (n : Z) :
  0 <= n < 100 -> format_0d 2 n = [48 + n / 10; 48 + n mod 10].
Proof.
  intros H.
  apply str_eqb_eq.
  apply (forallb_below
           (fun n => str_eqb (format_0d 2 n) [48 + n / 10; 48 + n mod 10]) 100);
    [vm_compute; reflexivity | exact H].
Qed.

Lemma format_0d_4 (n : Z) :
  0 <= n < 10000 ->
  format_0d 4 n
  = [48 + n / 1000; 48 + (n / 100) mod 10; 48 + (n / 10) mod 10; 48 + n mod 10].
Proof.
  intros H.
  apply str_eqb_eq.
  apply (forallb_below
           (fun n => str_eqb (format_0d 4 n)
                       [48 + n / 1000; 48 + (n / 100) mod 10;
                        48 + (n / 10) mod 10; 48 + n mod 10]) 10000);
    [vm_compute; reflexivity | exact H].
Qed.

(** The fields of a valid [datetime], as inequalities. *)
Lemma valid_datetime_fields (d : datetime) :
  valid_datetime d = true ->
  1 <= dt_year d <= 9999 /\ 1 <= dt_month d <= 12
  /\ 1 <= dt_day d <= days_in_month (dt_year d) (dt_month d)
  /\ 0 <= dt_hour d < 24 /\ 0 <= dt_minute d < 60 /\ 0 <= dt_second d < 60
  /\ 0 <= dt_microsecond d < 1000000.
Proof.
  unfold valid_datetime. rewrite !andb_true_iff.
  rewrite !Z.leb_le, !Z.ltb_lt. lia.
Qed.

Lemma days_in_month_bound (y m : Z) : 28 <= days_in_month y m <= 31.
Proof.
  unfold days_in_month.
  destruct (m =? 2); [destruct (is_leap y); lia|].
  destruct ((m =? 4) || (m =? 6) || (m =? 9) || (m =? 11)); lia.
Qed.

Lemma digits4_inj (a b : Z) :
  0 <= a < 10000 -> 0 <= b < 10000 ->
  48 + a / 1000 = 48 + b / 1000 ->
  48 + (a / 100) mod 10 = 48 + (b / 100) mod 10 ->
  48 + (a / 10) mod 10 = 48 + (b / 10) mod 10 ->
  48 + a mod 10 = 48 + b mod 10 -> a = b.
Proof.
  intros Ha Hb E1 E2 E3 E4.
  assert (D : forall n, 0 <= n < 10000 ->
            n = 1000 * (n / 1000) + 100 * ((n / 100) mod 10)
                + 10 * ((n / 10) mod 10) + n mod 10).
  { intros n Hn. Z.div_mod_to_equations. lia. }
  rewrite (D a Ha), (D b Hb). lia.
Qed.

Lemma digits2_inj (a b : Z) :
  0 <= a < 100 -> 0 <= b < 100 ->
  48 + a / 10 = 48 + b / 10 -> 48 + a mod 10 = 48 + b mod 10 -> a = b.
Proof. intros Ha Hb E1 E2. Z.div_mod_to_equations. lia. Qed.

(** [strftime("%Y%m%d")] tells dates apart. *)
Lemma as_base_date_inj (a b : datetime) :
  0 <= dt_year a < 10000 -> 0 <= dt_month a < 100 -> 0 <= dt_day a < 100 ->
  0 <= dt_year b < 10000 -> 0 <= dt_month b < 100 -> 0 <= dt_day b < 100 ->
  as_base_date a = as_base_date b -> same_date a b = true.
Proof.
  intros Hya Hma Hda Hyb Hmb Hdb. unfold as_base_date, same_date.
  rewrite !format_0d_4, !format_0d_2 by assumption. cbn [app].
  intros E. injection E as E1 E2 E3 E4 E5 E6 E7 E8.
  rewrite !andb_true_iff, !Z.eqb_eq.
  repeat split;
    [ now apply digits4_inj | now apply digits2_inj | now apply digits2_inj ].
Qed.

Lemma same_date_base_date (a b : datetime) :
  same_date a b = true -> as_base_date a = as_base_date b.
Proof.
  unfold same_date, as_base_date. rewrite !andb_true_iff, !Z.eqb_eq.
  now intros [[-> ->] ->].
Qed.

Lemma days_before_month_step (y m : Z) :
  2 <= m <= 12 ->
  days_before_month y m = days_before_month y (m - 1) + days_in_month y (m - 1).
Proof.
  intros H.
  assert (C : m = 2 \/ m = 3 \/ m = 4 \/ m = 5 \/ m = 6 \/ m = 7 \/ m = 8
              \/ m = 9 \/ m = 10 \/ m = 11 \/ m = 12) by lia.
  unfold days_before_month, days_in_month.
  repeat (destruct C as [->|C]; [destruct (is_leap y); reflexivity|]).
  subst m. destruct (is_leap y); reflexivity.
Qed.

Lemma days_before_year_step (y : Z) :
  days_before_year y
  = days_before_year (y - 1) + 365 + (if is_leap (y - 1) then 1 else 0).
Proof.
  unfold days_before_year, is_leap. cbv zeta.
  destruct (Z.eqb_spec ((y - 1) mod 4) 0) as [H4|H4];
    destruct (Z.eqb_spec ((y - 1) mod 100) 0) as [H100|H100];
    destruct (Z.eqb_spec ((y - 1) mod 400) 0) as [H400|H400];
    cbn [andb orb negb]; Z.div_mod_to_equations; lia.
Qed.

(** The hour before a valid [datetime] that is not in the first hour of
    year 1: it exists, it is valid, it lies exactly one hour (3600 million
    microseconds) earlier, and it is on the same day unless the hour is 0. *)
Lemma minus_one_hour_spec (d : datetime) :
  valid_datetime d = true ->
  1 < dt_year d \/ 1 < dt_month d \/ 1 < dt_day d \/ 1 <= dt_hour d ->
  exists e,
    minus_one_hour d = Ok e
    /\ valid_datetime e = true
    /\ to_microseconds e = to_microseconds d - 3600000000
    /\ dt_minute e = dt_minute d /\ dt_second e = dt_second d
    /\ dt_microsecond e = dt_microsecond d
    /\ dt_hour e = (if 1 <=? dt_hour d then dt_hour d - 1 else 23)
    /\ same_date e d = (1 <=? dt_hour d).
Proof.
  intros Hv Hfirst.
  pose proof (valid_datetime_fields d Hv) as (Hy & Hm & Hd & Hh & Hmi & Hs & Hus).
  pose proof (days_in_month_bound (dt_year d) (dt_month d - 1)) as Hdim.
  unfold minus_one_hour.
  destruct (Z.leb_spec 1 (dt_hour d)) as [H1|H1].
  { eexists. split; [reflexivity|].
    unfold valid_datetime, to_microseconds, toordinal, same_date.
    cbn [dt_year dt_month dt_day dt_hour dt_minute dt_second dt_microsecond].
    repeat split; lia. }
  destruct (Z.ltb_spec 1 (dt_day d)) as [H2|H2].
  { eexists. split; [reflexivity|].
    unfold valid_datetime, to_microseconds, toordinal, same_date.
    cbn [dt_year dt_month dt_day dt_hour dt_minute dt_second dt_microsecond].
    repeat split; lia. }
  destruct (Z.ltb_spec 1 (dt_month d)) as [H3|H3].
  { eexists. split; [reflexivity|].
    unfold valid_datetime, to_microseconds, toordinal, same_date.
    cbn [dt_year dt_month dt_day dt_hour dt_minute dt_second dt_microsecond].
    rewrite (days_before_month_step (dt_year d) (dt_month d)) by lia.
    repeat split; lia. }
  destruct (Z.ltb_spec 1 (dt_year d)) as [H4|H4]; [|lia].
  eexists. split; [reflexivity|].
  unfold valid_datetime, to_microseconds, toordinal, same_date.
  cbn [dt_year dt_month dt_day dt_hour dt_minute dt_second dt_microsecond].
  rewrite (days_before_year_step (dt_year d)).
  replace (dt_month d) with 1 by lia.
  change (days_in_month (dt_year d - 1) 12) with 31.
  change (days_before_month (dt_year d) 1) with 0.
  replace (days_before_month (dt_year d - 1) 12)
    with (334 + (if is_leap (dt_year d - 1) then 1 else 0)) by reflexivity.
  destruct (is_leap (dt_year d - 1)); repeat split; lia.
Qed.

(* ================================================================= *)
(** ** Response normaliser: when it raises *)

Lemma dict_mem_set {V} (d : dict V) (k k' : pystr) (v : V) :
  dict_mem (dict_set d k v) k' = dict_mem d k' || str_eqb k k'.
Proof.
  unfold dict_mem. induction d as [|[k0 v0] d IH]; simpl.
  - destruct (str_eqb k k'); reflexivity.
  - destruct (str_eqb k0 k) eqn:E0; simpl.
    + apply str_eqb_eq in E0. subst k0.
      destruct (str_eqb k k'); [reflexivity | now rewrite orb_false_r].
    + destruct (str_eqb k0 k'); [reflexivity | exact IH].
Qed.

Lemma store_entry_ok (grouped : groups) (code name_ko group : pystr) (e : entry) :
  dict_mem grouped (py "기타") = true ->
  exists g, store_entry grouped code name_ko group e = Ok g
            /\ dict_mem g (py "기타") = true.
Proof.
  intros H. unfold store_entry.
  set (grp := if dict_mem grouped group then group else py "기타").
  assert (Hg : dict_mem grouped grp = true).
  { unfold grp. destruct (dict_mem grouped group) eqn:E; assumption. }
  unfold dict_mem in Hg. destruct (dict_get grouped grp) as [g|]; [|discriminate].
  eexists. split; [reflexivity|]. now rewrite dict_mem_set, H.
Qed.

Lemma build_entry_not_dict (it : pyval) :
  is_dict it = false -> exists e, build_entry it = Raise e.
Proof.
  destruct it; try discriminate; intros _; unfold build_entry; simpl; eauto.
Qed.

(** Items that are all dictionaries are normalised without an exception. *)
Lemma normalize_loop_dicts (items : list pyval) (grouped : groups) :
  forallb is_dict items = true ->
  dict_mem grouped (py "기타") = true ->
  exists g, normalize_loop items grouped = Ok g.
Proof.
  revert grouped. induction items as [|it items IH]; intros grouped Hd Hg; simpl.
  - eauto.
  - apply andb_true_iff in Hd as [Hit Hd].
    destruct it; try discriminate.
    destruct (build_entry_dict d) as (code & name & group & e & Hb).
    unfold normalize_item. rewrite Hb. simpl.
    destruct (store_entry_ok grouped code name group e Hg) as (g & Hs & Hg').
    rewrite Hs. simpl. now apply IH.
Qed.

(** An item that is no dictionary makes the loop raise [AttributeError]
    when it is reached. *)
Lemma normalize_loop_not_dicts (items : list pyval) (grouped : groups) :
  forallb is_dict items = false ->
  dict_mem grouped (py "기타") = true ->
  exists e, normalize_loop items grouped = Raise e.
Proof.
  revert grouped. induction items as [|it items IH]; intros grouped Hd Hg; simpl.
  - discriminate.
  - simpl in Hd. destruct (is_dict it) eqn:Hit.
    + destruct it; try discriminate.
      destruct (build_entry_dict d) as (code & name & group & e & Hb).
      unfold normalize_item. rewrite Hb. simpl.
      destruct (store_entry_ok grouped code name group e Hg) as (g & Hs & Hg').
      rewrite Hs. simpl. now apply IH.
    + destruct (build_entry_not_dict it Hit) as [e He].
      unfold normalize_item. rewrite He. simpl. eauto.
Qed.

(* ================================================================= *)
(** ** One window *)

Lemma try_window_parsed (city_norm : pystr) (nx ny : Z) (base_date base_time : pystr)
      (attempts : list attempt) (fetched : res pyval) (code msg : pystr)
      (items : list pyval) :
  parsed fetched = Some (code, msg, items) ->
  try_window city_norm nx ny base_date base_time attempts fetched
  = let attempts' := attempts ++ [attempt_record base_date base_time code msg items] in
    if success_with_items code items then
      match normalize_observations items with
      | Ok obs =>
        (attempts',
         Ok (Return (Success city_norm (nx, ny) base_date base_time obs attempts')))
      | Raise e => (attempts', Raise e)
      end
    else (attempts', Ok (Next (empty_data_message code (Z.of_nat (length items))))).
Proof.
  unfold parsed, try_window. destruct fetched as [api|e]; [|discriminate].
  simpl bind. destruct (read_header api) as [[c m]|e]; [|discriminate].
  intros [= <- <- <-]. reflexivity.
Qed.

Lemma empty_groups_other : dict_mem empty_groups (py "기타") = true.
Proof. reflexivity. Qed.

(** A window that is not accepted does not end the loop: the [try] block
    sets [last_error] or raises. *)
Lemma try_window_not_accepted (city_norm : pystr) (nx ny : Z)
      (base_date base_time : pystr) (attempts : list attempt) (fetched : res pyval) :
  accepted fetched = false ->
  forall attempts' r,
    try_window city_norm nx ny base_date base_time attempts fetched
    <> (attempts', Ok (Return r)).
Proof.
  intros Hacc attempts' r. unfold accepted in Hacc.
  destruct (parsed fetched) as [[[code msg] items]|] eqn:Hp.
  - rewrite (try_window_parsed _ _ _ _ _ _ _ _ _ _ Hp). cbv zeta.
    destruct (success_with_items code items); [|discriminate].
    simpl in Hacc.
    destruct (normalize_loop_not_dicts items empty_groups Hacc empty_groups_other)
      as [e He].
    unfold normalize_observations. rewrite He. discriminate.
  - unfold parsed in Hp. unfold try_window.
    destruct fetched as [api|e]; simpl bind; [|discriminate].
    destruct (read_header api) as [[c m]|e]; [discriminate|]. discriminate.
Qed.

(* ================================================================= *)
(** ** The loop over the candidates *)

Section Loop.

Variable up : upstream.
Variables service_key city_norm base_date : pystr.
Variables nx ny : Z.

Let loop := for_candidates up service_key city_norm nx ny base_date.
Let rq := window_request service_key base_date nx ny.

Lemma for_candidates_skip (c : datetime) (rest : list datetime)
      (attempts : list attempt) (le : option pystr) (log : list request) :
  str_eqb (as_base_date c) base_date = false ->
  loop (c :: rest) attempts le log = loop rest attempts le log.
Proof. intros E. unfold loop. simpl. now rewrite E. Qed.

Lemma for_candidates_step (c : datetime) (rest : list datetime)
      (attempts : list attempt) (le : option pystr) (log : list request) :
  str_eqb (as_base_date c) base_date = true ->
  loop (c :: rest) attempts le log
  = match try_window city_norm nx ny base_date (as_base_time_hour c) attempts
                     (up (length log) (rq c)) with
    | (_, Ok (Return r)) => (inl r, log ++ [rq c])
    | (attempts', Ok (Next msg)) => loop rest attempts' (Some msg) (log ++ [rq c])
    | (attempts', Raise e) => loop rest attempts' (Some (handle e)) (log ++ [rq c])
    end.
Proof. intros E. unfold loop. simpl. now rewrite E. Qed.

(** The requests issued are those of the first eligible windows, in
    order: no window is asked twice, none out of turn. *)
Lemma for_candidates_log (cands : list datetime) (attempts : list attempt)
      (le : option pystr) (log : list request) :
  exists k,
    (k <= length (eligible base_date cands))%nat
    /\ snd (loop cands attempts le log)
       = log ++ map rq (firstn k (eligible base_date cands)).
Proof.
  revert attempts le log.
  induction cands as [|c rest IH]; intros attempts le log.
  - exists 0%nat. split; [simpl; lia|]. simpl. now rewrite app_nil_r.
  - destruct (str_eqb (as_base_date c) base_date) eqn:E.
    + rewrite for_candidates_step by exact E.
      unfold eligible. simpl filter. rewrite E. fold (eligible base_date rest).
      destruct (try_window _ _ _ _ _ _ _) as [att [[r|m]|e]].
      * exists 1%nat. split; [simpl; lia|]. reflexivity.
      * destruct (IH att (Some m) (log ++ [rq c])) as (k & Hk & Hlog).
        exists (S k). split; [simpl; lia|].
        rewrite Hlog. simpl. now rewrite <- app_assoc.
      * destruct (IH att (Some (handle e)) (log ++ [rq c])) as (k & Hk & Hlog).
        exists (S k). split; [simpl; lia|].
        rewrite Hlog. simpl. now rewrite <- app_assoc.
    + rewrite for_candidates_skip by exact E.
      unfold eligible. simpl filter. rewrite E. apply IH.
Qed.

(** The first eligible window that is accepted ends the loop: the result
    is built from its items and no later window is asked. *)
Lemma for_candidates_accept (cands pre : list datetime) (w : datetime)
      (post : list datetime) (msg : pystr) (items : list pyval)
      (attempts : list attempt) (le : option pystr) (log : list request) :
  eligible base_date cands = pre ++ w :: post ->
  (forall i c, nth_error pre i = Some c ->
               accepted (up (length log + i)%nat (rq c)) = false) ->
  parsed (up (length log + length pre)%nat (rq w)) = Some (py "00", msg, items) ->
  items <> [] ->
  forallb is_dict items = true ->
  exists obs earlier,
    normalize_observations items = Ok obs
    /\ loop cands attempts le log
       = (inl (Success city_norm (nx, ny) base_date (as_base_time_hour w) obs
                       (earlier ++ [attempt_record base_date (as_base_time_hour w)
                                                   (py "00") msg items])),
          log ++ map rq (pre ++ [w])).
Proof.
  intros Hel Hpre Hw Hne Hd.
  destruct (normalize_loop_dicts items empty_groups Hd empty_groups_other) as [obs Hobs].
  exists obs. fold (normalize_observations items) in Hobs.
  revert pre attempts le log Hel Hpre Hw.
  induction cands as [|c rest IH]; intros pre attempts le log Hel Hpre Hw.
  - destruct pre; discriminate.
  - destruct (str_eqb (as_base_date c) base_date) eqn:E.
    + rewrite for_candidates_step by exact E.
      unfold eligible in Hel. simpl filter in Hel. rewrite E in Hel.
      fold (eligible base_date rest) in Hel.
      destruct pre as [|c' pre'].
      * simpl in Hel. injection Hel as -> Hpost.
        simpl in Hw. rewrite Nat.add_0_r in Hw.
        rewrite (try_window_parsed _ _ _ _ _ _ _ _ _ _ Hw). cbv zeta.
        assert (Hs : success_with_items (py "00") items = true).
        { unfold success_with_items. destruct items; [congruence | reflexivity]. }
        rewrite Hs, Hobs. exists attempts. split; [reflexivity|]. reflexivity.
      * simpl in Hel. injection Hel as <- Hrest.
        pose proof (Hpre 0%nat c eq_refl) as Hc. rewrite Nat.add_0_r in Hc.
        pose proof (try_window_not_accepted city_norm nx ny base_date
                      (as_base_time_hour c) attempts _ Hc) as Hnot.
        assert (Hshift : forall i c0, nth_error pre' i = Some c0 ->
                  accepted (up (length (log ++ [rq c]) + i)%nat (rq c0)) = false).
        { intros i c0 Hi. rewrite length_app. simpl.
          replace (length log + 1 + i)%nat with (length log + S i)%nat by lia.
          now apply Hpre. }
        assert (Hw' : parsed (up (length (log ++ [rq c]) + length pre')%nat (rq w))
                      = Some (py "00", msg, items)).
        { rewrite length_app. simpl.
          replace (length log + 1 + length pre')%nat
            with (length log + length (c :: pre'))%nat by (simpl; lia).
          exact Hw. }
        destruct (try_window _ _ _ _ _ _ _) as [att [[r|m]|e]].
        -- exfalso. now apply (Hnot att r).
        -- destruct (IH pre' att (Some m) (log ++ [rq c]) Hrest Hshift Hw')
             as (earlier & Ho & Hl).
           exists earlier. split; [exact Ho|]. rewrite Hl.
           simpl. now rewrite <- app_assoc.
        -- destruct (IH pre' att (Some (handle e)) (log ++ [rq c]) Hrest Hshift Hw')
             as (earlier & Ho & Hl).
           exists earlier. split; [exact Ho|]. rewrite Hl.
           simpl. now rewrite <- app_assoc.
    + rewrite for_candidates_skip by exact E.
      unfold eligible in Hel. simpl filter in Hel. rewrite E in Hel.
      now apply IH.
Qed.

End Loop.

(* ================================================================= *)
(** ** The candidate windows *)

Lemma base_date_eqb (a b : datetime) :
  valid_datetime a = true -> valid_datetime b = true ->
  str_eqb (as_base_date a) (as_base_date b) = same_date a b.
Proof.
  intros Ha Hb.
  pose proof (valid_datetime_fields a Ha) as (Hya & Hma & Hda & _).
  pose proof (valid_datetime_fields b Hb) as (Hyb & Hmb & Hdb & _).
  pose proof (days_in_month_bound (dt_year a) (dt_month a)).
  pose proof (days_in_month_bound (dt_year b) (dt_month b)).
  destruct (same_date a b) eqn:E.
  - apply str_eqb_eq. now apply same_date_base_date.
  - apply str_eqb_neq. intros Heq.
    rewrite (as_base_date_inj a b) in E; [discriminate| lia..|exact Heq].
Qed.

Lemma replace_to_hour_valid (now : datetime) :
  valid_datetime now = true -> valid_datetime (replace_to_hour now) = true.
Proof.
  intros H. pose proof (valid_datetime_fields now H).
  unfold valid_datetime, replace_to_hour. simpl. lia.
Qed.

(** The first candidate is always on the date of [now]. *)
Lemma primary_eligible (now : datetime) (cands : list datetime) :
  candidate_windows now = Ok cands ->
  exists s,
    cands = [replace_to_hour now; s]
    /\ eligible (as_base_date now) cands
       = replace_to_hour now :: eligible (as_base_date now) [s].
Proof.
  unfold candidate_windows, bind.
  destruct (minus_one_hour (replace_to_hour now)) as [s|e]; [|discriminate].
  intros [= <-]. exists s. split; [reflexivity|].
  unfold eligible. simpl filter.
  change (as_base_date (replace_to_hour now)) with (as_base_date now).
  now rewrite str_eqb_refl.
Qed.

(** The candidates and the eligible ones, for a valid [now] that is not in
    the first hour of year 1. *)
Lemma candidate_windows_spec (now : datetime) :
  valid_datetime now = true ->
  1 < dt_year now \/ 1 < dt_month now \/ 1 < dt_day now \/ 1 <= dt_hour now ->
  exists s,
    candidate_windows now = Ok [replace_to_hour now; s]
    /\ valid_datetime s = true
    /\ to_microseconds s = to_microseconds (replace_to_hour now) - 3600000000
    /\ dt_hour s = (if 1 <=? dt_hour now then dt_hour now - 1 else 23)
    /\ same_date s (replace_to_hour now) = (1 <=? dt_hour now)
    /\ eligible (as_base_date now) [replace_to_hour now; s]
       = if 1 <=? dt_hour now then [replace_to_hour now; s] else [replace_to_hour now].
Proof.
  intros Hv Hy.
  pose proof (replace_to_hour_valid now Hv) as Hvp.
  destruct (minus_one_hour_spec (replace_to_hour now) Hvp) as
      (s & Hs & Hvs & Hus & _ & _ & _ & Hh & Hsame).
  { exact Hy. }
  exists s. unfold candidate_windows. rewrite Hs. simpl bind.
  repeat split; try assumption.
  unfold eligible. simpl filter.
  change (as_base_date now) with (as_base_date (replace_to_hour now)).
  rewrite str_eqb_refl, (base_date_eqb s (replace_to_hour now) Hvs Hvp), Hsame.
  change (dt_hour (replace_to_hour now)) with (dt_hour now).
  now destruct (1 <=? dt_hour now).
Qed.


(** At 00:15 the hour before is on the day before and is dropped. *)
Example windows_at_0015 :
  candidate_windows now_0015
  = Ok [replace_to_hour now_0015;
        {| dt_year := 2026; dt_month := 11; dt_day := 2; dt_hour := 23;
           dt_minute := 0; dt_second := 0; dt_microsecond := 0 |}]
  /\ map as_base_time_hour
         (eligible (as_base_date now_0015)
                   [replace_to_hour now_0015;
                    {| dt_year := 2026; dt_month := 11; dt_day := 2; dt_hour := 23;
                       dt_minute := 0; dt_second := 0; dt_microsecond := 0 |}])
     = [py "0000"].
Proof. vm_compute. split; reflexivity. Qed.

(* ================================================================= *)
(** ** The orchestrator *)

Lemma get_now_weather_loop (env : environ) (now : datetime) (up : upstream)
      (city service_key : pystr) (nx ny : Z) (cands : list datetime) :
  need_env env (py "KMA_SERVICE_KEY") = Ok service_key ->
  dict_get CITY_TO_GRID (normalize_city city) = Some (nx, ny) ->
  candidate_windows now = Ok cands ->
  get_now_weather env now up city
  = match for_candidates up service_key (normalize_city city) nx ny
                         (as_base_date now) cands [] None [] with
    | (inl r, log) => (Ok r, log)
    | (inr (attempts, last_error), log) =>
      (Ok (Failure (match last_error with
                    | Some (c :: m) => c :: m
                    | _ => py "알 수 없는 오류"
                    end)
                   (normalize_city city) (nx, ny) (as_base_date now)
                   (map as_base_time_hour (eligible (as_base_date now) cands))
                   attempts), log)
    end.
Proof.
  intros H1 H2 H3. unfold get_now_weather. now rewrite H1, H2, H3.
Qed.

(** Whatever the environment, the city and the service, the requests of one
    invocation are those of the first [k] eligible windows, in order. *)
Lemma get_now_weather_requests (env : environ) (now : datetime) (up : upstream)
      (city : pystr) (cands : list datetime) :
  candidate_windows now = Ok cands ->
  exists k,
    (k <= length (eligible (as_base_date now) cands))%nat
    /\ map request_window (snd (get_now_weather env now up city))
       = firstn k (map (fun c => (as_base_date now, as_base_time_hour c))
                       (eligible (as_base_date now) cands)).
Proof.
  intros Hc.
  destruct (need_env env (py "KMA_SERVICE_KEY")) as [sk|e] eqn:Hk.
  2:{ exists 0%nat. unfold get_now_weather. rewrite Hk. split; [lia | reflexivity]. }
  destruct (dict_get CITY_TO_GRID (normalize_city city)) as [[nx ny]|] eqn:Hg.
  2:{ exists 0%nat. unfold get_now_weather. rewrite Hk, Hg. split; [lia | reflexivity]. }
  rewrite (get_now_weather_loop env now up city sk nx ny cands Hk Hg Hc).
  destruct (for_candidates_log up sk (normalize_city city) (as_base_date now) nx ny
              cands [] None []) as (k & Hle & Hlog).
  exists k. split; [exact Hle|].
  destruct (for_candidates _ _ _ _ _ _ _ _ _ _) as [[r|[att le]] log];
    simpl in Hlog |- *; subst log;
    rewrite firstn_map, !map_map; reflexivity.
Qed.

(** C1: for a valid current time [now] (after year 1, so that the hour
    before exists) the candidates are two: [now] with minute, second and
    microsecond set to zero, and the instant exactly one hour before that.
    The second is eligible exactly when it is on the same date as the
    first, which is when the hour of [now] is not 0: at 00:15 the only
    eligible window is 00:00, at 13:40 they are 13:00 and 12:00.  The
    requests of an invocation are those of the first eligible windows, in
    order, so never more than two. *)
Theorem C1_candidate_windows :
  forall now,
    valid_datetime now = true -> 1 < dt_year now ->
    exists secondary,
      let primary := replace_to_hour now in
      let windows := eligible (as_base_date now) [primary; secondary] in
      candidate_windows now = Ok [primary; secondary]
      /\ (same_date primary now = true /\ dt_hour primary = dt_hour now
          /\ dt_minute primary = 0 /\ dt_second primary = 0
          /\ dt_microsecond primary = 0
          /\ to_microseconds primary <= to_microseconds now
             < to_microseconds primary + 3600000000)
      /\ (valid_datetime secondary = true
          /\ to_microseconds secondary = to_microseconds primary - 3600000000)
      /\ same_date secondary primary = negb (dt_hour now =? 0)
      /\ windows = (if same_date secondary primary
                    then [primary; secondary] else [primary])
      /\ (dt_hour now = 0 -> map as_base_time_hour windows = [py "0000"])
      /\ (dt_hour now = 13 ->
          map as_base_time_hour windows = [py "1300"; py "1200"])
      /\ (forall env up city,
             exists k,
               (k <= length windows)%nat
               /\ map request_window (snd (get_now_weather env now up city))
                  = firstn k (map (fun c => (as_base_date now, as_base_time_hour c))
                                  windows)
               /\ (length (snd (get_now_weather env now up city)) <= 2)%nat).
Proof.
  intros now Hv Hy.
  pose proof (valid_datetime_fields now Hv) as (_ & _ & _ & Hh & Hmi & Hs & Hus).
  destruct (candidate_windows_spec now Hv (or_introl Hy))
    as (s & Hc & Hvs & Hms & Hhs & Hsame & Hel).
  exists s. cbv zeta.
  assert (Hneg : (1 <=? dt_hour now) = negb (dt_hour now =? 0)) by lia.
  split; [exact Hc|].
  split.
  { unfold same_date, to_microseconds, toordinal, replace_to_hour. simpl.
    rewrite !Z.eqb_refl. repeat split; lia. }
  split; [now split|].
  split; [now rewrite Hsame|].
  split; [now rewrite Hel, Hsame|].
  split.
  { intros H0. rewrite Hel, H0. simpl map. unfold as_base_time_hour.
    change (dt_hour (replace_to_hour now)) with (dt_hour now).
    rewrite H0. reflexivity. }
  split.
  { intros H13. rewrite Hel, H13. simpl map. unfold as_base_time_hour.
    change (dt_hour (replace_to_hour now)) with (dt_hour now).
    rewrite Hhs, H13. reflexivity. }
  intros env up city.
  destruct (get_now_weather_requests env now up city _ Hc) as (k & Hk & Hreq).
  exists k. split; [exact Hk|]. split; [exact Hreq|].
  rewrite <- (length_map request_window), Hreq, length_firstn, length_map.
  rewrite Hel. destruct (1 <=? dt_hour now); simpl; lia.
Qed.


(** C2 (amended): when the credential is set and the region is supported,
    the first eligible window whose response parses with result code
    ["00"] and a non-empty item list of JSON objects ends the invocation:
    the result is a success whose observations are the normalisation of
    that window's items alone, and the requests issued are those of the
    windows up to and including it, none after.  (An item that is not an
    object makes the normalisation raise; the exception is caught like any
    other and the next window is tried.) *)
Theorem C2_first_accepted_window :
  forall env now up city service_key nx ny cands pre w post msg items,
    need_env env (py "KMA_SERVICE_KEY") = Ok service_key ->
    dict_get CITY_TO_GRID (normalize_city city) = Some (nx, ny) ->
    candidate_windows now = Ok cands ->
    eligible (as_base_date now) cands = pre ++ w :: post ->
    (forall i c,
        nth_error pre i = Some c ->
        accepted (up i (window_request service_key (as_base_date now) nx ny c)) = false) ->
    parsed (up (length pre) (window_request service_key (as_base_date now) nx ny w))
    = Some (py "00", msg, items) ->
    items <> [] ->
    forallb is_dict items = true ->
    exists obs earlier,
      normalize_observations items = Ok obs
      /\ get_now_weather env now up city
         = (Ok (Success (normalize_city city) (nx, ny) (as_base_date now)
                        (as_base_time_hour w) obs
                        (earlier ++ [attempt_record (as_base_date now)
                                       (as_base_time_hour w) (py "00") msg items])),
            map (window_request service_key (as_base_date now) nx ny) (pre ++ [w])).
Proof.
  intros env now up city sk nx ny cands pre w post msg items
         Hk Hg Hc Hel Hpre Hw Hne Hd.
  rewrite (get_now_weather_loop env now up city sk nx ny cands Hk Hg Hc).
  destruct (for_candidates_accept up sk (normalize_city city) (as_base_date now) nx ny
              cands pre w post msg items [] None [] Hel Hpre Hw Hne Hd)
    as (obs & earlier & Hobs & Hloop).
  cbv zeta in Hloop. rewrite Hloop. exists obs, earlier. now split.
Qed.

(** The keys of [CITY_TO_GRID], sorted. *)
Lemma supported_cities_sorted :
  sorted (dict_keys CITY_TO_GRID)
  = [py "광주"; py "대구"; py "대전"; py "부산"; py "서울"; py "세종";
     py "울산"; py "인천"].
Proof. vm_compute. reflexivity. Qed.

(** C9 (amended): for every input whose normalised form is not a key of
    [CITY_TO_GRID], no request is issued.  When the credential
    [KMA_SERVICE_KEY] is set, the result is the unsupported-region failure,
    which carries the input as given, its normalised form and the sorted
    list of the supported keys; when the credential is missing or blank,
    the check of the credential comes first and the result is the
    configuration failure, which carries the error message only. *)
Theorem C9_unsupported_region :
  forall env now up city,
    dict_mem CITY_TO_GRID (normalize_city city) = false ->
    (forall service_key,
        need_env env (py "KMA_SERVICE_KEY") = Ok service_key ->
        get_now_weather env now up city
        = (Ok (UnsupportedCity (py "지원하지 않는 지역입니다.") city
                               (normalize_city city)
                               [py "광주"; py "대구"; py "대전"; py "부산";
                                py "서울"; py "세종"; py "울산"; py "인천"]),
           []))
    /\ (forall e,
           need_env env (py "KMA_SERVICE_KEY") = Raise e ->
           get_now_weather env now up city = (Ok (ConfigFailure (exn_msg e)), []))
    /\ snd (get_now_weather env now up city) = [].
Proof.
  intros env now up city Hmem.
  assert (Hg : dict_get CITY_TO_GRID (normalize_city city) = None).
  { unfold dict_mem in Hmem.
    destruct (dict_get CITY_TO_GRID (normalize_city city)); [discriminate | reflexivity]. }
  unfold get_now_weather.
  destruct (need_env env (py "KMA_SERVICE_KEY")) as [sk|e].
  - rewrite Hg, supported_cities_sorted. split; [|split].
    + intros sk' _. reflexivity.
    + intros e [=].
    + reflexivity.
  - split; [|split].
    + intros sk [=].
    + now intros e' [= <-].
    + reflexivity.
Qed.

(** The values of the three items below, cast as floats. *)
Lemma safe_cast_small_integers :
  safe_cast CastFloat (VStr (py "1")) = VFloat (float_of_int 1)
  /\ safe_cast CastFloat (VStr (py "2")) = VFloat (float_of_int 2)
  /\ safe_cast CastFloat (VStr (py "3")) = VFloat (float_of_int 3).
Proof. vm_compute. repeat split. Qed.

(** C4 fails on a third collision.  Three items of category ["T1H"] with
    the values 1, 2 and 3: the first is stored under ["기온"], the second
    under ["기온(T1H)"]; the third finds ["기온"] taken, is given the key
    ["기온(T1H)"] as well and replaces the second, whose value 2 is in the
    output no more. *)
Theorem C4_third_collision_overwrites :
  let item v := VDict [(py "category", VStr (py "T1H")); (py "obsrValue", VStr v)] in
  let e v := {| e_code := py "T1H"; e_value := VFloat (float_of_int v);
                e_unit := Some (py "℃"); e_desc := None; e_dir16 := None |} in
  normalize_observations [item (py "1"); item (py "2")]
  = Ok [ (py "기온", [(py "기온", e 1); (py "기온(T1H)", e 2)]);
         (py "습도", []); (py "강수", []); (py "바람", []); (py "기타", []) ]
  /\ normalize_observations [item (py "1"); item (py "2"); item (py "3")]
     = Ok [ (py "기온", [(py "기온", e 1); (py "기온(T1H)", e 3)]);
            (py "습도", []); (py "강수", []); (py "바람", []); (py "기타", []) ].
Proof. vm_compute. split; reflexivity. Qed.


(* ================================================================= *)
(** ** Further properties: the input normaliser and the city listing *)

Lemma lstrip_blanks (ws s : pystr) :
  forallb isspace ws = true -> lstrip (ws ++ s) = lstrip s.
Proof.
  induction ws as [|c ws IH]; simpl; [reflexivity|].
  intros H. apply andb_true_iff in H as [Hc Hws]. rewrite Hc. now apply IH.
Qed.

Lemma forallb_rev {A} (f : A -> bool) (l : list A) :
  forallb f l = true -> forallb f (rev l) = true.
Proof.
  rewrite !forallb_forall. intros H x Hx. apply H. now apply in_rev.
Qed.

(** Blanks around a text that itself starts and ends with none are all
    that [strip] removes. *)
Lemma strip_padded (ws1 x ws2 : pystr) :
  forallb isspace ws1 = true -> forallb isspace ws2 = true ->
  no_lead x -> no_lead (rev x) ->
  strip (ws1 ++ x ++ ws2) = x.
Proof.
  intros H1 H2 Hx Hrx. unfold strip, rstrip. rewrite lstrip_blanks by assumption.
  destruct x as [|c t].
  - simpl app. rewrite <- (app_nil_r ws2), lstrip_blanks by assumption.
    reflexivity.
  - rewrite (lstrip_id ((c :: t) ++ ws2)) by exact Hx.
    rewrite rev_app_distr, lstrip_blanks by (now apply forallb_rev).
    rewrite (lstrip_id _ Hrx). apply rev_involutive.
Qed.

(** [normalize_city] as one formula, the empty input included. *)
Lemma normalize_city_eq (city : pystr) :
  normalize_city city = strip (fold_left strip_suffix city_suffixes (strip city)).
Proof. destruct city; [vm_compute|]; reflexivity. Qed.

Lemma strip_suffix_prefix (s q : pystr) : exists t, s = strip_suffix s q ++ t.
Proof.
  unfold strip_suffix. destruct (endswith s q).
  - unfold drop_last. destruct (length q).
    + now exists s.
    + exists (skipn (length s - S n) s). symmetry. apply firstn_skipn.
  - exists []. now rewrite app_nil_r.
Qed.

Lemma strip_suffixes_prefix (l : list pystr) (s : pystr) :
  exists t, s = fold_left strip_suffix l s ++ t.
Proof.
  revert s. induction l as [|q l IH]; intros s; simpl.
  - exists []. now rewrite app_nil_r.
  - destruct (strip_suffix_prefix s q) as [t1 H1].
    destruct (IH (strip_suffix s q)) as [t2 H2].
    exists (t2 ++ t1). rewrite app_assoc, <- H2. exact H1.
Qed.

Lemma rstrip_prefix (s : pystr) : exists t, s = rstrip s ++ t.
Proof.
  unfold rstrip. destruct (lstrip_suffix (rev s)) as [ws H].
  exists (rev ws). rewrite <- rev_app_distr, <- H. now rewrite rev_involutive.
Qed.

Lemma no_lead_prefix (a t : pystr) : no_lead (a ++ t) -> no_lead a.
Proof. destruct a; simpl; auto. Qed.

(** X1: [normalize_city] looks at the trimmed input only, its result has
    no blank at either end, and it is a prefix of the trimmed input: the
    function only ever cuts a tail off the trimmed name. *)
Theorem X1_normalize_city_prefix :
  forall city,
    normalize_city (strip city) = normalize_city city
    /\ strip (normalize_city city) = normalize_city city
    /\ (exists tail, strip city = normalize_city city ++ tail)
    /\ (length (normalize_city city) <= length city)%nat.
Proof.
  intros city.
  assert (Hpre : exists tail, strip city = normalize_city city ++ tail).
  { rewrite normalize_city_eq.
    destruct (strip_suffixes_prefix city_suffixes (strip city)) as [t1 H1].
    set (core := fold_left strip_suffix city_suffixes (strip city)) in *.
    assert (Hc : no_lead core).
    { apply no_lead_prefix with (t := t1). rewrite <- H1. apply strip_no_lead. }
    unfold strip at 2. rewrite (lstrip_id _ Hc).
    destruct (rstrip_prefix core) as [t2 H2].
    exists (t2 ++ t1). rewrite app_assoc, <- H2. exact H1. }
  split; [|split; [|split]].
  - now rewrite !normalize_city_eq, strip_idem.
  - rewrite normalize_city_eq. apply strip_idem.
  - exact Hpre.
  - destruct Hpre as [tail Ht].
    assert (Hs : (length (strip city) <= length city)%nat).
    { unfold strip.
      destruct (rstrip_prefix (lstrip city)) as [t2 H2].
      destruct (lstrip_suffix city) as [ws Hws].
      rewrite Hws at 2. rewrite H2 at 2. rewrite !length_app. lia. }
    rewrite Ht, length_app in Hs. lia.
Qed.

Lemma city_keys :
  dict_keys CITY_TO_GRID
  = [py "서울"; py "부산"; py "대구"; py "인천"; py "광주"; py "대전";
     py "울산"; py "세종"].
Proof. reflexivity. Qed.

(** X2: every supported key, written alone or followed by any of the four
    suffixes and with any blanks around it, is normalised to that key, which
    the region check then accepts; [get_now_weather] gives for it the
    result, and issues the requests, it gives for the key itself. *)
Theorem X2_supported_names_resolve :
  forall k q ws1 ws2,
    In k (dict_keys CITY_TO_GRID) ->
    In q ([] :: city_suffixes) ->
    forallb isspace ws1 = true ->
    forallb isspace ws2 = true ->
    normalize_city (ws1 ++ (k ++ q) ++ ws2) = k
    /\ dict_mem CITY_TO_GRID (normalize_city (ws1 ++ (k ++ q) ++ ws2)) = true
    /\ (forall env now up,
           get_now_weather env now up (ws1 ++ (k ++ q) ++ ws2)
           = get_now_weather env now up k).
Proof.
  intros k q ws1 ws2 Hk Hq H1 H2.
  assert (H : no_lead (k ++ q) /\ no_lead (rev (k ++ q))
              /\ normalize_city (k ++ q) = k /\ dict_mem CITY_TO_GRID k = true
              /\ normalize_city k = k).
  { rewrite city_keys in Hk. unfold city_suffixes in Hq. cbn [In] in Hk, Hq.
    clear H1 H2.
    repeat (destruct Hk as [<-|Hk]; [
      repeat (destruct Hq as [<-|Hq]; [vm_compute; repeat split|]);
      contradiction |]).
    contradiction. }
  destruct H as (Hn1 & Hn2 & Hnorm & Hmem & Hself).
  assert (E : normalize_city (ws1 ++ (k ++ q) ++ ws2) = k).
  { rewrite normalize_city_eq, (strip_padded ws1 (k ++ q) ws2 H1 H2 Hn1 Hn2).
    rewrite normalize_city_eq in Hnorm.
    rewrite <- (strip_padded [] (k ++ q) [] eq_refl eq_refl Hn1 Hn2) at 1.
    cbn [app]. rewrite app_nil_r. exact Hnorm. }
  split; [exact E|]. split; [now rewrite E|].
  intros env now up. unfold get_now_weather. rewrite E, Hself.
  destruct (need_env env (py "KMA_SERVICE_KEY")); [|reflexivity].
  unfold dict_mem in Hmem.
  destruct (dict_get CITY_TO_GRID k) as [[nx ny]|]; [reflexivity | discriminate].
Qed.

Lemma city_key_cases (c : pystr) :
  dict_mem CITY_TO_GRID c = true -> In c (dict_keys CITY_TO_GRID).
Proof.
  unfold dict_mem. intros H.
  assert (G : forall (d : dict (Z * Z)),
             (match dict_get d c with Some _ => true | None => false end) = true ->
             In c (dict_keys d)).
  { induction d as [|[k v] d IH]; cbn [dict_get dict_keys map fst In]; [discriminate|].
    destruct (str_eqb k c) eqn:E.
    - intros _. left. now apply str_eqb_eq.
    - intros Hd. right. now apply IH. }
  now apply G.
Qed.

(** X3: the list [list_supported_cities] advertises holds exactly the
    keys of [CITY_TO_GRID], in strictly increasing code-point order, each
    of them is left as it is by [normalize_city], and every advertised
    example is normalised to one of them. *)
Theorem X3_city_listing :
  (forall c, In c (supported_cities list_supported_cities)
             <-> dict_mem CITY_TO_GRID c = true)
  /\ strictly_increasing (supported_cities list_supported_cities) = true
  /\ (forall c, In c (supported_cities list_supported_cities) ->
                normalize_city c = c)
  /\ (forall x, In x (examples list_supported_cities) ->
                In (normalize_city x) (supported_cities list_supported_cities)).
Proof.
  assert (Hl : supported_cities list_supported_cities
               = [py "광주"; py "대구"; py "대전"; py "부산"; py "서울"; py "세종";
                  py "울산"; py "인천"]).
  { apply supported_cities_sorted. }
  split; [|split; [|split]].
  - intros c. split.
    + rewrite Hl. cbn [In]. intros H.
      repeat (destruct H as [<-|H]; [vm_compute; reflexivity|]). contradiction.
    + intros H. apply city_key_cases in H. rewrite Hl.
      rewrite city_keys in H. cbn [In] in H |- *. tauto.
  - rewrite Hl. vm_compute. reflexivity.
  - rewrite Hl. cbn [In]. intros c H.
    repeat (destruct H as [<-|H]; [vm_compute; reflexivity|]). contradiction.
  - rewrite Hl. unfold list_supported_cities, examples. cbn [In]. intros x H.
    repeat (destruct H as [<-|H]; [vm_compute; tauto|]). contradiction.
Qed.

(* ================================================================= *)
(** ** Further properties: casting *)

(** X5: on a string, [safe_cast] returns [None] exactly when the string
    is empty or blank, and the string itself exactly when [float()] rejects
    the trimmed text or, for the integer kind, reads it as a float that
    [int()] refuses; in every other case it returns the number read, as a
    float or truncated to an integer.  The blanks around the text play no
    part: when the trimmed string casts to a number or to [None], the
    string casts to the same. *)
Theorem X5_safe_cast_results :
  forall kind s,
    (safe_cast kind (VStr s) = VNone <-> strip s = [])
    /\ (safe_cast kind (VStr s) = VStr s <->
        strip s <> []
        /\ (py_float (strip s) = None
            \/ (kind = CastInt
                /\ exists f e, py_float (strip s) = Some f /\ int_of_float f = Raise e)))
    /\ (forall f,
           strip s <> [] -> py_float (strip s) = Some f ->
           safe_cast CastFloat (VStr s) = VFloat f
           /\ (forall z, int_of_float f = Ok z -> safe_cast CastInt (VStr s) = VInt z))
    /\ ((forall t, safe_cast kind (VStr (strip s)) <> VStr t) ->
        safe_cast kind (VStr s) = safe_cast kind (VStr (strip s))).
Proof.
  intros kind s.
  destruct (list_eq_dec Z.eq_dec (strip s) []) as [E|E].
  - assert (Hb : safe_cast kind (VStr s) = VNone).
    { apply safe_cast_blank. right. exact E. }
    split; [split; [intros _; exact E | intros _; exact Hb]|].
    split.
    { split; [rewrite Hb; discriminate | intros [H _]; contradiction]. }
    split; [intros f H; contradiction|].
    intros _. rewrite Hb. symmetry. apply safe_cast_blank. right.
    cbn [py_str]. now rewrite strip_idem.
  - pose proof (safe_cast_str kind s E) as Hs.
    split.
    { split; [|intros H; contradiction].
      rewrite Hs. destruct (py_float (strip s)) as [f|]; [|discriminate].
      destruct kind; [destruct (int_of_float f)|]; discriminate. }
    split.
    { rewrite Hs. split.
      - intros H. split; [exact E|].
        destruct (py_float (strip s)) as [f|]; [|now left].
        destruct kind; [|discriminate].
        destruct (int_of_float f) as [z|e] eqn:Hi; [discriminate|].
        right. split; [reflexivity|]. exists f, e. now split.
      - intros [_ [H|(-> & f & e & Hf & Hi)]].
        + now rewrite H.
        + now rewrite Hf, Hi. }
    split.
    { intros f _ Hf. rewrite !safe_cast_str by exact E. rewrite Hf.
      split; [reflexivity|]. intros z Hz. now rewrite Hz. }
    intros Hnum.
    assert (E' : strip (strip s) <> []) by now rewrite strip_idem.
    rewrite Hs.
    pose proof (safe_cast_str kind (strip s) E') as H2.
    rewrite strip_idem in H2.
    destruct (py_float (strip s)) as [f|].
    + destruct kind; [|now rewrite H2].
      destruct (int_of_float f); [now rewrite H2|].
      exfalso. now apply (Hnum (strip s)).
    + exfalso. now apply (Hnum (strip s)).
Qed.

(** X6: cast as an integer, a text that [float()] reads as an infinity or
    as NaN (["inf"], ["nan"], ["1e400"]) comes back as the string it was:
    [int()] raises on the float and the exception is absorbed; cast as a
    float, the same text gives the infinity or the NaN. *)
Theorem X6_int_cast_of_non_finite :
  (forall s f,
      strip s <> [] -> py_float (strip s) = Some f ->
      f = S754_nan \/ (exists sign, f = S754_infinity sign) ->
      safe_cast CastInt (VStr s) = VStr s /\ safe_cast CastFloat (VStr s) = VFloat f)
  /\ py_float (py "inf") = Some (S754_infinity false)
  /\ py_float (py "-Infinity") = Some (S754_infinity true)
  /\ py_float (py "nan") = Some S754_nan
  /\ py_float (py "1e400") = Some (S754_infinity false).
Proof.
  split; [|vm_compute; repeat split].
  intros s f Hne Hf Hnf. rewrite !safe_cast_str by assumption. rewrite Hf.
  destruct Hnf as [->|[sign ->]]; split; reflexivity.
Qed.

(* ================================================================= *)
(** ** Further properties: wind direction *)

Lemma sector_index_unwrapped (d : Z) : sector_index d = ((4 * d + 45) / 90) mod 16.
Proof.
  unfold sector_index.
  rewrite (Z.div_mod d 360) at 2 by lia.
  replace (4 * (360 * (d / 360) + d mod 360) + 45)
    with ((4 * (d mod 360) + 45) + (16 * (d / 360)) * 90) by lia.
  rewrite Z.div_add by lia.
  replace ((4 * (d mod 360) + 45) / 90 + 16 * (d / 360))
    with ((4 * (d mod 360) + 45) / 90 + (d / 360) * 16) by lia.
  now rewrite Z.mod_add by lia.
Qed.

(** X7: for an integer degree value the label is that of the nearest of
    the sixteen directions: with [i] the position of the label, the
    direction [22.5 * i] lies less than 11.25 degrees from the value
    wrapped into 0-360 (counted in quarter degrees below; for ["북"] also
    from 360); and every one of the sixteen labels is the label of some
    integer degree value. *)
Theorem X7_wind_nearest_direction :
  (forall d,
      exists i,
        0 <= i < 16
        /\ wind_deg_to_16dir_ko (Some (Int d))
           = Ok (Some (nth (Z.to_nat i) WIND_DIR_16_KO []))
        /\ (Z.abs (4 * (d mod 360) - 90 * i) < 45
            \/ (i = 0 /\ 1440 - 4 * (d mod 360) < 45)))
  /\ (forall i,
         0 <= i < 16 ->
         exists d,
           0 <= d < 360
           /\ wind_deg_to_16dir_ko (Some (Int d))
              = Ok (Some (nth (Z.to_nat i) WIND_DIR_16_KO []))).
Proof.
  split.
  - intros d. exists (sector_index d).
    split; [apply sector_index_range|]. split; [apply wind_label_int|].
    unfold sector_index.
    assert (Hr : 0 <= d mod 360 < 360) by (apply Z.mod_pos_bound; lia).
    set (r := d mod 360) in *. clearbody r.
    Z.div_mod_to_equations. lia.
  - intros i Hi. exists ((45 * i + 1) / 2).
    split; [Z.div_mod_to_equations; lia|].
    rewrite wind_label_int. do 3 f_equal.
    assert (C : i = 0 \/ i = 1 \/ i = 2 \/ i = 3 \/ i = 4 \/ i = 5 \/ i = 6 \/ i = 7
                \/ i = 8 \/ i = 9 \/ i = 10 \/ i = 11 \/ i = 12 \/ i = 13 \/ i = 14
                \/ i = 15) by lia.
    repeat (destruct C as [->|C]; [reflexivity|]). subst i. reflexivity.
Qed.

(** X8: turning the wind by 45 degrees moves the label two places along
    the compass list, whatever the number of turns and their sense; half a
    turn gives the opposite direction, eight places on. *)
Theorem X8_wind_rotation :
  forall d k,
    wind_deg_to_16dir_ko (Some (Int (d + 45 * k)))
    = Ok (Some (nth (Z.to_nat ((sector_index d + 2 * k) mod 16)) WIND_DIR_16_KO []))
    /\ wind_deg_to_16dir_ko (Some (Int (d + 180)))
       = Ok (Some (nth (Z.to_nat ((sector_index d + 8) mod 16)) WIND_DIR_16_KO [])).
Proof.
  assert (R : forall d k, sector_index (d + 45 * k) = (sector_index d + 2 * k) mod 16).
  { intros d k. rewrite !sector_index_unwrapped.
    replace (4 * (d + 45 * k) + 45) with ((4 * d + 45) + (2 * k) * 90) by lia.
    rewrite Z.div_add by lia. now rewrite Zplus_mod_idemp_l. }
  intros d k. rewrite !wind_label_int. split.
  - now rewrite R.
  - replace (d + 180) with (d + 45 * 4) by lia. now rewrite R.
Qed.


(* ================================================================= *)
(** ** Further properties: the response normaliser *)

Lemma dict_get_set_same {V} (d : dict V) (k : pystr) (v : V) :
  dict_get (dict_set d k v) k = Some v.
Proof.
  induction d as [|[k0 v0] d IH]; cbn [dict_set dict_get].
  - now rewrite str_eqb_refl.
  - destruct (str_eqb k0 k) eqn:E; cbn [dict_get]; rewrite E; [reflexivity | exact IH].
Qed.

Lemma dict_keys_set {V} (d : dict V) (k : pystr) (v v0 : V) :
  dict_get d k = Some v0 -> dict_keys (dict_set d k v) = dict_keys d.
Proof.
  unfold dict_keys. induction d as [|[k1 v1] d IH]; cbn [dict_set dict_get map fst].
  - discriminate.
  - destruct (str_eqb k1 k); cbn [map fst]; [reflexivity|].
    intros H. f_equal. now apply IH.
Qed.

Lemma dict_set_set {V} (d : dict V) (k : pystr) (v w : V) :
  dict_set (dict_set d k v) k w = dict_set d k w.
Proof.
  induction d as [|[k0 v0] d IH]; cbn [dict_set].
  - now rewrite str_eqb_refl.
  - destruct (str_eqb k0 k) eqn:E; cbn [dict_set]; rewrite E; [reflexivity|].
    now rewrite IH.
Qed.

Lemma dict_get_of_key {V} (d : dict V) (k : pystr) :
  In k (dict_keys d) -> exists v, dict_get d k = Some v.
Proof.
  unfold dict_keys. induction d as [|[k0 v0] d IH]; cbn [map fst In dict_get].
  - contradiction.
  - destruct (str_eqb k0 k) eqn:E; [eauto|].
    intros [H|H]; [|now apply IH].
    subst k0. now rewrite str_eqb_refl in E.
Qed.

Lemma dict_get_in {V} (d : dict V) (k : pystr) (v : V) :
  dict_get d k = Some v -> In v (map snd d).
Proof.
  induction d as [|[k0 v0] d IH]; cbn [dict_get map snd In]; [discriminate|].
  destruct (str_eqb k0 k); [intros [= ->]; now left | right; now apply IH].
Qed.

Lemma dict_set_length {V} (d : dict V) (k : pystr) (v : V) :
  (length (dict_set d k v) <= S (length d))%nat.
Proof.
  induction d as [|[k0 v0] d IH]; cbn [dict_set length]; [lia|].
  destruct (str_eqb k0 k); cbn [length]; lia.
Qed.

Lemma entry_count_set (g : groups) (k : pystr) (old new : dict entry) :
  dict_get g k = Some old ->
  (entry_count (dict_set g k new) + length old = entry_count g + length new)%nat.
Proof.
  unfold entry_count.
  induction g as [|[k0 v0] g IH]; cbn [dict_get dict_set fold_right snd].
  - discriminate.
  - destruct (str_eqb k0 k); cbn [fold_right snd].
    + intros [= ->]. lia.
    + intros H. specialize (IH H). lia.
Qed.

(** The group of every category is one of the five. *)
Lemma group_of_named (code : pystr) : In (group_of code) group_names.
Proof.
  unfold group_of. destruct (dict_get CATEGORY_META code) as [meta|] eqn:E.
  - apply dict_get_in in E. unfold CATEGORY_META in E. cbn [map snd In] in E.
    repeat (destruct E as [<-|E]; [vm_compute; tauto|]). contradiction.
  - vm_compute. tauto.
Qed.

Lemma code_unknown_not_decorated (code : pystr) :
  dict_get CATEGORY_META code = None ->
  str_eqb code (py "PTY") = false /\ str_eqb code (py "VEC") = false.
Proof.
  intros H. split.
  - destruct (str_eqb code (py "PTY")) eqn:E; [|reflexivity].
    apply str_eqb_eq in E. subst code. vm_compute in H. discriminate.
  - destruct (str_eqb code (py "VEC")) eqn:E; [|reflexivity].
    apply str_eqb_eq in E. subst code. vm_compute in H. discriminate.
Qed.

(** The entry of an item of an unknown category. *)
Lemma build_entry_unknown (d : list (pystr * pyval)) :
  dict_get CATEGORY_META (item_code d) = None ->
  build_entry (VDict d)
  = Ok (item_code d, label_of (item_code d), py "기타",
        {| e_code := item_code d; e_value := item_raw d; e_unit := None;
           e_desc := None; e_dir16 := None |}).
Proof.
  intros H. destruct (code_unknown_not_decorated _ H) as [Hp Hv].
  unfold build_entry, label_of. cbn [py_get]. unfold bind at 1 2.
  fold (get_or d (py "category") (VStr [])). fold (item_code d).
  fold (get_or d (py "obsrValue") VNone). fold (item_raw d).
  rewrite H, Hp, Hv. reflexivity.
Qed.

(** The code, the label and the group of the entry of any item. *)
Lemma build_entry_shape (d : list (pystr * pyval)) :
  exists e,
    build_entry (VDict d)
    = Ok (item_code d, label_of (item_code d), group_of (item_code d), e)
    /\ e_code e = item_code d.
Proof.
  destruct (dict_get CATEGORY_META (item_code d)) as [meta|] eqn:E.
  - eexists. rewrite (build_entry_known d meta E). unfold label_of, group_of.
    rewrite E. split; reflexivity.
  - eexists. rewrite (build_entry_unknown d E). unfold group_of. rewrite E.
    split; reflexivity.
Qed.

(** Storing an entry in groups that have the five keys. *)
Lemma store_entry_named (grouped : groups) (code name_ko group : pystr) (e : entry) :
  dict_keys grouped = group_names ->
  In group group_names ->
  exists g,
    dict_get grouped group = Some g
    /\ store_entry grouped code name_ko group e
       = Ok (dict_set grouped group
                      (dict_set g (if dict_mem g name_ko
                                   then suffixed name_ko code else name_ko) e)).
Proof.
  intros Hk Hg. rewrite <- Hk in Hg.
  destruct (dict_get_of_key grouped group Hg) as [g Hget].
  exists g. split; [exact Hget|].
  assert (Hm : dict_mem grouped group = true) by (unfold dict_mem; now rewrite Hget).
  unfold store_entry. rewrite Hm, Hget. reflexivity.
Qed.

(** One turn of the loop on an item that is a dictionary. *)
Lemma normalize_item_named (grouped : groups) (d : list (pystr * pyval)) :
  dict_keys grouped = group_names ->
  exists g e,
    build_entry (VDict d)
    = Ok (item_code d, label_of (item_code d), group_of (item_code d), e)
    /\ dict_get grouped (group_of (item_code d)) = Some g
    /\ normalize_item grouped (VDict d)
       = Ok (dict_set grouped (group_of (item_code d))
                      (dict_set g (if dict_mem g (label_of (item_code d))
                                   then suffixed (label_of (item_code d)) (item_code d)
                                   else label_of (item_code d)) e)).
Proof.
  intros Hk.
  destruct (build_entry_shape d) as (e & Hb & _).
  destruct (store_entry_named grouped (item_code d) (label_of (item_code d))
              (group_of (item_code d)) e Hk (group_of_named _)) as (g & Hg & Hs).
  exists g, e. split; [exact Hb|]. split; [exact Hg|].
  unfold normalize_item. rewrite Hb. cbn [bind]. exact Hs.
Qed.

Lemma normalize_item_keys (grouped out : groups) (it : pyval) :
  dict_keys grouped = group_names ->
  normalize_item grouped it = Ok out ->
  dict_keys out = group_names
  /\ (entry_count out <= S (entry_count grouped))%nat.
Proof.
  intros Hk H. destruct it;
    try (unfold normalize_item, build_entry in H; cbn [py_get bind] in H; discriminate).
  destruct (normalize_item_named grouped d Hk) as (g & e & _ & Hg & Hn).
  rewrite Hn in H. injection H as <-. split.
  - now rewrite (dict_keys_set grouped _ _ g Hg).
  - pose proof (entry_count_set grouped (group_of (item_code d)) g
                  (dict_set g (if dict_mem g (label_of (item_code d))
                               then suffixed (label_of (item_code d)) (item_code d)
                               else label_of (item_code d)) e) Hg) as Hc.
    pose proof (dict_set_length g (if dict_mem g (label_of (item_code d))
                               then suffixed (label_of (item_code d)) (item_code d)
                               else label_of (item_code d)) e).
    lia.
Qed.

Lemma normalize_loop_keys (items : list pyval) (grouped out : groups) :
  dict_keys grouped = group_names ->
  normalize_loop items grouped = Ok out ->
  dict_keys out = group_names
  /\ (entry_count out <= entry_count grouped + length items)%nat.
Proof.
  revert grouped. induction items as [|it items IH]; intros grouped Hk H.
  - cbn [normalize_loop] in H. injection H as <-. split; [exact Hk | cbn [length]; lia].
  - cbn [normalize_loop] in H.
    destruct (normalize_item grouped it) as [g1|e1] eqn:E1; [|discriminate].
    cbn [bind] in H.
    destruct (normalize_item_keys grouped g1 it Hk E1) as [Hk1 Hc1].
    destruct (IH g1 Hk1 H) as [Hk2 Hc2].
    split; [exact Hk2 | cbn [length]; lia].
Qed.

Lemma normalize_loop_app (a b : list pyval) (grouped : groups) :
  normalize_loop (a ++ b) grouped
  = (g <- normalize_loop a grouped ;; normalize_loop b g).
Proof.
  revert grouped. induction a as [|it a IH]; intros grouped; cbn [app normalize_loop bind].
  - reflexivity.
  - destruct (normalize_item grouped it); cbn [bind]; [apply IH | reflexivity].
Qed.

Lemma empty_groups_keys : dict_keys empty_groups = group_names.
Proof. reflexivity. Qed.



(** X10: whatever the items, the output of [normalize_observations] has
    exactly the five groups, in the order of the source, and holds at most
    one entry per item. *)
Theorem X10_five_groups :
  forall items out,
    normalize_observations items = Ok out ->
    dict_keys out = [py "기온"; py "습도"; py "강수"; py "바람"; py "기타"]
    /\ (entry_count out <= length items)%nat.
Proof.
  intros items out H.
  destruct (normalize_loop_keys items empty_groups out empty_groups_keys H) as [Hk Hc].
  split; [exact Hk|]. exact Hc.
Qed.

(** X11: the last item of the list is always in the output: its entry is
    in the group of its category, under its label or under the label
    followed by the code in parentheses. *)
Theorem X11_last_item_is_kept :
  forall items d out,
    normalize_observations (items ++ [VDict d]) = Ok out ->
    exists g e,
      build_entry (VDict d)
      = Ok (item_code d, label_of (item_code d), group_of (item_code d), e)
      /\ dict_get out (group_of (item_code d)) = Some g
      /\ (dict_get g (label_of (item_code d)) = Some e
          \/ dict_get g (suffixed (label_of (item_code d)) (item_code d)) = Some e).
Proof.
  intros items d out H. unfold normalize_observations in H.
  rewrite normalize_loop_app in H.
  destruct (normalize_loop items empty_groups) as [g1|e1] eqn:E1; [|discriminate].
  cbn [bind normalize_loop] in H.
  destruct (normalize_loop_keys items empty_groups g1 empty_groups_keys E1) as [Hk _].
  destruct (normalize_item_named g1 d Hk) as (g & e & Hb & Hg & Hn).
  rewrite Hn in H. cbn [bind] in H. injection H as <-.
  eexists. exists e. split; [exact Hb|]. split; [apply dict_get_set_same|].
  destruct (dict_mem g (label_of (item_code d))); [right | left];
    apply dict_get_set_same.
Qed.

Lemma empty_groups_get (group : pystr) :
  In group group_names -> dict_get empty_groups group = Some [].
Proof.
  unfold group_names. cbn [In]. intros H.
  repeat (destruct H as [<-|H]; [vm_compute; reflexivity|]). contradiction.
Qed.

Lemma suffixed_differs (label code : pystr) : str_eqb label (suffixed label code) = false.
Proof.
  apply str_eqb_neq. intros H. apply (f_equal (@length _)) in H.
  unfold suffixed in H. rewrite !length_app in H.
  change (length (py "(")) with 1%nat in H. lia.
Qed.

(** X12: of two items of the same category, both are in the output: the
    first under the label of the category, the second under the label
    followed by the code in parentheses, in that order. *)
Theorem X12_second_of_two_is_suffixed :
  forall a b,
    item_code a = item_code b ->
    exists ea eb,
      build_entry (VDict a)
      = Ok (item_code a, label_of (item_code a), group_of (item_code a), ea)
      /\ build_entry (VDict b)
         = Ok (item_code a, label_of (item_code a), group_of (item_code a), eb)
      /\ normalize_observations [VDict a; VDict b]
         = Ok (dict_set empty_groups (group_of (item_code a))
                        [(label_of (item_code a), ea);
                         (suffixed (label_of (item_code a)) (item_code a), eb)]).
Proof.
  intros a b Hab.
  destruct (normalize_item_named empty_groups a empty_groups_keys)
    as (g0 & ea & Ha & Hg0 & Hna).
  rewrite (empty_groups_get _ (group_of_named (item_code a))) in Hg0.
  injection Hg0 as <-. change (dict_mem [] (label_of (item_code a))) with false in Hna.
  cbv iota in Hna. cbn [dict_set] in Hna.
  set (g1 := dict_set empty_groups (group_of (item_code a))
                      [(label_of (item_code a), ea)]) in *.
  assert (Hk1 : dict_keys g1 = group_names).
  { unfold g1. rewrite (dict_keys_set empty_groups _ _ []);
      [reflexivity | apply empty_groups_get, group_of_named]. }
  destruct (normalize_item_named g1 b Hk1) as (g & eb & Hb & Hg & Hnb).
  rewrite <- Hab in Hb, Hg, Hnb.
  unfold g1 in Hg. rewrite dict_get_set_same in Hg. injection Hg as <-.
  assert (Hm : dict_mem [(label_of (item_code a), ea)] (label_of (item_code a)) = true).
  { unfold dict_mem. cbn [dict_get]. now rewrite str_eqb_refl. }
  rewrite Hm in Hnb. cbn [dict_set] in Hnb. rewrite suffixed_differs in Hnb.
  unfold g1 in Hnb. rewrite dict_set_set in Hnb.
  exists ea, eb. split; [exact Ha|]. split; [exact Hb|].
  unfold normalize_observations. cbn [normalize_loop].
  rewrite Hna. cbn [bind]. fold g1. unfold g1 at 1.
  unfold g1. rewrite Hnb. reflexivity.
Qed.


Lemma dict_get_not_key {V} (d : dict V) (k : pystr) :
  ~ In k (dict_keys d) -> dict_get d k = None.
Proof.
  intros H. destruct (dict_get d k) as [v|] eqn:E; [|reflexivity].
  exfalso. apply H. clear H. unfold dict_keys.
  induction d as [|[k0 v0] d IH]; cbn [dict_get map fst In] in *; [discriminate|].
  destruct (str_eqb k0 k) eqn:Ek; [left; now apply str_eqb_eq | right; now apply IH].
Qed.

(** X13: an item whose category is none of the eight known codes goes to
    the group ["기타"] under its own code (under ["UNKNOWN"] when the code
    is empty), with its raw value as it came, uncast, and with no unit, no
    description and no direction. *)
Theorem X13_unknown_category :
  forall d,
    ~ In (item_code d) (dict_keys CATEGORY_META) ->
    build_entry (VDict d)
    = Ok (item_code d,
          match item_code d with [] => py "UNKNOWN" | _ => item_code d end,
          py "기타",
          {| e_code := item_code d; e_value := item_raw d; e_unit := None;
             e_desc := None; e_dir16 := None |})
    /\ normalize_observations [VDict d]
       = Ok [ (py "기온", []); (py "습도", []); (py "강수", []); (py "바람", []);
              (py "기타",
               [(match item_code d with [] => py "UNKNOWN" | _ => item_code d end,
                 {| e_code := item_code d; e_value := item_raw d; e_unit := None;
                    e_desc := None; e_dir16 := None |})]) ].
Proof.
  intros d H. apply dict_get_not_key in H.
  pose proof (build_entry_unknown d H) as Hb.
  assert (Hl : label_of (item_code d)
               = match item_code d with [] => py "UNKNOWN" | _ => item_code d end).
  { unfold label_of. now rewrite H. }
  rewrite Hl in Hb. split; [exact Hb|].
  unfold normalize_observations. cbn [normalize_loop]. unfold normalize_item.
  rewrite Hb. cbn [bind]. reflexivity.
Qed.

Lemma code_eqb_false (code lit : pystr) : code <> lit -> str_eqb code lit = false.
Proof. intros H. now apply str_eqb_neq. Qed.

(** X14: what an entry carries beside its value.  A ["VEC"] entry carries
    the compass label of its value when the value is an integer after the
    cast, and no direction at all when it is not (missing, blank, not a
    number, not finite); a ["PTY"] entry carries the description of its
    code, which is ["알 수 없음"] without a code in parentheses when the
    value is no integer; an entry of any other category carries neither. *)
Theorem X14_entry_decoration :
  forall d code label group e,
    build_entry (VDict d) = Ok (code, label, group, e) ->
    (code = py "VEC" ->
     e_value e = safe_cast CastInt (item_raw d)
     /\ e_desc e = None
     /\ e_dir16 e
        = match as_int (e_value e) with
          | Some v => Some (nth (Z.to_nat (sector_index v)) WIND_DIR_16_KO [])
          | None => None
          end)
    /\ (code = py "PTY" ->
        e_value e = safe_cast CastInt (item_raw d)
        /\ e_dir16 e = None
        /\ e_desc e
           = Some match as_int (e_value e) with
                  | Some v => pty_text v
                  | None => py "알 수 없음"
                  end)
    /\ (code <> py "VEC" -> code <> py "PTY" ->
        e_desc e = None /\ e_dir16 e = None).
Proof.
  intros d code label group e Hb.
  destruct (dict_get CATEGORY_META (item_code d)) as [meta|] eqn:Hmeta.
  - rewrite (build_entry_known d meta Hmeta) in Hb.
    injection Hb as <- _ _ <-. cbn [e_value e_desc e_dir16].
    split; [|split].
    + intros Hc. rewrite Hc in Hmeta. vm_compute in Hmeta. injection Hmeta as <-.
      rewrite Hc. change (str_eqb (py "VEC") (py "PTY")) with false.
      change (str_eqb (py "VEC") (py "VEC")) with true.
      cbn [meta_cast]. cbv iota.
      split; [reflexivity|]. split; [reflexivity|].
      unfold vec_label, vec_direction.
      destruct (as_int (safe_cast CastInt (item_raw d))) as [v|] eqn:Hv.
      * rewrite Hv. now rewrite wind_label_int.
      * rewrite Hv. reflexivity.
    + intros Hc. rewrite Hc in Hmeta. vm_compute in Hmeta. injection Hmeta as <-.
      rewrite Hc. change (str_eqb (py "PTY") (py "PTY")) with true.
      change (str_eqb (py "PTY") (py "VEC")) with false.
      cbn [meta_cast]. cbv iota.
      split; [reflexivity|]. split; [reflexivity|].
      f_equal. unfold pty_description, pty_text.
      destruct (safe_cast CastInt (item_raw d)) as [| [|] |z| | | |] eqn:Hv;
        cbn [as_int py_str]; reflexivity.
    + intros Hv Hp. rewrite (code_eqb_false _ _ Hv), (code_eqb_false _ _ Hp).
      split; reflexivity.
  - rewrite (build_entry_unknown d Hmeta) in Hb.
    injection Hb as <- _ _ <-. cbn [e_value e_desc e_dir16].
    destruct (code_unknown_not_decorated _ Hmeta) as [Hp Hv].
    split; [|split].
    + intros Hc. rewrite Hc in Hv. vm_compute in Hv. discriminate.
    + intros Hc. rewrite Hc in Hp. vm_compute in Hp. discriminate.
    + intros _ _. split; reflexivity.
Qed.


(* ================================================================= *)
(** ** Further properties: the orchestrator *)

Lemma need_env_ok (env : environ) (name service_key : pystr) :
  need_env env name = Ok service_key ->
  service_key = strip (env_value env name) /\ service_key <> [].
Proof.
  unfold need_env, env_value.
  destruct (strip match env name with Some s => s | None => [] end) as [|c t];
    [discriminate|].
  intros [= <-]. split; [reflexivity | discriminate].
Qed.

Lemma handle_nonempty (e : exn) : handle e <> [].
Proof.
  unfold handle. destruct (exn_kind e); intros H; apply app_eq_nil in H as [H _];
    vm_compute in H; discriminate.
Qed.

Lemma empty_data_message_nonempty (code : pystr) (count : Z) :
  empty_data_message code count <> [].
Proof.
  unfold empty_data_message. intros H. apply app_eq_nil in H as [H _].
  vm_compute in H. discriminate.
Qed.

Lemma window_error_nonempty (fetched : res pyval) (m : pystr) :
  window_error fetched = Some m -> m <> [].
Proof.
  unfold window_error. destruct fetched as [api|e].
  - destruct (read_header api) as [[code msg]|e].
    + destruct (success_with_items code (extract_items api)).
      * destruct (normalize_observations (extract_items api)) as [obs|e];
          [discriminate|]. intros [= <-]. apply handle_nonempty.
      * intros [= <-]. apply empty_data_message_nonempty.
    + intros [= <-]. apply handle_nonempty.
  - intros [= <-]. apply handle_nonempty.
Qed.

Lemma normalize_observations_dicts (items : list pyval) :
  (exists obs, normalize_observations items = Ok obs) <-> forallb is_dict items = true.
Proof.
  split.
  - intros [obs H]. destruct (forallb is_dict items) eqn:E; [reflexivity|].
    destruct (normalize_loop_not_dicts items empty_groups E empty_groups_other)
      as [e He].
    unfold normalize_observations in H. congruence.
  - intros H. exact (normalize_loop_dicts items empty_groups H empty_groups_other).
Qed.

(** A window ends the loop exactly when it is accepted. *)
Lemma window_error_accepted (fetched : res pyval) :
  window_error fetched = None <-> accepted fetched = true.
Proof.
  unfold window_error, accepted, parsed. destruct fetched as [api|e].
  - destruct (read_header api) as [[code msg]|e].
    + destruct (success_with_items code (extract_items api)); cbn [andb].
      * destruct (normalize_observations (extract_items api)) as [obs|e] eqn:Hn.
        -- split; [intros _|reflexivity].
           apply normalize_observations_dicts. eauto.
        -- split; [discriminate|]. intros H.
           apply normalize_observations_dicts in H as [obs H]. congruence.
      * split; discriminate.
    + split; discriminate.
  - split; discriminate.
Qed.

Lemma answers_app (up : upstream) (n : nat) (a b : list request) :
  answers up n (a ++ b) = answers up n a ++ answers up (n + length a) b.
Proof.
  revert n. induction a as [|r a IH]; intros n; cbn [app answers length].
  - now rewrite Nat.add_0_r.
  - rewrite IH. now replace (S n + length a)%nat with (n + S (length a))%nat by lia.
Qed.

Lemma answers_requests (up : upstream) (n : nat) (log : list request) :
  map fst (answers up n log) = log.
Proof.
  revert n. induction log as [|r log IH]; intros n; cbn [answers map fst];
    [reflexivity | now rewrite IH].
Qed.

Lemma trail_app (a b : list (request * res pyval)) : trail (a ++ b) = trail a ++ trail b.
Proof. unfold trail. apply flat_map_app. Qed.

Lemma record_of_length (r : request) (fetched : res pyval) :
  (length (record_of r fetched) <= 1)%nat.
Proof.
  unfold record_of. destruct (parsed fetched) as [[[code msg] items]|]; cbn [length]; lia.
Qed.

Lemma trail_length (l : list (request * res pyval)) : (length (trail l) <= length l)%nat.
Proof.
  unfold trail. induction l as [|p l IH]; cbn [flat_map length]; [lia|].
  rewrite length_app. pose proof (record_of_length (fst p) (snd p)). lia.
Qed.

Lemma fold_last_error (l : list (request * res pyval)) (p : request * res pyval)
      (le : option pystr) :
  fold_left (fun _ q => window_error (snd q)) (l ++ [p]) le = window_error (snd p).
Proof. now rewrite fold_left_app. Qed.

Section Windows.

Variable up : upstream.
Variables service_key city_norm base_date : pystr.
Variables nx ny : Z.

Let loop := for_candidates up service_key city_norm nx ny base_date.
Let rq := window_request service_key base_date nx ny.

(** The [try] block of a window that does not end the loop. *)
Lemma try_window_error (c : datetime) (attempts : list attempt) (fetched : res pyval)
      (m : pystr) :
  window_error fetched = Some m ->
  exists out,
    try_window city_norm nx ny base_date (as_base_time_hour c) attempts fetched
    = (attempts ++ record_of (rq c) fetched, out)
    /\ (out = Ok (Next m) \/ exists e, out = Raise e /\ handle e = m).
Proof.
  unfold window_error, record_of, parsed, try_window, success_with_items.
  destruct fetched as [api|e]; cbn [bind].
  - destruct (read_header api) as [[code msg]|e]; cbn [bind].
    + destruct (str_eqb code (py "00") && negb (length (extract_items api) =? 0)%nat).
      * destruct (normalize_observations (extract_items api)) as [obs|e];
          [discriminate|].
        intros [= <-]. eexists. split; [reflexivity|]. right. eauto.
      * intros [= <-]. eexists. split; [reflexivity|]. now left.
    + intros [= <-]. eexists. rewrite app_nil_r. split; [reflexivity|]. right. eauto.
  - intros [= <-]. eexists. rewrite app_nil_r. split; [reflexivity|]. right. eauto.
Qed.

(** The [try] block of a window that ends the loop. *)
Lemma try_window_return (c : datetime) (attempts : list attempt) (fetched : res pyval) :
  window_error fetched = None ->
  exists msg items obs,
    parsed fetched = Some (py "00", msg, items)
    /\ items <> []
    /\ normalize_observations items = Ok obs
    /\ try_window city_norm nx ny base_date (as_base_time_hour c) attempts fetched
       = (attempts ++ record_of (rq c) fetched,
          Ok (Return (Success city_norm (nx, ny) base_date (as_base_time_hour c) obs
                              (attempts ++ record_of (rq c) fetched)))).
Proof.
  unfold window_error, record_of, parsed, try_window, success_with_items.
  destruct fetched as [api|e]; cbn [bind]; [|discriminate].
  destruct (read_header api) as [[code msg]|e]; cbn [bind]; [|discriminate].
  destruct (str_eqb code (py "00") && negb (length (extract_items api) =? 0)%nat)
    eqn:Hs; [|discriminate].
  destruct (normalize_observations (extract_items api)) as [obs|e] eqn:Hn;
    [|discriminate].
  intros _. apply andb_true_iff in Hs as [Hc Hi]. apply str_eqb_eq in Hc. subst code.
  exists msg, (extract_items api), obs.
  split; [reflexivity|]. split.
  - intros H. rewrite H in Hi. discriminate.
  - split; [exact Hn | reflexivity].
Qed.

(** The loop, from any state: the requests it adds are those of the first
    eligible windows; it returns at the first window that is accepted and
    falls through when there is none; the trail grows by the records of
    the answers. *)
Lemma for_candidates_inv (cands : list datetime) (attempts : list attempt)
      (le : option pystr) (log : list request) :
  exists k,
    (k <= length (eligible base_date cands))%nat
    /\ snd (loop cands attempts le log)
       = log ++ map rq (firstn k (eligible base_date cands))
    /\ match fst (loop cands attempts le log) with
       | inl r =>
         exists pre w msg items obs,
           firstn k (eligible base_date cands) = pre ++ [w]
           /\ Forall (fun p => window_error (snd p) <> None)
                     (answers up (length log) (map rq pre))
           /\ parsed (up (length log + length pre)%nat (rq w))
              = Some (py "00", msg, items)
           /\ items <> []
           /\ normalize_observations items = Ok obs
           /\ r = Success city_norm (nx, ny) base_date (as_base_time_hour w) obs
                          (attempts
                             ++ trail (answers up (length log)
                                               (map rq (firstn k (eligible base_date cands)))))
       | inr (attempts', le') =>
         k = length (eligible base_date cands)
         /\ Forall (fun p => window_error (snd p) <> None)
                   (answers up (length log) (map rq (eligible base_date cands)))
         /\ attempts'
            = attempts ++ trail (answers up (length log)
                                         (map rq (eligible base_date cands)))
         /\ le' = fold_left (fun _ p => window_error (snd p))
                            (answers up (length log)
                                     (map rq (eligible base_date cands))) le
       end.
Proof.
  revert attempts le log.
  induction cands as [|c rest IH]; intros attempts le log.
  - exists 0%nat. cbn. rewrite !app_nil_r. repeat split; try lia. constructor.
  - destruct (str_eqb (as_base_date c) base_date) eqn:E.
    2:{ unfold loop. rewrite (for_candidates_skip up service_key city_norm base_date
                                nx ny c rest attempts le log E).
        unfold eligible. cbn [filter]. rewrite E. apply IH. }
    assert (Hel : eligible base_date (c :: rest) = c :: eligible base_date rest).
    { unfold eligible. cbn [filter]. now rewrite E. }
    rewrite Hel.
    unfold loop.
    rewrite (for_candidates_step up service_key city_norm base_date nx ny
               c rest attempts le log E).
    fold rq.
    destruct (window_error (up (length log) (rq c))) as [m|] eqn:Hw.
    + destruct (try_window_error c attempts _ m Hw) as (out & Htw & Hout).
      rewrite Htw.
      assert (Hstep :
        match out with
        | Ok (Return r) => (inl r, log ++ [rq c])
        | Ok (Next msg) =>
          for_candidates up service_key city_norm nx ny base_date rest
            (attempts ++ record_of (rq c) (up (length log) (rq c))) (Some msg)
            (log ++ [rq c])
        | Raise e =>
          for_candidates up service_key city_norm nx ny base_date rest
            (attempts ++ record_of (rq c) (up (length log) (rq c))) (Some (handle e))
            (log ++ [rq c])
        end
        = loop rest (attempts ++ record_of (rq c) (up (length log) (rq c))) (Some m)
               (log ++ [rq c])).
      { destruct Hout as [->|(e & -> & <-)]; reflexivity. }
      rewrite Hstep. clear Hstep.
      destruct (IH (attempts ++ record_of (rq c) (up (length log) (rq c))) (Some m)
                   (log ++ [rq c])) as (k & Hk & Hlog & Hres).
      assert (Hlen : length (log ++ [rq c]) = S (length log)).
      { rewrite length_app. cbn [length]. lia. }
      rewrite Hlen in Hres.
      exists (S k). split; [cbn [length]; lia|].
      split; [rewrite Hlog; cbn [firstn map]; now rewrite <- app_assoc|].
      destruct (fst (loop rest _ _ _)) as [r|[attempts' le']].
      * destruct Hres as (pre & w & msg & items & obs & Hf & Hall & Hp & Hne & Hn & Hr).
        exists (c :: pre), w, msg, items, obs.
        split; [cbn [firstn app]; now rewrite Hf|].
        split.
        { cbn [map answers]. constructor; [|exact Hall].
          cbn [snd]. rewrite Hw. discriminate. }
        split.
        { cbn [length]. replace (length log + S (length pre))%nat
            with (S (length log) + length pre)%nat by lia. exact Hp. }
        split; [exact Hne|]. split; [exact Hn|].
        rewrite Hr. cbn [firstn map answers]. unfold trail at 2. cbn [flat_map fst snd].
        fold (trail (answers up (S (length log))
                             (map rq (firstn k (eligible base_date rest))))).
        now rewrite <- app_assoc.
      * destruct Hres as (Hk' & Hall & Ha & Hle).
        split; [cbn [length]; now rewrite Hk'|].
        split.
        { cbn [map answers]. constructor; [|exact Hall].
          cbn [snd]. rewrite Hw. discriminate. }
        split.
        { rewrite Ha. cbn [map answers]. unfold trail at 2. cbn [flat_map fst snd].
          fold (trail (answers up (S (length log)) (map rq (eligible base_date rest)))).
          now rewrite <- app_assoc. }
        rewrite Hle. cbn [map answers fold_left snd]. now rewrite Hw.
    + destruct (try_window_return c attempts _ Hw) as (msg & items & obs & Hp & Hne & Hn & Htw).
      rewrite Htw.
      exists 1%nat. split; [cbn [length]; lia|].
      cbn [fst snd firstn map].
      split; [reflexivity|].
      exists [], c, msg, items, obs.
      split; [reflexivity|]. split; [constructor|].
      split; [cbn [length]; now rewrite Nat.add_0_r|].
      split; [exact Hne|]. split; [exact Hn|].
      cbn [answers]. unfold trail. cbn [flat_map fst snd]. now rewrite app_nil_r.
Qed.

End Windows.

(* ================================================================= *)
(** ** Every eligible window declined *)






Lemma not_ended_not_accepted (l : list (request * res pyval)) :
  Forall (fun p => window_error (snd p) <> None) l <->
  Forall (fun p => accepted (snd p) = false) l.
Proof.
  split; apply Forall_impl; intros p H.
  - destruct (accepted (snd p)) eqn:E; [|reflexivity].
    apply window_error_accepted in E. contradiction.
  - intros E. apply window_error_accepted in E. congruence.
Qed.

Lemma window_request_fields (service_key base_date : pystr) (nx ny : Z) (c : datetime) :
  window_request service_key base_date nx ny c
  = query_params service_key base_date (as_base_time_hour c) nx ny.
Proof. reflexivity. Qed.

(** The trail of windows whose requests all raise, or whose answers have
    no readable header, is empty. *)
Lemma trail_unparsed (up : upstream) (rq : datetime -> request) (n : nat)
      (l : list datetime) :
  (forall i c, nth_error l i = Some c -> parsed (up (n + i)%nat (rq c)) = None) ->
  trail (answers up n (map rq l)) = [].
Proof.
  revert n. induction l as [|a l IH]; intros n H; [reflexivity|].
  cbn [map answers]. unfold trail. cbn [flat_map fst snd].
  fold (trail (answers up (S n) (map rq l))).
  pose proof (H 0%nat a eq_refl) as Hp. rewrite Nat.add_0_r in Hp.
  unfold record_of. rewrite Hp. cbn [app]. apply IH.
  intros i c Hc. specialize (H (S i) c Hc).
  now replace (S n + i)%nat with (n + S i)%nat by lia.
Qed.

(** X15: when the request of every eligible window raises (the service
    cannot be reached, answers with an HTTP error status, or sends what is
    no JSON), [get_now_weather] still asks every eligible window once, in
    order, and returns a failure: its error is the name of the handler that
    caught the last exception followed by the message of that exception,
    and its attempt trail is empty. *)
Theorem X15_service_errors_are_reported :
  forall env now up city service_key nx ny cands,
    need_env env (py "KMA_SERVICE_KEY") = Ok service_key ->
    dict_get CITY_TO_GRID (normalize_city city) = Some (nx, ny) ->
    candidate_windows now = Ok cands ->
    (forall i c,
        nth_error (eligible (as_base_date now) cands) i = Some c ->
        exists e,
          up i (window_request service_key (as_base_date now) nx ny c) = Raise e) ->
    exists before last e,
      eligible (as_base_date now) cands = before ++ [last]
      /\ up (length before) (window_request service_key (as_base_date now) nx ny last)
         = Raise e
      /\ get_now_weather env now up city
         = (Ok (Failure (match exn_kind e with
                         | HTTPStatusError => py "HTTPStatusError: "
                         | RequestError => py "RequestError: "
                         | OtherException => py "Exception: "
                         end ++ exn_msg e)
                        (normalize_city city) (nx, ny) (as_base_date now)
                        (map as_base_time_hour (eligible (as_base_date now) cands))
                        []),
            map (window_request service_key (as_base_date now) nx ny)
                (eligible (as_base_date now) cands)).
Proof.
  intros env now up city sk nx ny cands Hk Hg Hc Hraise.
  rewrite (get_now_weather_loop env now up city sk nx ny cands Hk Hg Hc).
  destruct (for_candidates_inv up sk (normalize_city city) (as_base_date now) nx ny
              cands [] None []) as (k & Hle & Hlog & Hres).
  destruct (primary_eligible now cands Hc) as (s & _ & Hel).
  set (rq := window_request sk (as_base_date now) nx ny) in *.
  set (el := eligible (as_base_date now) cands) in *.
  destruct (for_candidates _ _ _ _ _ _ _ _ _ _) as [[r|[a l]] lg];
    cbn [fst snd length app Nat.add] in Hlog, Hres.
  - exfalso.
    destruct Hres as (pre & w & msg & items & ob & Hf & _ & Hp & _).
    assert (Hw : nth_error el (length pre) = Some w).
    { rewrite <- (firstn_skipn k el), Hf, <- app_assoc.
      rewrite nth_error_app2 by lia. now rewrite Nat.sub_diag. }
    destruct (Hraise _ _ Hw) as [e He]. fold rq in He.
    rewrite He in Hp. discriminate.
  - destruct Hres as (Hk' & _ & Ha & Hl).
    rewrite Hk', firstn_all in Hlog.
    assert (Hne : el <> []) by (rewrite Hel; discriminate).
    destruct (exists_last Hne) as (before & last & Hbl).
    assert (Hlast : nth_error el (length before) = Some last).
    { rewrite Hbl, nth_error_app2 by lia. now rewrite Nat.sub_diag. }
    destruct (Hraise _ _ Hlast) as [e He]. fold rq in He.
    assert (Herr : l = Some (handle e)).
    { rewrite Hl, Hbl, map_app, answers_app. cbn [map answers Nat.add].
      rewrite fold_last_error. cbn [snd]. rewrite length_map, He. reflexivity. }
    assert (Ht : trail (answers up 0 (map rq el)) = []).
    { apply trail_unparsed. intros i c Hi. cbn [Nat.add].
      destruct (Hraise _ _ Hi) as [e' He']. fold rq in He'. now rewrite He'. }
    exists before, last, e.
    split; [exact Hbl|]. split; [exact He|].
    rewrite Herr, Ha, Hlog, Ht.
    pose proof (handle_nonempty e) as Hn.
    assert (Hh : handle e
                 = match exn_kind e with
                   | HTTPStatusError => py "HTTPStatusError: "
                   | RequestError => py "RequestError: "
                   | OtherException => py "Exception: "
                   end ++ exn_msg e).
    { unfold handle. now destruct (exn_kind e). }
    rewrite <- Hh. destruct (handle e) as [|ch m]; [congruence | reflexivity].
Qed.

(** X16: a success is always built from the answer to the last request of
    the invocation.  That answer has result code ["00"] and a non-empty item
    list, the observations are the normalisation of its items, its window
    is the reported base time, and no earlier answer was accepted; the
    region is the normalised input and the grid its table entry. *)
Theorem X16_success_is_sound :
  forall env now up city region grid base_date base_time obs attempts log,
    get_now_weather env now up city
    = (Ok (Success region grid base_date base_time obs attempts), log) ->
    exists earlier msg items,
      log = earlier
              ++ [query_params (strip (env_value env (py "KMA_SERVICE_KEY")))
                               (as_base_date now) base_time (fst grid) (snd grid)]
      /\ base_date = as_base_date now
      /\ region = normalize_city city
      /\ dict_get CITY_TO_GRID region = Some grid
      /\ Forall (fun p => accepted (snd p) = false) (answers up 0 earlier)
      /\ parsed (up (length earlier)
                    (query_params (strip (env_value env (py "KMA_SERVICE_KEY")))
                                  (as_base_date now) base_time (fst grid) (snd grid)))
         = Some (py "00", msg, items)
      /\ items <> []
      /\ normalize_observations items = Ok obs.
Proof.
  intros env now up city region grid base_date base_time obs attempts log H.
  destruct (need_env env (py "KMA_SERVICE_KEY")) as [sk|e0] eqn:Hk.
  2:{ unfold get_now_weather in H. rewrite Hk in H. discriminate. }
  destruct (dict_get CITY_TO_GRID (normalize_city city)) as [[nx ny]|] eqn:Hg.
  2:{ unfold get_now_weather in H. rewrite Hk, Hg in H. discriminate. }
  destruct (candidate_windows now) as [cands|e0] eqn:Hc.
  2:{ unfold get_now_weather in H. rewrite Hk, Hg, Hc in H. discriminate. }
  rewrite (get_now_weather_loop env now up city sk nx ny cands Hk Hg Hc) in H.
  destruct (for_candidates_inv up sk (normalize_city city) (as_base_date now) nx ny
              cands [] None []) as (k & _ & Hlog & Hres).
  destruct (for_candidates _ _ _ _ _ _ _ _ _ _) as [[r|[a l]] lg];
    cbn [fst snd] in Hlog, Hres; [|discriminate].
  destruct Hres as (pre & w & msg & items & ob & Hf & Hall & Hp & Hne & Hn & Hr).
  injection H as Hr0 Hlg. rewrite Hr in Hr0.
  injection Hr0 as E1 E2 E3 E4 E5 _. subst region grid base_date base_time obs lg.
  destruct (need_env_ok env _ sk Hk) as [<- _].
  cbn [length Nat.add app] in *.
  exists (map (window_request sk (as_base_date now) nx ny) pre), msg, items.
  split.
  { rewrite Hlog, Hf, map_app. reflexivity. }
  split; [reflexivity|]. split; [reflexivity|]. split; [exact Hg|].
  split; [now apply not_ended_not_accepted|].
  rewrite length_map. cbn [fst snd]. repeat split; assumption.
Qed.

(** X17: with the credential set, the region supported and the candidates
    computed, [get_now_weather] reports a failure exactly when none of the
    eligible windows' answers is accepted.  It has then asked every
    eligible window once, in order, and the error is the message left by
    the last of them: never empty, so the fallback text for an unknown
    error is not reached. *)
Theorem X17_failure_iff_no_window_accepted :
  forall env now up city service_key nx ny cands,
    need_env env (py "KMA_SERVICE_KEY") = Ok service_key ->
    dict_get CITY_TO_GRID (normalize_city city) = Some (nx, ny) ->
    candidate_windows now = Ok cands ->
    (is_failure (fst (get_now_weather env now up city)) = true
     <-> Forall (fun p => accepted (snd p) = false)
                (answers up 0 (map (window_request service_key (as_base_date now) nx ny)
                                   (eligible (as_base_date now) cands))))
    /\ (is_failure (fst (get_now_weather env now up city)) = true ->
        exists before last error,
          map (window_request service_key (as_base_date now) nx ny)
              (eligible (as_base_date now) cands) = before ++ [last]
          /\ window_error (up (length before) last) = Some error
          /\ error <> []
          /\ get_now_weather env now up city
             = (Ok (Failure error (normalize_city city) (nx, ny) (as_base_date now)
                            (map as_base_time_hour (eligible (as_base_date now) cands))
                            (trail (answers up 0 (before ++ [last])))),
                before ++ [last])).
Proof.
  intros env now up city sk nx ny cands Hk Hg Hc.
  rewrite (get_now_weather_loop env now up city sk nx ny cands Hk Hg Hc).
  destruct (for_candidates_inv up sk (normalize_city city) (as_base_date now) nx ny
              cands [] None []) as (k & Hle & Hlog & Hres).
  destruct (primary_eligible now cands Hc) as (s & _ & Hel).
  set (rq := window_request sk (as_base_date now) nx ny) in *.
  set (el := eligible (as_base_date now) cands) in *.
  destruct (for_candidates _ _ _ _ _ _ _ _ _ _) as [[r|[a l]] lg];
    cbn [fst snd length app] in Hlog, Hres |- *.
  - destruct Hres as (pre & w & msg & items & ob & Hf & Hall & Hp & Hne & Hn & Hr).
    cbn [Nat.add] in Hp.
    assert (Hr' : is_failure (Ok r) = false) by now rewrite Hr.
    rewrite Hr'. split; [|discriminate].
    split; [discriminate|]. intros HF. exfalso.
    rewrite <- (firstn_skipn k el), Hf, !map_app, !answers_app in HF.
    apply Forall_app in HF as [HF _]. apply Forall_app in HF as [_ HF].
    cbn [map answers] in HF. inversion HF as [|p q Hacc _]; subst.
    cbn [snd Nat.add] in Hacc. rewrite length_map in Hacc.
    assert (Ht : accepted (up (length pre) (rq w)) = true).
    { unfold accepted. rewrite Hp.
      apply andb_true_iff. split.
      - unfold success_with_items. destruct items; [congruence | reflexivity].
      - apply normalize_observations_dicts. eauto. }
    congruence.
  - destruct Hres as (Hk' & Hall & Ha & Hl).
    rewrite Hk', firstn_all in Hlog.
    cbn [is_failure]. split.
    + split; [intros _; now apply not_ended_not_accepted | reflexivity].
    + intros _.
      assert (Hne : map rq el <> []).
      { rewrite Hel. discriminate. }
      destruct (exists_last Hne) as (before & last & Hbl).
      rewrite Hbl in *.
      rewrite answers_app in Hl, Hall. cbn [answers Nat.add] in Hl, Hall.
      rewrite fold_last_error in Hl. cbn [snd] in Hl.
      apply Forall_app in Hall as [_ Hall].
      inversion Hall as [|p q Hlast _]; subst. cbn [snd] in Hlast.
      destruct (window_error (up (length before) last)) as [error|] eqn:Hw;
        [|congruence].
      pose proof (window_error_nonempty _ _ Hw) as Hnon.
      exists before, last, error. split; [reflexivity|].
      split; [exact Hw|]. split; [exact Hnon|].
      rewrite answers_app. cbn [answers Nat.add].
      destruct error as [|ch t]; [congruence|]. reflexivity.
Qed.

Lemma in_firstn {A} (k : nat) (l : list A) (x : A) : In x (firstn k l) -> In x l.
Proof.
  revert l. induction k as [|k IH]; intros [|a l]; cbn [firstn In]; try tauto.
  intros [H|H]; [now left | right; now apply IH].
Qed.

(** X18: every request of an invocation carries the trimmed, non-empty
    credential, the date of the current time, the grid of the normalised
    region, the hour of an eligible window as base time, and the fixed
    paging parameters: 1000 rows, page 1, JSON. *)
Theorem X18_request_parameters :
  forall env now up city r,
    In r (snd (get_now_weather env now up city)) ->
    exists nx ny cands c,
      dict_get CITY_TO_GRID (normalize_city city) = Some (nx, ny)
      /\ candidate_windows now = Ok cands
      /\ In c (eligible (as_base_date now) cands)
      /\ strip (env_value env (py "KMA_SERVICE_KEY")) <> []
      /\ r = {| rq_serviceKey := strip (env_value env (py "KMA_SERVICE_KEY"));
                rq_numOfRows := py "1000"; rq_pageNo := py "1";
                rq_dataType := py "JSON";
                rq_base_date := as_base_date now;
                rq_base_time := as_base_time_hour c;
                rq_nx := str_of_int nx; rq_ny := str_of_int ny |}.
Proof.
  intros env now up city r Hin.
  destruct (need_env env (py "KMA_SERVICE_KEY")) as [sk|e0] eqn:Hk.
  2:{ unfold get_now_weather in Hin. rewrite Hk in Hin. contradiction. }
  destruct (dict_get CITY_TO_GRID (normalize_city city)) as [[nx ny]|] eqn:Hg.
  2:{ unfold get_now_weather in Hin. rewrite Hk, Hg in Hin. contradiction. }
  destruct (candidate_windows now) as [cands|e0] eqn:Hc.
  2:{ unfold get_now_weather in Hin. rewrite Hk, Hg, Hc in Hin. contradiction. }
  rewrite (get_now_weather_loop env now up city sk nx ny cands Hk Hg Hc) in Hin.
  destruct (for_candidates_inv up sk (normalize_city city) (as_base_date now) nx ny
              cands [] None []) as (k & _ & Hlog & _).
  destruct (for_candidates _ _ _ _ _ _ _ _ _ _) as [[r0|[a l]] lg];
    cbn [fst snd app] in Hlog, Hin; subst lg;
    apply in_map_iff in Hin as (c & <- & Hin);
    apply in_firstn in Hin;
    destruct (need_env_ok env _ sk Hk) as [<- Hne];
    exists nx, ny, cands, c; repeat split; assumption.
Qed.

(** X19: the attempt trail of a result holds, in the order of the requests,
    exactly one record for each request whose answer came back with a
    readable header, whether the window was then accepted, declined or
    failed in the normalisation, and none for a request that raised; so it
    is never longer than the list of requests, and every record carries
    the date of the current time. *)
Theorem X19_attempt_trail :
  forall env now up city r log,
    get_now_weather env now up city = (Ok r, log) ->
    attempts_of r = trail (answers up 0 log)
    /\ (length (attempts_of r) <= length log)%nat
    /\ Forall (fun a => at_base_date a = as_base_date now) (attempts_of r).
Proof.
  intros env now up city r log H.
  assert (Ht : attempts_of r = trail (answers up 0 log)
               /\ Forall (fun q => rq_base_date q = as_base_date now) log).
  { destruct (need_env env (py "KMA_SERVICE_KEY")) as [sk|e0] eqn:Hk.
    2:{ unfold get_now_weather in H. rewrite Hk in H. injection H as <- <-.
        split; [reflexivity | constructor]. }
    destruct (dict_get CITY_TO_GRID (normalize_city city)) as [[nx ny]|] eqn:Hg.
    2:{ unfold get_now_weather in H. rewrite Hk, Hg in H. injection H as <- <-.
        split; [reflexivity | constructor]. }
    destruct (candidate_windows now) as [cands|e0] eqn:Hc.
    2:{ unfold get_now_weather in H. rewrite Hk, Hg, Hc in H. discriminate. }
    rewrite (get_now_weather_loop env now up city sk nx ny cands Hk Hg Hc) in H.
    destruct (for_candidates_inv up sk (normalize_city city) (as_base_date now) nx ny
                cands [] None []) as (k & Hle & Hlog & Hres).
    destruct (for_candidates _ _ _ _ _ _ _ _ _ _) as [[r0|[a l]] lg];
      cbn [fst snd app length] in Hlog, Hres; injection H as <- <-; subst lg.
    - destruct Hres as (pre & w & msg & items & ob & _ & _ & _ & _ & _ & ->).
      split; [reflexivity|].
      apply Forall_forall. intros q Hq. apply in_map_iff in Hq as (c & <- & _).
      reflexivity.
    - destruct Hres as (-> & _ & -> & _).
      rewrite firstn_all. split; [reflexivity|].
      apply Forall_forall. intros q Hq. apply in_map_iff in Hq as (c & <- & _).
      reflexivity. }
  destruct Ht as [Ht Hd]. split; [exact Ht|]. split.
  - rewrite Ht. etransitivity; [apply trail_length|].
    rewrite <- (answers_requests up 0 log) at 2. now rewrite length_map.
  - rewrite Ht. clear Ht H. generalize 0%nat.
    induction log as [|q log IH]; intros n; cbn [answers]; [constructor|].
    inversion Hd as [|q' l' Hq Hrest]; subst.
    unfold trail. cbn [flat_map fst snd]. apply Forall_app. split; [|now apply IH].
    unfold record_of. destruct (parsed (up n q)) as [[[code msg] items]|];
      constructor; [exact Hq | constructor].
Qed.


(* ================================================================= *)
(** ** Further properties: dates, and the cast of integer texts *)

Lemma digits_value_4 (n : Z) :
  0 <= n < 10000 ->
  digits_value [48 + n / 1000; 48 + (n / 100) mod 10; 48 + (n / 10) mod 10; 48 + n mod 10]
  = n.
Proof.
  intros H. unfold digits_value. cbn [fold_left].
  assert (H1 : n / 1000 = n / 100 / 10) by (rewrite Z.div_div; [reflexivity|lia..]).
  assert (H2 : n / 100 = n / 10 / 10) by (rewrite Z.div_div; [reflexivity|lia..]).
  Z.div_mod_to_equations. lia.
Qed.

(** X20: for a valid [datetime] of the year 1000 or later (from there
    on [%Y] is four digits whatever the C library), [as_base_date] is the
    eight digits of year, month and day and [as_base_time_hour] the two
    digits of the hour followed by two zeros: read back as decimal numbers
    they give [year * 10000 + month * 100 + day] and [hour * 100].  Two
    such datetimes get the same base date exactly when they are on the
    same day, and the same base time exactly when their hours are equal. *)
Theorem X20_base_date_and_time :
  forall a,
    valid_datetime a = true ->
    1000 <= dt_year a ->
    (length (as_base_date a) = 8%nat
     /\ forallb is_digit (as_base_date a) = true
     /\ digits_value (as_base_date a)
        = dt_year a * 10000 + dt_month a * 100 + dt_day a)
    /\ (length (as_base_time_hour a) = 4%nat
        /\ forallb is_digit (as_base_time_hour a) = true
        /\ digits_value (as_base_time_hour a) = dt_hour a * 100)
    /\ (forall b,
           valid_datetime b = true ->
           1000 <= dt_year b ->
           (as_base_date a = as_base_date b <-> same_date a b = true)
           /\ (as_base_time_hour a = as_base_time_hour b <-> dt_hour a = dt_hour b)).
Proof.
  intros a Ha _.
  pose proof (valid_datetime_fields a Ha) as (Hy & Hm & Hd & Hh & _).
  pose proof (days_in_month_bound (dt_year a) (dt_month a)) as Hdm.
  split; [|split].
  - unfold as_base_date.
    rewrite (format_0d_4 (dt_year a)), (format_0d_2 (dt_month a)),
      (format_0d_2 (dt_day a)) by lia.
    cbn [app]. split; [reflexivity|]. split.
    + unfold is_digit. cbn [forallb].
      assert (0 <= dt_year a / 1000 < 10) by (Z.div_mod_to_equations; lia).
      assert (0 <= (dt_year a / 100) mod 10 < 10) by (apply Z.mod_pos_bound; lia).
      assert (0 <= (dt_year a / 10) mod 10 < 10) by (apply Z.mod_pos_bound; lia).
      assert (0 <= dt_year a mod 10 < 10) by (apply Z.mod_pos_bound; lia).
      assert (0 <= dt_month a / 10 < 10) by (Z.div_mod_to_equations; lia).
      assert (0 <= dt_month a mod 10 < 10) by (apply Z.mod_pos_bound; lia).
      assert (0 <= dt_day a / 10 < 10) by (Z.div_mod_to_equations; lia).
      assert (0 <= dt_day a mod 10 < 10) by (apply Z.mod_pos_bound; lia).
      lia.
    + pose proof (digits_value_4 (dt_year a)) as Hv. unfold digits_value in Hv |- *.
      cbn [fold_left] in Hv |- *.
      assert (Hy' : 0 <= dt_year a < 10000) by lia. specialize (Hv Hy').
      generalize dependent (48 + dt_year a / 1000).
      intros d1. generalize (48 + (dt_year a / 100) mod 10).
      intros d2. generalize (48 + (dt_year a / 10) mod 10).
      intros d3. generalize (48 + dt_year a mod 10).
      intros d4 Hv.
      Z.div_mod_to_equations. lia.
  - unfold as_base_time_hour. rewrite (format_0d_2 (dt_hour a)) by lia.
    change (py "00") with [48; 48]. cbn [app]. split; [reflexivity|]. split.
    + unfold is_digit. cbn [forallb].
      assert (0 <= dt_hour a / 10 < 10) by (Z.div_mod_to_equations; lia).
      assert (0 <= dt_hour a mod 10 < 10) by (apply Z.mod_pos_bound; lia).
      lia.
    + unfold digits_value. cbn [fold_left]. Z.div_mod_to_equations. lia.
  - intros b Hb _.
    pose proof (valid_datetime_fields b Hb) as (Hyb & Hmb & Hdb & Hhb & _).
    pose proof (days_in_month_bound (dt_year b) (dt_month b)) as Hdmb.
    split.
    + rewrite <- (base_date_eqb a b Ha Hb). split.
      * intros ->. apply str_eqb_refl.
      * apply str_eqb_eq.
    + split.
      * unfold as_base_time_hour. intros H. apply app_inv_tail in H.
        rewrite (format_0d_2 (dt_hour a)), (format_0d_2 (dt_hour b)) in H by lia.
        injection H as H1 H2. apply digits2_inj; [lia | lia | exact H1 | exact H2].
      * unfold as_base_time_hour. now intros ->.
Qed.


Lemma casts_back_below_1000 :
  forallb casts_back (map Z.of_nat (seq 0 (Z.to_nat 1000))) = true.
Proof. vm_compute. reflexivity. Qed.

(** X21: the integer cast goes through a float, and for every integer [n]
    with [-1000 < n < 1000] it gives [n] back, from the decimal text of
    [n] as from the JSON number [n]. *)
Theorem X21_small_integers_cast_back :
  forall n,
    -1000 < n < 1000 ->
    safe_cast CastInt (VStr (str_of_int n)) = VInt n
    /\ safe_cast CastInt (VInt n) = VInt n.
Proof.
  intros n Hn.
  assert (Hs : safe_cast CastInt (VStr (str_of_int n)) = VInt n).
  { destruct (Z.leb_spec 0 n) as [Hpos|Hneg].
    - pose proof (forallb_below casts_back 1000 casts_back_below_1000 n) as H.
      unfold casts_back in H.
      destruct (safe_cast CastInt (VStr (str_of_int n))); try (specialize (H ltac:(lia)); discriminate).
      destruct (safe_cast CastInt (VStr (str_of_int (- n)))); try (specialize (H ltac:(lia)); discriminate).
      specialize (H ltac:(lia)). f_equal. lia.
    - pose proof (forallb_below casts_back 1000 casts_back_below_1000 (- n)) as H.
      unfold casts_back in H. rewrite Z.opp_involutive in H.
      destruct (safe_cast CastInt (VStr (str_of_int (- n)))); try (specialize (H ltac:(lia)); discriminate).
      destruct (safe_cast CastInt (VStr (str_of_int n))); try (specialize (H ltac:(lia)); discriminate).
      specialize (H ltac:(lia)). f_equal. lia. }
  split; [exact Hs|].
  unfold safe_cast in Hs |- *. cbn [py_str] in Hs |- *.
  destruct (strip (str_of_int n)); [discriminate|].
  destruct (py_float _) as [f|]; [|discriminate].
  destruct (int_of_float f); [exact Hs | discriminate].
Qed.


(** X4: [get_now_weather] returns the configuration failure exactly when
    [KMA_SERVICE_KEY] is unset, empty or blank; it then carries the message
    of [_need_env], whatever the city, the time and the service, and no
    request has been issued. *)
Theorem X4_missing_credential :
  forall env now up city,
    (strip (env_value env (py "KMA_SERVICE_KEY")) = [] ->
     get_now_weather env now up city
     = (Ok (ConfigFailure (py "KMA_SERVICE_KEY 환경변수가 비어 있습니다.")), []))
    /\ (forall error log,
           get_now_weather env now up city = (Ok (ConfigFailure error), log) ->
           strip (env_value env (py "KMA_SERVICE_KEY")) = []).
Proof.
  intros env now up city. split.
  - intros H. unfold get_now_weather, need_env.
    unfold env_value in H. rewrite H. vm_compute. reflexivity.
  - intros error log H.
    destruct (need_env env (py "KMA_SERVICE_KEY")) as [sk|e0] eqn:Hk.
    2:{ unfold need_env in Hk. unfold env_value.
        destruct (strip match env (py "KMA_SERVICE_KEY") with
                        | Some s => s | None => [] end); [reflexivity | discriminate]. }
    exfalso.
    destruct (dict_get CITY_TO_GRID (normalize_city city)) as [[nx ny]|] eqn:Hg.
    2:{ unfold get_now_weather in H. rewrite Hk, Hg in H. discriminate. }
    destruct (candidate_windows now) as [cands|e0] eqn:Hc.
    2:{ unfold get_now_weather in H. rewrite Hk, Hg, Hc in H. discriminate. }
    rewrite (get_now_weather_loop env now up city sk nx ny cands Hk Hg Hc) in H.
    destruct (for_candidates_inv up sk (normalize_city city) (as_base_date now) nx ny
                cands [] None []) as (k & _ & _ & Hres).
    destruct (for_candidates _ _ _ _ _ _ _ _ _ _) as [[r|[a l]] lg];
      cbn [fst] in Hres; [|discriminate].
    destruct Hres as (pre & w & msg & items & ob & _ & _ & _ & _ & _ & ->).
    discriminate.
Qed.

End Runtime.

(* ================================================================= *)
(** * Concrete runs *)

(** The runs below use only ASCII digits and take the text of strings
    only, so they come out the same under every digit table and every
    [repr]; they are evaluated under [ascii_decimal] and [repr_unused]. *)

(** C1 at 13:40 on 3 November 2026: the candidates are 13:00 and 12:00 of
    that day and both are eligible. *)
Lemma C1_witness :
  exists secondary,
    candidate_windows now_1340 = Ok [replace_to_hour now_1340; secondary]
    /\ map as_base_time_hour
           (eligible (as_base_date now_1340) [replace_to_hour now_1340; secondary])
       = [py "1300"; py "1200"].
Proof.
  destruct (C1_candidate_windows ascii_decimal repr_unused now_1340)
    as (s & Hc & _ & _ & _ & _ & _ & H13 & _).
  - reflexivity.
  - reflexivity.
  - exists s. split; [exact Hc | apply H13; reflexivity].
Defined.

(** C2 where the window of 13:00 answers with one item and the window of
    12:00 would answer with two: the result holds the one item of 13:00 and
    the only request is that of 13:00. *)
Lemma C2_witness :
  exists obs earlier,
    normalize_observations ascii_decimal repr_unused
                           [observation (py "T1H") (py "1.5")] = Ok obs
    /\ get_now_weather ascii_decimal repr_unused env_with_key now_1340
                       up_one_then_two (py "서울")
       = (Ok (Success (py "서울") (60, 127) (py "20261103") (py "1300") obs
                      (earlier ++ [attempt_record (py "20261103") (py "1300") (py "00")
                                     (py "NORMAL_SERVICE")
                                     [observation (py "T1H") (py "1.5")]])),
          [query_params (py "test-key") (py "20261103") (py "1300") 60 127]).
Proof.
  refine (C2_first_accepted_window ascii_decimal repr_unused
            env_with_key now_1340 up_one_then_two (py "서울")
            (py "test-key") 60 127
            [replace_to_hour now_1340; hour_1200] [] (replace_to_hour now_1340)
            [hour_1200] (py "NORMAL_SERVICE") [observation (py "T1H") (py "1.5")]
            _ _ _ _ _ _ _ _).
  - reflexivity.
  - reflexivity.
  - reflexivity.
  - reflexivity.
  - intros [|i] c H; discriminate H.
  - reflexivity.
  - discriminate.
  - reflexivity.
Defined.




(** C6 at ["abc"], cast as a float. *)
Lemma C6_witness :
  safe_cast ascii_decimal repr_unused CastFloat (VStr (py "abc")) = VStr (py "abc").
Proof.
  refine (proj1 (proj2 (proj2 (C6_safe_cast ascii_decimal repr_unused)))
                CastFloat (py "abc") _ _).
  - discriminate.
  - reflexivity.
Defined.

(** C8 at the item of category ["PTY"] and value ["9"]. *)
Lemma C8_witness :
  exists e,
    build_entry ascii_decimal repr_unused (observation (py "PTY") (py "9"))
    = Ok (py "PTY", py "강수형태", py "강수", e)
    /\ e_desc e = Some (py "알 수 없음(9)").
Proof.
  destruct (proj1 (C8_pty_description ascii_decimal repr_unused
                     [(py "category", VStr (py "PTY")); (py "obsrValue", VStr (py "9"))]
                     9 eq_refl eq_refl))
    as (e & Hb & _ & Hd & _).
  exists e. split; [exact Hb | exact Hd].
Defined.

(** C9 at ["도쿄"] with the credential set. *)
Lemma C9_witness :
  get_now_weather ascii_decimal repr_unused env_with_key now_1340 up_no_data
                  (py "도쿄")
  = (Ok (UnsupportedCity (py "지원하지 않는 지역입니다.") (py "도쿄") (py "도쿄")
                         [py "광주"; py "대구"; py "대전"; py "부산";
                          py "서울"; py "세종"; py "울산"; py "인천"]),
     []).
Proof.
  exact (proj1 (C9_unsupported_region ascii_decimal repr_unused
                  env_with_key now_1340 up_no_data (py "도쿄") eq_refl)
               (py "test-key") eq_refl).
Defined.

(** C10 at a value of three blanks, cast as an integer. *)
Lemma C10_witness :
  safe_cast ascii_decimal repr_unused CastInt (VStr (py "   ")) = VNone.
Proof.
  refine (proj1 (C10_missing_value_is_none ascii_decimal repr_unused)
                CastInt (VStr (py "   ")) _).
  right. reflexivity.
Defined.

(** C2 as stated fails: at 13:40 the window of 13:00 answers with code
    ["00"] and the one-item list [[1]], whose item is no object.  The
    response parses with result code ["00"] and a non-empty item list, yet
    no success is returned for it: the window of 12:00 is asked as well,
    and the result is built from its two items. *)
Lemma C2_counterexample :
  parsed repr_unused
         (up_bad_item_then_two 0%nat
            (query_params (py "test-key") (py "20261103") (py "1300") 60 127))
  = Some (py "00", py "NORMAL_SERVICE", [VInt 1])
  /\ map request_window
         (snd (get_now_weather ascii_decimal repr_unused env_with_key now_1340
                               up_bad_item_then_two (py "서울")))
     = [(py "20261103", py "1300"); (py "20261103", py "1200")]
  /\ exists obs attempts,
      normalize_observations ascii_decimal repr_unused
        [observation (py "T1H") (py "2"); observation (py "REH") (py "40")] = Ok obs
      /\ fst (get_now_weather ascii_decimal repr_unused env_with_key now_1340
                              up_bad_item_then_two (py "서울"))
         = Ok (Success (py "서울") (60, 127) (py "20261103") (py "1200") obs attempts).
Proof.
  split; [vm_compute; reflexivity|].
  split; [vm_compute; reflexivity|].
  eexists. eexists. split; vm_compute; reflexivity.
Qed.

(** C6 as stated fails: the empty string is not numeric ([float("")]
    raises), and [safe_cast] returns [None] for it, not the string. *)
Lemma C6_counterexample :
  py_float ascii_decimal (strip []) = None
  /\ safe_cast ascii_decimal repr_unused CastFloat (VStr []) = VNone
  /\ safe_cast ascii_decimal repr_unused CastInt (VStr []) = VNone
  /\ safe_cast ascii_decimal repr_unused CastFloat (VStr []) <> VStr [].
Proof. vm_compute. repeat split. discriminate. Qed.

(** C9 as stated fails: without the credential the result for the
    unsupported ["도쿄"] is the configuration failure, which carries neither
    the input nor its normalised form nor the supported keys. *)
Lemma C9_counterexample :
  dict_mem CITY_TO_GRID (normalize_city (py "도쿄")) = false
  /\ get_now_weather ascii_decimal repr_unused env_without_key now_1340 up_no_data
                     (py "도쿄")
     = (Ok (ConfigFailure (py "KMA_SERVICE_KEY 환경변수가 비어 있습니다.")), []).
Proof. vm_compute. split; reflexivity. Qed.


(* ================================================================= *)
(** * Concrete runs of the further properties *)

(** X2 at ["서울특별시"] with a blank before it and a blank and a line
    feed after it. *)
Lemma X2_witness :
  normalize_city ([32] ++ (py "서울" ++ py "특별시") ++ [32; 10]) = py "서울".
Proof.
  refine (proj1 (X2_supported_names_resolve ascii_decimal repr_unused
                   (py "서울") (py "특별시") [32] [32; 10] _ _ _ _)).
  - vm_compute. left. reflexivity.
  - vm_compute. right. right. left. reflexivity.
  - vm_compute. reflexivity.
  - vm_compute. reflexivity.
Defined.

(** X3 at the advertised example ["서울특별시"]. *)
Lemma X3_witness :
  In (normalize_city (py "서울특별시")) (supported_cities list_supported_cities).
Proof.
  refine (proj2 (proj2 (proj2 X3_city_listing)) (py "서울특별시") _).
  vm_compute. right. left. reflexivity.
Defined.

(** X4 with no credential in the environment. *)
Lemma X4_witness :
  get_now_weather ascii_decimal repr_unused env_without_key now_1340 up_no_data
                  (py "서울")
  = (Ok (ConfigFailure (py "KMA_SERVICE_KEY 환경변수가 비어 있습니다.")), []).
Proof.
  refine (proj1 (X4_missing_credential ascii_decimal repr_unused env_without_key
                   now_1340 up_no_data (py "서울")) _).
  vm_compute. reflexivity.
Defined.

(** X5 at [" 3.0 "], cast as an integer. *)
Lemma X5_witness :
  safe_cast ascii_decimal repr_unused CastInt (VStr (py " 3.0 "))
  = safe_cast ascii_decimal repr_unused CastInt (VStr (strip (py " 3.0 "))).
Proof.
  refine (proj2 (proj2 (proj2 (X5_safe_cast_results ascii_decimal repr_unused
                                 CastInt (py " 3.0 ")))) _).
  intros t. vm_compute. discriminate.
Defined.

(** X6 at ["inf"]. *)
Lemma X6_witness :
  safe_cast ascii_decimal repr_unused CastInt (VStr (py "inf")) = VStr (py "inf")
  /\ safe_cast ascii_decimal repr_unused CastFloat (VStr (py "inf"))
     = VFloat (S754_infinity false).
Proof.
  refine (proj1 (X6_int_cast_of_non_finite ascii_decimal repr_unused)
                (py "inf") (S754_infinity false) _ _ _).
  - vm_compute. discriminate.
  - vm_compute. reflexivity.
  - right. exists false. reflexivity.
Defined.


(** X10 at a temperature and a humidity. *)
Lemma X10_witness :
  exists out,
    normalize_observations ascii_decimal repr_unused
      [observation (py "T1H") (py "1.5"); observation (py "REH") (py "40")] = Ok out
    /\ dict_keys out = [py "기온"; py "습도"; py "강수"; py "바람"; py "기타"]
    /\ (entry_count out <= 2)%nat.
Proof.
  destruct (normalize_observations ascii_decimal repr_unused
              [observation (py "T1H") (py "1.5"); observation (py "REH") (py "40")])
    as [out|e] eqn:H.
  - exists out. split; [reflexivity|].
    exact (X10_five_groups ascii_decimal repr_unused _ out H).
  - exfalso. vm_compute in H. discriminate.
Defined.

(** X11 at a humidity that comes after a temperature. *)
Lemma X11_witness :
  exists out g e,
    normalize_observations ascii_decimal repr_unused
      ([observation (py "T1H") (py "1.5")]
         ++ [VDict [(py "category", VStr (py "REH")); (py "obsrValue", VStr (py "40"))]])
    = Ok out
    /\ dict_get out (py "습도") = Some g
    /\ (dict_get g (py "습도") = Some e \/ dict_get g (py "습도(REH)") = Some e).
Proof.
  destruct (normalize_observations ascii_decimal repr_unused
      ([observation (py "T1H") (py "1.5")]
         ++ [VDict [(py "category", VStr (py "REH")); (py "obsrValue", VStr (py "40"))]]))
    as [out|x] eqn:H.
  - destruct (X11_last_item_is_kept ascii_decimal repr_unused _ _ out H)
      as (g & e & _ & Hg & Hl).
    exists out, g, e. split; [reflexivity|]. split; [exact Hg | exact Hl].
  - exfalso. vm_compute in H. discriminate.
Defined.

(** X12 at two temperatures. *)
Lemma X12_witness :
  exists ea eb,
    normalize_observations ascii_decimal repr_unused
      [VDict [(py "category", VStr (py "T1H")); (py "obsrValue", VStr (py "1"))];
       VDict [(py "category", VStr (py "T1H")); (py "obsrValue", VStr (py "2"))]]
    = Ok [ (py "기온", [(py "기온", ea); (py "기온(T1H)", eb)]);
           (py "습도", []); (py "강수", []); (py "바람", []); (py "기타", []) ].
Proof.
  destruct (X12_second_of_two_is_suffixed ascii_decimal repr_unused
              [(py "category", VStr (py "T1H")); (py "obsrValue", VStr (py "1"))]
              [(py "category", VStr (py "T1H")); (py "obsrValue", VStr (py "2"))])
    as (ea & eb & _ & _ & H).
  - vm_compute. reflexivity.
  - exists ea, eb. exact H.
Defined.

(** X13 at the category ["SKY"], which the table does not know. *)
Lemma X13_witness :
  build_entry ascii_decimal repr_unused
              (VDict [(py "category", VStr (py "SKY")); (py "obsrValue", VStr (py "1"))])
  = Ok (py "SKY", py "SKY", py "기타",
        {| e_code := py "SKY"; e_value := VStr (py "1"); e_unit := None;
           e_desc := None; e_dir16 := None |}).
Proof.
  refine (proj1 (X13_unknown_category ascii_decimal repr_unused
                   [(py "category", VStr (py "SKY")); (py "obsrValue", VStr (py "1"))]
                   _)).
  vm_compute. intros H.
  repeat (destruct H as [H|H]; [discriminate H|]). exact H.
Defined.


(** X14 at a wind direction of 270 degrees. *)
Lemma X14_witness :
  exists e,
    build_entry ascii_decimal repr_unused (observation (py "VEC") (py "270"))
    = Ok (py "VEC", py "풍향", py "바람", e)
    /\ e_value e = VInt 270
    /\ e_dir16 e
       = match as_int (e_value e) with
         | Some v => Some (nth (Z.to_nat (sector_index v)) WIND_DIR_16_KO [])
         | None => None
         end.
Proof.
  assert (H : build_entry ascii_decimal repr_unused (observation (py "VEC") (py "270"))
              = Ok (py "VEC", py "풍향", py "바람",
                    {| e_code := py "VEC"; e_value := VInt 270;
                       e_unit := Some (py "deg"); e_desc := None;
                       e_dir16 := Some (py "서") |})).
  { vm_compute. reflexivity. }
  eexists. split; [exact H|]. split; [reflexivity|].
  exact (proj2 (proj2 (proj1 (X14_entry_decoration ascii_decimal repr_unused
                                _ _ _ _ _ H) eq_refl))).
Defined.

(** X15 at 13:40 with a service that cannot be reached. *)
Lemma X15_witness :
  get_now_weather ascii_decimal repr_unused env_with_key now_1340 up_unreachable
                  (py "서울")
  = (Ok (Failure (py "RequestError: " ++ py "timed out")
                 (normalize_city (py "서울")) (60, 127) (as_base_date now_1340)
                 (map as_base_time_hour
                      (eligible (as_base_date now_1340)
                                [replace_to_hour now_1340; hour_1200]))
                 []),
     map (window_request (py "test-key") (as_base_date now_1340) 60 127)
         (eligible (as_base_date now_1340) [replace_to_hour now_1340; hour_1200])).
Proof.
  destruct (X15_service_errors_are_reported ascii_decimal repr_unused
              env_with_key now_1340 up_unreachable (py "서울") (py "test-key") 60 127
              [replace_to_hour now_1340; hour_1200])
    as (before & last & e & _ & He & Hres).
  - vm_compute. reflexivity.
  - vm_compute. reflexivity.
  - vm_compute. reflexivity.
  - intros i c _. eexists. reflexivity.
  - unfold up_unreachable in He. injection He as <-. exact Hres.
Defined.

(** X16 at 13:40, where the answer for 13:00 does not normalise and the
    answer for 12:00 is accepted. *)
Lemma X16_witness :
  exists region grid base_date base_time obs attempts log earlier msg items,
    get_now_weather ascii_decimal repr_unused env_with_key now_1340
                    up_bad_item_then_two (py "서울")
    = (Ok (Success region grid base_date base_time obs attempts), log)
    /\ log = earlier
               ++ [query_params (strip (env_value env_with_key (py "KMA_SERVICE_KEY")))
                                (as_base_date now_1340) base_time (fst grid) (snd grid)]
    /\ Forall (fun p => accepted repr_unused (snd p) = false)
              (answers up_bad_item_then_two 0 earlier)
    /\ parsed repr_unused
              (up_bad_item_then_two (length earlier)
                 (query_params (strip (env_value env_with_key (py "KMA_SERVICE_KEY")))
                               (as_base_date now_1340) base_time (fst grid) (snd grid)))
       = Some (py "00", msg, items)
    /\ normalize_observations ascii_decimal repr_unused items = Ok obs.
Proof.
  destruct (get_now_weather ascii_decimal repr_unused env_with_key now_1340
                            up_bad_item_then_two (py "서울")) as [[r|x] log] eqn:H;
    [destruct r as [error|error input normalized supported
                    |region grid base_date base_time obs attempts
                    |error region grid base_date times attempts]|];
    try (exfalso; vm_compute in H; discriminate H).
  destruct (X16_success_is_sound ascii_decimal repr_unused _ _ _ _ _ _ _ _ _ _ _ H)
    as (earlier & msg & items & Hlog & _ & _ & _ & Hall & Hp & _ & Hn).
  exists region, grid, base_date, base_time, obs, attempts, log, earlier, msg, items.
  split; [reflexivity|]. split; [exact Hlog|]. split; [exact Hall|].
  split; [exact Hp | exact Hn].
Defined.

(** X17 at 13:40 with a service that cannot be reached. *)
Lemma X17_witness :
  is_failure (fst (get_now_weather ascii_decimal repr_unused env_with_key now_1340
                                   up_unreachable (py "서울"))) = true.
Proof.
  refine (proj2 (proj1 (X17_failure_iff_no_window_accepted ascii_decimal repr_unused
                          env_with_key now_1340 up_unreachable (py "서울")
                          (py "test-key") 60 127
                          [replace_to_hour now_1340; hour_1200] _ _ _)) _).
  - vm_compute. reflexivity.
  - vm_compute. reflexivity.
  - vm_compute. reflexivity.
  - assert (E : eligible (as_base_date now_1340) [replace_to_hour now_1340; hour_1200]
                = [replace_to_hour now_1340; hour_1200]) by (vm_compute; reflexivity).
    rewrite E. cbn [map answers].
    constructor; [reflexivity|]. constructor; [reflexivity | constructor].
Defined.

(** X18 at the request for 13:00 of the run of 13:40. *)
Lemma X18_witness :
  exists nx ny cands c,
    dict_get CITY_TO_GRID (normalize_city (py "서울")) = Some (nx, ny)
    /\ candidate_windows now_1340 = Ok cands
    /\ In c (eligible (as_base_date now_1340) cands)
    /\ strip (env_value env_with_key (py "KMA_SERVICE_KEY")) <> []
    /\ query_params (py "test-key") (py "20261103") (py "1300") 60 127
       = {| rq_serviceKey := strip (env_value env_with_key (py "KMA_SERVICE_KEY"));
            rq_numOfRows := py "1000"; rq_pageNo := py "1";
            rq_dataType := py "JSON";
            rq_base_date := as_base_date now_1340;
            rq_base_time := as_base_time_hour c;
            rq_nx := str_of_int nx; rq_ny := str_of_int ny |}.
Proof.
  refine (X18_request_parameters ascii_decimal repr_unused env_with_key now_1340
            up_one_then_two (py "서울")
            (query_params (py "test-key") (py "20261103") (py "1300") 60 127) _).
  vm_compute. left. reflexivity.
Defined.

(** X19 at 13:40, where both answers are read and the second is accepted. *)
Lemma X19_witness :
  exists r log,
    get_now_weather ascii_decimal repr_unused env_with_key now_1340
                    up_bad_item_then_two (py "서울") = (Ok r, log)
    /\ attempts_of r = trail repr_unused (answers up_bad_item_then_two 0 log)
    /\ (length (attempts_of r) <= length log)%nat.
Proof.
  destruct (get_now_weather ascii_decimal repr_unused env_with_key now_1340
                            up_bad_item_then_two (py "서울")) as [[r|x] log] eqn:H.
  - destruct (X19_attempt_trail ascii_decimal repr_unused _ _ _ _ r log H)
      as (H1 & H2 & _).
    exists r, log. split; [reflexivity|]. split; [exact H1 | exact H2].
  - exfalso. vm_compute in H. discriminate H.
Defined.

(** X20 at 13:40 on 3 November 2026. *)
Lemma X20_witness :
  digits_value (as_base_date now_1340) = 2026 * 10000 + 11 * 100 + 3
  /\ digits_value (as_base_time_hour now_1340) = 13 * 100.
Proof.
  destruct (X20_base_date_and_time ascii_decimal now_1340)
    as ((_ & _ & Hd) & (_ & _ & Ht) & _).
  - vm_compute. reflexivity.
  - vm_compute. discriminate.
  - split; [exact Hd | exact Ht].
Defined.

(** X21 at 270. *)
Lemma X21_witness :
  safe_cast ascii_decimal repr_unused CastInt (VStr (py "270")) = VInt 270.
Proof.
  refine (proj1 (X21_small_integers_cast_back ascii_decimal repr_unused 270 _)).
  split; reflexivity.
Defined.
